(** * GetADPSO: enumeration of Active Directory password settings objects

    A shallow embedding of [GetADPSO.py] and the properties of its
    interval decoder, search-base construction, result projections,
    session establishment and top-level sequencing.

    Python values are modelled as they are used by the script: [int] as
    [Z] (unbounded), [str] as [string] (one [ascii] per character),
    [float] as a sign, an integer mantissa and a binary exponent, lists
    as [list], a directory entry as a finite map from attribute names to
    the list of values of the attribute.  Exceptions are the [Raise]
    branch of [Result]; printing, binding, searching and unbinding are
    recorded as events of a trace. *)

From Stdlib Require Import ZArith List String Ascii Bool Lia DecimalString.
From stdpp Require Import gmap strings.
Import ListNotations.

Local Open Scope string_scope.
Local Open Scope Z_scope.

#[local] Arguments String.append !s1 s2 : simpl nomatch.

(** ** Exceptions and results *)

Inductive PyExn : Type :=
  | LDAPSocketOpenError
  | LDAPBindError (msg : string)
  | LDAPKeyError (key : string)
  | LDAPCursorAttributeError (key : string)
  | IndexError
  | TypeError
  | ValueError
  | OverflowError
  | ZeroDivisionError
  | OtherError (msg : string).

Inductive Result (A : Type) : Type :=
  | Ok (a : A)
  | Raise (e : PyExn).
Arguments Ok {A} a.
Arguments Raise {A} e.

Definition rbind {A B : Type} (r : Result A) (k : A -> Result B) : Result B :=
  match r with
  | Ok a => k a
  | Raise e => Raise e
  end.

Notation "'let*' x ':=' r 'in' k" := (rbind r (fun x => k))
  (at level 10, x name, r at level 100, k at level 200).

Definition is_ok {A : Type} (r : Result A) : bool :=
  match r with Ok _ => true | Raise _ => false end.

(** ** Python built-ins used by the script *)

Module Py.

(** [s.split(sep)] for a one-character separator. *)
Fixpoint split (sep : ascii) (s : string) : list string :=
  match s with
  | EmptyString => [EmptyString]
  | String c rest =>
      if Ascii.eqb c sep then EmptyString :: split sep rest
      else match split sep rest with
           | [] => [String c EmptyString]
           | w :: ws => String c w :: ws
           end
  end.

(** [sep.join(parts)]. *)
Definition join (sep : string) (parts : list string) : string :=
  String.concat sep parts.

(** [l[i]]: [IndexError] when out of range. *)
Definition index {A : Type} (l : list A) (i : nat) : Result A :=
  match nth_error l i with
  | Some x => Ok x
  | None => Raise IndexError
  end.

(** [str(n)] for an [int]. *)
Definition str_int (n : Z) : string :=
  NilZero.string_of_int (Z.to_int n).

(** [len(s)] for a [str]. *)
Definition len (s : string) : Z := Z.of_nat (String.length s).

(** A finite [float]: the real number [(-1)^neg * mant * 2^exp] with
    [0 <= mant]. *)
Record float : Type := mkFloat { f_neg : bool; f_mant : Z; f_exp : Z }.

(** Nearest integer to [n / d], ties to even ([0 <= n], [0 < d]). *)
Definition round_half_even (n d : Z) : Z :=
  let q := n / d in
  let r := n mod d in
  if 2 * r <? d then q
  else if d <? 2 * r then q + 1
  else if Z.even q then q else q + 1.

(** [b * 2^k <= a] for an exponent of either sign. *)
Definition scaled_le (b k a : Z) : bool :=
  if 0 <=? k then b * 2 ^ k <=? a else b <=? a * 2 ^ (- k).

(** Binary exponent of the quotient: [floor (log2 (a / b))] for
    [0 < a], [0 < b]. *)
Definition quot_log2 (a b : Z) : Z :=
  let k0 := Z.log2 a - Z.log2 b in
  if scaled_le b k0 a then k0 else k0 - 1.

(** Magnitude of [a / b] as binary64: the quotient is rounded once, to
    53 significant bits (fewer in the subnormal range, exponent at
    least -1074), ties to even. *)
Definition truediv_mag (a b : Z) : Z * Z :=
  if a =? 0 then (0, 0)
  else
    let e := Z.max (quot_log2 a b - 52) (-1074) in
    let m := if 0 <=? e then round_half_even a (b * 2 ^ e)
             else round_half_even (a * 2 ^ (- e)) b in
    (m, e).

(** [a / b] for two [int]s: true division, correctly rounded. *)
Definition truediv (a b : Z) : Result float :=
  if b =? 0 then Raise ZeroDivisionError
  else
    let '(m, e) := truediv_mag (Z.abs a) (Z.abs b) in
    if 2 ^ 1024 <=? m * 2 ^ Z.max e 0 then Raise OverflowError
    else Ok (mkFloat (xorb (a <? 0) (b <? 0)) m e).

(** [abs(x)] for a [float]. *)
Definition abs_float (x : float) : float :=
  mkFloat false (f_mant x) (f_exp x).

(** [int(x)] for a [float]: truncation towards zero. *)
Definition int_float (x : float) : Z :=
  let mag := if 0 <=? f_exp x then f_mant x * 2 ^ f_exp x
             else f_mant x / 2 ^ (- f_exp x) in
  if f_neg x then - mag else mag.

(** [s * n]: [n] copies of [s]. *)
Fixpoint repeat_str (s : string) (n : nat) : string :=
  match n with
  | O => EmptyString
  | S n' => s ++ repeat_str s n'
  end.

(** [f"{s:<{width}}"] for a [str]: left-aligned, padded with spaces. *)
Definition ljust (s : string) (width : Z) : string :=
  s ++ repeat_str " " (Z.to_nat (width - len s)).

(** Whether a character is printable for [repr] (code points below 256). *)
Definition printable (c : ascii) : bool :=
  let n := Z.of_N (N_of_ascii c) in
  ((32 <=? n) && (n <=? 126)) || ((161 <=? n) && negb (n =? 173)).

Definition hex_digit (n : N) : ascii :=
  match n with
  | 0%N => "0" | 1%N => "1" | 2%N => "2" | 3%N => "3" | 4%N => "4"
  | 5%N => "5" | 6%N => "6" | 7%N => "7" | 8%N => "8" | 9%N => "9"
  | 10%N => "a" | 11%N => "b" | 12%N => "c" | 13%N => "d" | 14%N => "e"
  | _ => "f"
  end%char.

Definition squote : ascii := "039"%char.
Definition dquote : ascii := "034"%char.
Definition backslash : ascii := "092"%char.

Fixpoint contains_char (c : ascii) (s : string) : bool :=
  match s with
  | EmptyString => false
  | String x rest => Ascii.eqb x c || contains_char c rest
  end.

(** The body of [repr(s)] between the quotes. *)
Fixpoint repr_body (quote : ascii) (s : string) : string :=
  match s with
  | EmptyString => EmptyString
  | String c rest =>
      let esc :=
        if Ascii.eqb c quote || Ascii.eqb c backslash
        then String backslash (String c EmptyString)
        else if Ascii.eqb c "009" then String backslash "t"
        else if Ascii.eqb c "010" then String backslash "n"
        else if Ascii.eqb c "013" then String backslash "r"
        else if printable c then String c EmptyString
        else String backslash
               (String "x" (String (hex_digit (N_of_ascii c / 16))
                 (String (hex_digit (N_of_ascii c mod 16)) EmptyString))) in
      esc ++ repr_body quote rest
  end.

(** [repr(s)] for a [str]: single quotes unless the text has a single
    quote and no double quote. *)
Definition repr_str (s : string) : string :=
  let quote := if contains_char squote s && negb (contains_char dquote s)
               then dquote else squote in
  String quote (repr_body quote s ++ String quote EmptyString).

(** [str(l)] for a list of [str]. *)
Definition str_list (l : list string) : string :=
  "[" ++ join ", " (map repr_str l) ++ "]".

(** Characters [int()] strips around a numeral. *)
Definition is_space (c : ascii) : bool :=
  let n := Z.of_N (N_of_ascii c) in
  ((9 <=? n) && (n <=? 13)) || ((28 <=? n) && (n <=? 32))
  || (n =? 133) || (n =? 160).

Definition digit_val (c : ascii) : option Z :=
  let n := Z.of_N (N_of_ascii c) in
  if (48 <=? n) && (n <=? 57) then Some (n - 48) else None.

Fixpoint lstrip (s : string) : string :=
  match s with
  | String c rest => if is_space c then lstrip rest else s
  | EmptyString => EmptyString
  end.

Definition all_space (s : string) : bool :=
  match lstrip s with EmptyString => true | _ => false end.

(** Digits of a numeral after its first digit, read left to right into
    [acc]; one underscore is allowed between two digits; trailing
    white space is allowed. *)
Fixpoint int_digits (acc : Z) (s : string) : option Z :=
  match s with
  | EmptyString => Some acc
  | String c rest =>
      match digit_val c with
      | Some d => int_digits (10 * acc + d) rest
      | None =>
          if Ascii.eqb c "_" then
            match rest with
            | String c' rest' =>
                match digit_val c' with
                | Some d => int_digits (10 * acc + d) rest'
                | None => None
                end
            | EmptyString => None
            end
          else if all_space s then Some acc else None
      end
  end.

Definition int_unsigned (s : string) : option Z :=
  match s with
  | String c rest =>
      match digit_val c with
      | Some d => int_digits d rest
      | None => None
      end
  | EmptyString => None
  end.

(** [int(s)] for a [str], base ten. *)
Definition int_str (s : string) : Result Z :=
  let r :=
    match lstrip s with
    | String "-" rest => option_map Z.opp (int_unsigned rest)
    | String "+" rest => int_unsigned rest
    | t => int_unsigned t
    end in
  match r with
  | Some n => Ok n
  | None => Raise ValueError
  end.

End Py.

(** ** [dateutil.relativedelta], restricted to the fields the script reads *)

Record relativedelta : Type :=
  mkRd { rd_days : Z; rd_hours : Z; rd_minutes : Z; rd_seconds : Z }.

Definition sign (x : Z) : Z := if x <? 0 then -1 else 1.

(** [relativedelta(seconds=sec)]: the constructor stores the argument and
    normalises seconds into minutes, minutes into hours and hours into
    days; days are not carried further. *)
Definition rd (sec : Z) : relativedelta :=
  let seconds := sec in
  let minutes := 0 in
  let hours := 0 in
  let days := 0 in
  let '(seconds, minutes) :=
    if 59 <? Z.abs seconds then
      let s := sign seconds in
      ((seconds * s) mod 60 * s, minutes + (seconds * s) / 60 * s)
    else (seconds, minutes) in
  let '(minutes, hours) :=
    if 59 <? Z.abs minutes then
      let s := sign minutes in
      ((minutes * s) mod 60 * s, hours + (minutes * s) / 60 * s)
    else (minutes, hours) in
  let '(hours, days) :=
    if 23 <? Z.abs hours then
      let s := sign hours in
      ((hours * s) mod 24 * s, days + (hours * s) / 24 * s)
    else (hours, days) in
  mkRd days hours minutes seconds.

(** ** The script *)

(** [base_creator], lines 7-8. *)
Definition base_creator (domain : string) : string :=
  Py.join "," (map (fun part => "DC=" ++ part) (Py.split "." domain)).

(** The format string of [clock] applied to a [relativedelta]. *)
Definition fmt (d : relativedelta) : string :=
  Py.str_int (rd_days d) ++ " days " ++ Py.str_int (rd_hours d) ++ " hours "
  ++ Py.str_int (rd_minutes d) ++ " minutes " ++ Py.str_int (rd_seconds d)
  ++ " seconds".

(** [clock], lines 10-13. *)
Definition clock (nano : Z) : Result string :=
  let* q := Py.truediv nano 10000000 in
  let sec := Py.int_float (Py.abs_float q) in
  Ok (fmt (rd sec)).

(** The interval decoder as the specification words it: absolute value,
    whole seconds by integer truncation, flat days, hours, minutes and
    seconds. *)
Definition decodeInterval_reference (ticks : Z) : string :=
  let sec := Z.abs ticks / 10000000 in
  let d := sec / 86400 in
  let h := (sec mod 86400) / 3600 in
  let m := (sec mod 3600) / 60 in
  let s := sec mod 60 in
  Py.str_int d ++ " days " ++ Py.str_int h ++ " hours "
  ++ Py.str_int m ++ " minutes " ++ Py.str_int s ++ " seconds".


(** ** Directory entries ([ldap3] entries and attributes) *)

(** An entry maps the name of an attribute to its values; the names are
    the ones the script writes. *)
Abbreviation Entry := (gmap string (list string)).

(** What [attribute.value] returns: [None] without values, the value when
    there is one, the list of values otherwise. *)
Inductive Value : Type :=
  | VNone
  | VStr (s : string)
  | VList (l : list string).

Module Attr.

(** [key in entry]. *)
Definition contains (entry : Entry) (key : string) : bool :=
  match entry !! key with Some _ => true | None => false end.

(** [entry[key]]. *)
Definition getitem (entry : Entry) (key : string) : Result (list string) :=
  match entry !! key with
  | Some values => Ok values
  | None => Raise (LDAPKeyError key)
  end.

(** [entry.key]. *)
Definition getattr (entry : Entry) (key : string) : Result (list string) :=
  match entry !! key with
  | Some values => Ok values
  | None => Raise (LDAPCursorAttributeError key)
  end.

(** Truth value of an attribute: it has a value. *)
Definition truthy (values : list string) : bool :=
  match values with [] => false | _ => true end.

(** [str(attribute)]. *)
Definition str (values : list string) : string :=
  match values with
  | [v] => v
  | _ => Py.str_list values
  end.

(** [attribute.value]. *)
Definition value (values : list string) : Value :=
  match values with
  | [] => VNone
  | [v] => VStr v
  | _ => VList values
  end.

End Attr.

(** [f"{v}"]. *)
Definition format_value (v : Value) : string :=
  match v with
  | VNone => "None"
  | VStr s => s
  | VList l => Py.str_list l
  end.

(** [f"{v:<{width}}"]: only a [str] accepts the alignment. *)
Definition format_left (v : Value) (width : Z) : Result string :=
  match v with
  | VStr s => Ok (Py.ljust s width)
  | _ => Raise TypeError
  end.

(** [len(v)]. *)
Definition len_value (v : Value) : Result Z :=
  match v with
  | VNone => Raise TypeError
  | VStr s => Ok (Py.len s)
  | VList l => Ok (Z.of_nat (List.length l))
  end.

(** [int(v)]. *)
Definition int_value (v : Value) : Result Z :=
  match v with
  | VStr s => Py.int_str s
  | _ => Raise TypeError
  end.

(** [text.split(',')[0].split('=')[1]], lines 59 and 112. *)
Definition pso_name_of (text : string) : Result string :=
  let* rdn := Py.index (Py.split "," text) 0 in
  Py.index (Py.split "=" rdn) 1.

(** ** Projections: the loops of lines 51-64 and 104-117 *)

(** The accumulated rows and column widths. *)
Record Table : Type :=
  mkTable { results : list (Value * string); max_name_length : Z; max_pso_length : Z }.

(** One iteration of the loop of [get_user_attributes], lines 56-64. *)
Definition user_step (t : Table) (entry : Entry) : Result Table :=
  if Attr.contains entry "msDS-ResultantPSO"
     && match Attr.getitem entry "msDS-ResultantPSO" with
        | Ok a => Attr.truthy a
        | Raise _ => false
        end
  then
    let* sam_account_name :=
      (if Attr.contains entry "sAMAccountName"
       then let* a := Attr.getattr entry "sAMAccountName" in Ok (Attr.value a)
       else Ok (VStr "N/A")) in
    let* a := Attr.getitem entry "msDS-ResultantPSO" in
    let msds_resultant_pso := Attr.str a in
    let* pso_name := pso_name_of msds_resultant_pso in
    let results := (results t ++ [(sam_account_name, pso_name)])%list in
    let* n := len_value sam_account_name in
    Ok (mkTable results (Z.max (max_name_length t) n)
                (Z.max (max_pso_length t) (Py.len pso_name)))
  else Ok t.

(** One iteration of the loop of [get_group_pso], lines 109-117. *)
Definition group_step (t : Table) (entry : Entry) : Result Table :=
  if Attr.contains entry "msDS-PSOApplied"
     && match Attr.getitem entry "msDS-PSOApplied" with
        | Ok a => Attr.truthy a
        | Raise _ => false
        end
  then
    let* a := Attr.getattr entry "cn" in
    let name := Attr.value a in
    let* a := Attr.getitem entry "msDS-PSOApplied" in
    let msds_pso_applied := Attr.str a in
    let* pso_name := pso_name_of msds_pso_applied in
    let results := (results t ++ [(name, pso_name)])%list in
    let* n := len_value name in
    Ok (mkTable results (Z.max (max_name_length t) n)
                (Z.max (max_pso_length t) (Py.len pso_name)))
  else Ok t.

(** A [for] loop over the entries that an exception leaves at once. *)
Fixpoint for_each {S : Type} (step : S -> Entry -> Result S) (s : S)
    (entries : list Entry) : Result S :=
  match entries with
  | [] => Ok s
  | entry :: rest => let* s' := step s entry in for_each step s' rest
  end.

(** Lines 51-64. *)
Definition project_users (entries : list Entry) : Result Table :=
  for_each user_step (mkTable [] (Py.len "Users") (Py.len "PSO")) entries.

(** Lines 104-117. *)
Definition project_groups (entries : list Entry) : Result Table :=
  for_each group_step (mkTable [] (Py.len "Groups") (Py.len "PSO")) entries.

(** ** Effects: the trace of a run *)

(** A bound [Connection]. *)
Record Connection : Type :=
  mkConnection { server_address : string; conn_user : string;
                 conn_password : string; conn_use_ssl : bool }.

(** What a run does to the outside: a [print] with its argument, a bind
    attempt ([Connection(..., auto_bind=True)]), a search, an unbind, and
    the [print] of line 212, whose text ends with [str(e)] of the
    exception that was caught. *)
Inductive Event : Type :=
  | Print (text : string)
  | Bind (address user password : string) (use_ssl : bool)
  | Search (conn : Connection) (search_base search_filter : string)
           (attributes : list string)
  | Unbind (conn : Connection)
  | PrintError (text : string) (e : PyExn).

(** The directory service: what a bind attempt and a search answer,
    given everything the run did so far (the request included). *)
Record World : Type :=
  mkWorld { bind_result : list Event -> Result unit;
            search_result : list Event -> Result (list Entry) }.

Definition IO (A : Type) : Type := list Event -> Result A * list Event.

Definition io_ret {A : Type} (a : A) : IO A := fun tr => (Ok a, tr).

Definition io_bind {A B : Type} (m : IO A) (k : A -> IO B) : IO B :=
  fun tr =>
    match m tr with
    | (Ok a, tr') => k a tr'
    | (Raise e, tr') => (Raise e, tr')
    end.

Definition io_lift {A : Type} (r : Result A) : IO A := fun tr => (r, tr).

Definition emit (ev : Event) : IO unit := fun tr => (Ok tt, (tr ++ [ev])%list).

Definition print (text : string) : IO unit := emit (Print text).

(** [try: m except Exception as e: handler e]. *)
Definition io_try (m : IO unit) (handler : PyExn -> IO unit) : IO unit :=
  fun tr =>
    match m tr with
    | (Ok a, tr') => (Ok a, tr')
    | (Raise e, tr') => handler e tr'
    end.

Declare Scope io_scope.
Delimit Scope io_scope with io.
Notation "'let!' x ':=' m 'in' k" := (io_bind m (fun x => k))
  (at level 10, x name, m at level 100, k at level 200) : io_scope.
Notation "m ;; k" := (io_bind m (fun _ => k))
  (at level 100, k at level 200, right associativity) : io_scope.

(** A [for] loop with effects. *)
Fixpoint io_for {A : Type} (l : list A) (body : A -> IO unit) : IO unit :=
  match l with
  | [] => io_ret tt
  | x :: rest => io_bind (body x) (fun _ => io_for rest body)
  end.

Local Open Scope io_scope.

(** [create_connection], lines 15-26. *)
Definition create_connection (w : World) (server_address user password : string)
    (use_ssl : bool) : IO (option Connection) :=
  fun tr =>
    let tr1 := (tr ++ [Bind server_address user password use_ssl])%list in
    match bind_result w tr1 with
    | Ok _ => (Ok (Some (mkConnection server_address user password use_ssl)), tr1)
    | Raise LDAPSocketOpenError =>
        (Ok None, (tr1 ++ [Print ("Could not connect to " ++ server_address)])%list)
    | Raise (LDAPBindError msg) =>
        (Ok None,
         (tr1 ++ [Print ("Failed to bind to " ++ server_address ++ ": " ++ msg)])%list)
    | Raise e => (Raise e, tr1)
    end.

(** [conn.search(...)] followed by reading [conn.entries]. *)
Definition search (w : World) (conn : Connection) (search_base search_filter : string)
    (attributes : list string) : IO (list Entry) :=
  fun tr =>
    let tr1 := (tr ++ [Search conn search_base search_filter attributes])%list in
    (search_result w tr1, tr1).

Definition unbind (conn : Connection) : IO unit := emit (Unbind conn).

(** Truth value of the optional [dc_ip] argument. *)
Definition target (domain : string) (dc_ip : option string) : string :=
  match dc_ip with
  | Some (String c ip) => String c ip
  | _ => domain
  end.

(** Lines 29-38, 82-90 and 135-143: the same text in the three query
    functions. *)
Definition connect (w : World) (username password domain : string)
    (dc_ip : option string) : IO (option Connection) :=
  let user := domain ++ "\" ++ username in
  let server_address_ldap := target domain dc_ip ++ ":389" in
  let server_address_ldaps := target domain dc_ip ++ ":636" in
  let! conn := create_connection w server_address_ldap user password false in
  match conn with
  | Some _ => io_ret conn
  | None =>
      print "LDAP on port 389 failed, trying LDAPS on port 636...";;
      create_connection w server_address_ldaps user password true
  end.

Definition ESC : string := String "027" EmptyString.
Definition GREEN : string := ESC ++ "[92m".
Definition BLUE : string := ESC ++ "[94m".
Definition CYAN : string := ESC ++ "[96m".
Definition RESET : string := ESC ++ "[0m".

(** Lines 70-77 and 123-130: header, separator and one line per row. *)
Definition print_table (title : string) (t : Table) : IO unit :=
  let header := "| " ++ Py.ljust title (max_name_length t) ++ " | "
                ++ Py.ljust "PSO" (max_pso_length t) ++ " |" in
  let separator := "| " ++ Py.repeat_str "-" (Z.to_nat (max_name_length t)) ++ " | "
                   ++ Py.repeat_str "-" (Z.to_nat (max_pso_length t)) ++ " |" in
  print header;;
  print separator;;
  io_for (results t) (fun '(name, pso_name) =>
    let! cell := io_lift (format_left name (max_name_length t)) in
    print ("| " ++ GREEN ++ cell ++ RESET ++ " | "
           ++ Py.ljust pso_name (max_pso_length t) ++ " |")).

(** [get_user_attributes], lines 28-79. *)
Definition get_user_attributes (w : World) (username password domain : string)
    (dc_ip : option string) : IO unit :=
  let! conn := connect w username password domain dc_ip in
  match conn with
  | None => print "Both LDAP and LDAPS connection attempts failed."
  | Some conn =>
      let search_base := "DC=" ++ Py.join ",DC=" (Py.split "." domain) in
      let search_filter := "(objectClass=user)" in
      let! entries := search w conn search_base search_filter
                        ["sAMAccountName"; "msDS-ResultantPSO"] in
      let! t := io_lift (project_users entries) in
      print_table "Users" t;;
      unbind conn
  end.

(** [get_group_pso], lines 81-132. *)
Definition get_group_pso (w : World) (username password domain : string)
    (dc_ip : option string) : IO unit :=
  let! conn := connect w username password domain dc_ip in
  match conn with
  | None => print "Both LDAP and LDAPS connection attempts failed."
  | Some conn =>
      let search_base := "DC=" ++ Py.join ",DC=" (Py.split "." domain) in
      let search_filter := "(objectClass=group)" in
      let! entries := search w conn search_base search_filter
                        ["cn"; "msDS-PSOApplied"] in
      let! t := io_lift (project_groups entries) in
      print_table "Groups" t;;
      unbind conn
  end.

(** [entry[key].value] inside an f-string. *)
Definition field (entry : Entry) (key : string) : Result string :=
  let* a := Attr.getitem entry key in
  Ok (format_value (Attr.value a)).

(** [clock(int(entry[key].value)) if key in entry else 'N/A']. *)
Definition interval (entry : Entry) (key : string) : Result string :=
  if Attr.contains entry key then
    let* a := Attr.getitem entry key in
    let* n := int_value (Attr.value a) in
    clock n
  else Ok "N/A".

(** The body of the loop of [get_pso_details], lines 169-185. *)
Definition pso_block (entry : Entry) : IO unit :=
  let! v := io_lift (field entry "name") in
  print ("Policy Name: " ++ BLUE ++ v ++ RESET);;
  (if Attr.contains entry "description" then
     let! v := io_lift (field entry "description") in
     print ("Description: " ++ v)
   else io_ret tt);;
  let! v := io_lift (field entry "msds-minimumpasswordlength") in
  print ("Minimum Password Length: " ++ CYAN ++ v ++ RESET);;
  let! v := io_lift (field entry "msds-passwordhistorylength") in
  print ("Password History Length: " ++ CYAN ++ v ++ RESET);;
  let! v := io_lift (field entry "msds-lockoutthreshold") in
  print ("Lockout Threshold: " ++ CYAN ++ v ++ RESET);;
  let! v := io_lift (interval entry "msds-lockoutobservationwindow") in
  print ("Observation Window: " ++ v);;
  let! v := io_lift (interval entry "msds-lockoutduration") in
  print ("Lockout Duration: " ++ v);;
  let! v := io_lift (field entry "msds-passwordcomplexityenabled") in
  print ("Complexity Enabled: " ++ v);;
  let! v := io_lift (interval entry "msds-minimumpasswordage") in
  print ("Minimum Password Age: " ++ v);;
  let! v := io_lift (interval entry "msds-maximumpasswordage") in
  print ("Maximum Password Age: " ++ v);;
  let! v := io_lift (field entry "msds-passwordreversibleencryptionenabled") in
  print ("Reversible Encryption: " ++ v);;
  let! v := io_lift (field entry "msds-passwordsettingsprecedence") in
  print ("Precedence: " ++ CYAN ++ v ++ RESET);;
  (if Attr.contains entry "msds-psoappliesto" then
     let! dns := io_lift (Attr.getitem entry "msds-psoappliesto") in
     io_for dns (fun dn => print ("Policy Applies to: " ++ dn))
   else io_ret tt);;
  print "".

Definition pso_attributes : list string :=
  ["name"; "msds-lockoutthreshold"; "msds-psoappliesto"; "msds-minimumpasswordlength";
   "msds-passwordhistorylength"; "msds-lockoutobservationwindow"; "msds-lockoutduration";
   "msds-passwordsettingsprecedence"; "msds-passwordcomplexityenabled"; "description";
   "msds-passwordreversibleencryptionenabled"; "msds-minimumpasswordage";
   "msds-maximumpasswordage"].

(** [get_pso_details], lines 134-189. *)
Definition get_pso_details (w : World) (username password domain : string)
    (dc_ip : option string) : IO unit :=
  let! conn := connect w username password domain dc_ip in
  match conn with
  | None => print "Both LDAP and LDAPS connection attempts failed."
  | Some conn =>
      let search_base :=
        "CN=Password Settings Container,CN=System," ++ base_creator domain in
      let search_filter := "(objectclass=msDS-PasswordSettings)" in
      let! entries := search w conn search_base search_filter pso_attributes in
      (if 0 <? Z.of_nat (List.length entries) then io_for entries pso_block
       else print "Could not enumerate details, you likely do not have the privileges to do so!");;
      unbind conn
  end.

Definition newline : string := String "010" EmptyString.

(** The main block, lines 202-212, after the arguments are parsed. *)
Definition main (w : World) (username password domain dc_ip : string) : IO unit :=
  print "Groups with PSO applied:";;
  get_group_pso w username password domain (Some dc_ip);;
  print (newline ++ "Users with PSO applied:");;
  get_user_attributes w username password domain (Some dc_ip);;
  print (newline ++ "PSO Details:");;
  io_try (get_pso_details w username password domain (Some dc_ip))
    (fun e => emit (PrintError
       "Could not enumerate details, you likely do not have the privileges to do so! Error: " e)).

(** A run starts with an empty trace. *)
Definition run {A : Type} (m : IO A) : Result A * list Event := m [].

(** ** Notions the properties are stated with *)

(** The text starts with the component separator [,DC=]. *)
Definition starts_with_dc_separator (s : string) : bool :=
  match s with
  | String c1 (String c2 (String c3 (String c4 _))) =>
      Ascii.eqb c1 "," && Ascii.eqb c2 "D" && Ascii.eqb c3 "C" && Ascii.eqb c4 "="
  | _ => false
  end.

(** The component separator [,DC=] occurs in the text. *)
Fixpoint has_dc_separator (s : string) : bool :=
  match s with
  | EmptyString => false
  | String _ rest => starts_with_dc_separator s || has_dc_separator rest
  end.

Definition cons_head (c : ascii) (parts : list string) : list string :=
  match parts with
  | [] => [String c EmptyString]
  | w :: ws => String c w :: ws
  end.



(** The text of a domain with every dot replaced by [,DC=]. *)
Fixpoint dots_to_dc (s : string) : string :=
  match s with
  | EmptyString => EmptyString
  | String c rest =>
      if Ascii.eqb c "." then ",DC=" ++ dots_to_dc rest
      else String c (dots_to_dc rest)
  end.

(** The text before the first occurrence of a character: the first
    delimited segment. *)
Fixpoint before (c : ascii) (s : string) : string :=
  match s with
  | EmptyString => EmptyString
  | String x rest => if Ascii.eqb x c then EmptyString else String x (before c rest)
  end.

(** An entry has the attribute, with at least one value. *)
Definition has_values (key : string) (entry : Entry) : bool :=
  match entry !! key with
  | Some (_ :: _) => true
  | _ => false
  end.

(** The account name of an entry as line 57 reads it. *)
Definition account_name (entry : Entry) : Value :=
  match entry !! "sAMAccountName" with
  | Some a => Attr.value a
  | None => VStr "N/A"
  end.

(** A row stands for an entry: the account name as read, and the name
    extracted from the entry's resultant-PSO value. *)
Definition user_row_of (entry : Entry) (row : Value * string) : Prop :=
  fst row = account_name entry
  /\ exists a, entry !! "msDS-ResultantPSO" = Some a
               /\ pso_name_of (Attr.str a) = Ok (snd row).

(** Sample entries. *)
Definition entry_alice : Entry :=
  <["sAMAccountName" := ["alice"]]>
    {["msDS-ResultantPSO" :=
        ["CN=StrictPolicy,CN=Password Settings Container,CN=System,DC=corp,DC=local"]]}.

Definition entry_no_pso : Entry := {["sAMAccountName" := ["carol"]]}.

Definition entry_no_equals : Entry :=
  <["sAMAccountName" := ["bob"]]> {["msDS-ResultantPSO" := ["StrictPolicy"]]}.

Definition entry_empty_account : Entry :=
  <["sAMAccountName" := []]>
    {["msDS-ResultantPSO" := ["CN=StrictPolicy,CN=Password Settings Container"]]}.

Definition group_no_equals : Entry :=
  <["cn" := ["Admins"]]> {["msDS-PSOApplied" := ["StrictPolicy"]]}.

(** The diagnostic [create_connection] prints for the two failures it
    handles: the socket cannot be opened, the bind is rejected. *)
Definition diagnostic (address : string) (e : PyExn) : option string :=
  match e with
  | LDAPSocketOpenError => Some ("Could not connect to " ++ address)
  | LDAPBindError msg => Some ("Failed to bind to " ++ address ++ ": " ++ msg)
  | _ => None
  end.

Definition is_bind (ev : Event) : bool :=
  match ev with Bind _ _ _ _ => true | _ => false end.

Definition is_search (ev : Event) : bool :=
  match ev with Search _ _ _ _ => true | _ => false end.

Definition is_unbind (ev : Event) : bool :=
  match ev with Unbind _ => true | _ => false end.

(** Sample directory services. *)
Definition unreachable : World :=
  mkWorld (fun _ => Raise LDAPSocketOpenError) (fun _ => Ok []).

(** A computation that only prints. *)
Definition prints_only {A : Type} (m : IO A) : Prop :=
  forall tr, exists lines, snd (m tr) = (tr ++ map Print lines)%list.

(** The three query functions. *)
Definition query_functions
  : list (World -> string -> string -> string -> option string -> IO unit) :=
  [get_group_pso; get_user_attributes; get_pso_details].

Definition entry_pso_no_name : Entry := {["description" := ["Service accounts"]]}.

Definition answers_users (entries : list Entry) : World :=
  mkWorld (fun _ => Ok tt) (fun _ => Ok entries).

(** A directory service that accepts every bind and fails the searches
    with one filter: the connection is lost while the answer is read. *)
Definition search_raises_for (search_filter : string) : World :=
  mkWorld (fun _ => Ok tt)
    (fun tr =>
       match List.last tr (Print EmptyString) with
       | Search _ _ f _ =>
           if String.eqb f search_filter
           then Raise (OtherError "LDAPSocketReceiveError")
           else Ok []
       | _ => Ok []
       end).

(** The attributes [pso_block] reads without asking whether the entry
    has them, and the interval attributes with their labels. *)
Definition required_pso_attributes : list string :=
  ["name"; "msds-minimumpasswordlength"; "msds-passwordhistorylength";
   "msds-lockoutthreshold"; "msds-passwordcomplexityenabled";
   "msds-passwordreversibleencryptionenabled"; "msds-passwordsettingsprecedence"].

Definition interval_labels : list (string * string) :=
  [("msds-lockoutobservationwindow", "Observation Window");
   ("msds-lockoutduration", "Lockout Duration");
   ("msds-minimumpasswordage", "Minimum Password Age");
   ("msds-maximumpasswordage", "Maximum Password Age")].

(** A computation that returns after printing the given lines. *)
Definition emits (m : IO unit) (lines : list string) : Prop :=
  forall tr, m tr = (Ok tt, (tr ++ map Print lines)%list).

(** A policy without description, intervals and principals. *)
Definition entry_pso_bare : Entry :=
  list_to_map
    [("name", ["StrictPolicy"]); ("msds-minimumpasswordlength", ["14"]);
     ("msds-passwordhistorylength", ["24"]); ("msds-lockoutthreshold", ["5"]);
     ("msds-passwordcomplexityenabled", ["True"]);
     ("msds-passwordreversibleencryptionenabled", ["False"]);
     ("msds-passwordsettingsprecedence", ["10"])].

(** A policy object as the search of [get_pso_details] returns it:
    [Connection] is built with the defaults of [ldap3] (line 19), under
    which every requested attribute is a key of every entry, and an
    attribute the object lacks has no value. *)
Definition entry_pso_complete : Entry :=
  list_to_map
    [("name", ["StrictPolicy"]); ("description", ["Service accounts"]);
     ("msds-minimumpasswordlength", ["14"]);
     ("msds-passwordhistorylength", ["24"]); ("msds-lockoutthreshold", ["5"]);
     ("msds-lockoutobservationwindow", ["-18000000000"]);
     ("msds-lockoutduration", ["-18000000000"]);
     ("msds-passwordcomplexityenabled", ["True"]);
     ("msds-minimumpasswordage", ["-864000000000"]);
     ("msds-maximumpasswordage", ["-36288000000000"]);
     ("msds-passwordreversibleencryptionenabled", ["False"]);
     ("msds-passwordsettingsprecedence", ["10"]);
     ("msds-psoappliesto", ["CN=Admins,CN=Users,DC=corp,DC=local"])].

(** The same policy when the object has no description. *)
Definition entry_pso_no_description : Entry :=
  <["description" := []]> entry_pso_complete.

(** The same policy when the object has no lockout observation window. *)
Definition entry_pso_no_window : Entry :=
  <["msds-lockoutobservationwindow" := []]> entry_pso_complete.

(** Every requested attribute is a key of the entry. *)
Definition returned_for (attributes : list string) (entry : Entry) : bool :=
  forallb (Attr.contains entry) attributes.

(** A printed line with the given label before its colon. *)
Definition labelled (label : string) (ev : Event) : bool :=
  match ev with
  | Print line => String.eqb (before ":" line) label
  | _ => false
  end.

(** A directory service that rejects the plaintext bind and accepts the
    encrypted one. *)
Definition ldaps_only : World :=
  mkWorld (fun tr =>
             match List.last tr (Print EmptyString) with
             | Bind _ _ _ true => Ok tt
             | _ => Raise (LDAPBindError "invalidCredentials")
             end)
          (fun _ => Ok []).

(** A directory client whose NTLM bind fails before any exchange. *)
Definition bind_unsupported : World :=
  mkWorld (fun _ => Raise ValueError) (fun _ => Ok []).

(** A row fits the columns of a table. *)
Definition row_fits (t : Table) (row : Value * string) : Prop :=
  (exists n, len_value (fst row) = Ok n /\ n <= max_name_length t)
  /\ Py.len (snd row) <= max_pso_length t.

(** The columns of a table are as wide as their title and their widest
    cell, and no wider. *)
Definition columns_fit (title : string) (t : Table) : Prop :=
  Py.len title <= max_name_length t
  /\ Py.len "PSO" <= max_pso_length t
  /\ Forall (row_fits t) (results t)
  /\ (max_name_length t = Py.len title
      \/ exists row, In row (results t) /\ len_value (fst row) = Ok (max_name_length t))
  /\ (max_pso_length t = Py.len "PSO"
      \/ exists row, In row (results t) /\ Py.len (snd row) = max_pso_length t).

(** A row stands for a group entry: the value of its [cn] attribute, and
    the name extracted from the entry's applied-PSO value. *)
Definition group_row_of (entry : Entry) (row : Value * string) : Prop :=
  (exists cn, entry !! "cn" = Some cn /\ fst row = Attr.value cn)
  /\ exists a, entry !! "msDS-PSOApplied" = Some a
               /\ pso_name_of (Attr.str a) = Ok (snd row).

Definition group_admins : Entry :=
  <["cn" := ["Admins"]]>
    {["msDS-PSOApplied" :=
        ["CN=AdminPolicy,CN=Password Settings Container,CN=System,DC=corp,DC=local"]]}.

(** A group without a [cn], as the search returns it: the requested
    attribute is a key of the entry and has no value. *)
Definition group_no_cn : Entry :=
  <["cn" := []]>
    {["msDS-PSOApplied" :=
        ["CN=AdminPolicy,CN=Password Settings Container,CN=System,DC=corp,DC=local"]]}.

Definition entry_no_account : Entry :=
  {["msDS-ResultantPSO" :=
      ["CN=StrictPolicy,CN=Password Settings Container,CN=System,DC=corp,DC=local"]]}.

(** The line [print_table] prints for a row whose name is a [str]. *)
Definition row_line (t : Table) (row : Value * string) : string :=
  "| " ++ GREEN
  ++ match fst row with
     | VStr s => Py.ljust s (max_name_length t)
     | _ => EmptyString
     end
  ++ RESET ++ " | " ++ Py.ljust (snd row) (max_pso_length t) ++ " |".

(** The name of a row is a [str]: the attribute it was read from has one
    value, or the account name is the default. *)
Definition name_is_str (row : Value * string) : Prop :=
  exists s, fst row = VStr s.

(** A computation whose result and printed lines do not depend on what
    the run did before. *)
Definition outputs {A : Type} (m : IO A) (r : Result A) (lines : list string) : Prop :=
  forall tr, m tr = (r, (tr ++ map Print lines)%list).

Definition has_output {A : Type} (m : IO A) : Prop :=
  exists r lines, outputs m r lines.

(** A line of the detail block that names a principal. *)
Definition is_applies_line (line : string) : bool :=
  String.eqb (before ":" line) "Policy Applies to".

(** A policy whose lockout duration is present without a value. *)
Definition entry_pso_empty_duration : Entry :=
  <["msds-lockoutduration" := []]> entry_pso_bare.

(** A policy applied to two principals. *)
Definition entry_pso_two_principals : Entry :=
  <["msds-psoappliesto" :=
      ["CN=Admins,CN=Users,DC=corp,DC=local"; "CN=svc-backup,CN=Users,DC=corp,DC=local"]]>
    entry_pso_bare.

(** The text the main block prints before [str(e)] at line 212. *)
Definition details_error : string :=
  "Could not enumerate details, you likely do not have the privileges to do so! Error: ".

(** A character [repr] copies as it is, whichever quote it chooses. *)
Definition plain_char (c : ascii) : bool :=
  Py.printable c && negb (Ascii.eqb c Py.squote) && negb (Ascii.eqb c Py.dquote)
  && negb (Ascii.eqb c Py.backslash).

Fixpoint plain (s : string) : bool :=
  match s with
  | EmptyString => true
  | String c rest => plain_char c && plain rest
  end.

(** The header and the separator of a table. *)
Definition table_header (title : string) (t : Table) : string :=
  "| " ++ Py.ljust title (max_name_length t) ++ " | "
  ++ Py.ljust "PSO" (max_pso_length t) ++ " |".

Definition table_separator (t : Table) : string :=
  "| " ++ Py.repeat_str "-" (Z.to_nat (max_name_length t)) ++ " | "
  ++ Py.repeat_str "-" (Z.to_nat (max_pso_length t)) ++ " |".

(** A group to which two policies are applied. *)
Definition group_two_policies : Entry :=
  <["cn" := ["Operators"]]>
    {["msDS-PSOApplied" :=
        ["CN=OpsPolicy,CN=Password Settings Container,CN=System,DC=corp,DC=local";
         "CN=Fallback,CN=Password Settings Container,CN=System,DC=corp,DC=local"]]}.

(** * Properties *)

(** ** Splitting and joining *)

Lemma split_cons_head (sep c : ascii) (s : string) :
  Ascii.eqb c sep = false ->
  Py.split sep (String c s) = cons_head c (Py.split sep s).
Proof. intros H. simpl. rewrite H. reflexivity. Qed.

Lemma split_not_nil (sep : ascii) (s : string) : Py.split sep s <> [].
Proof.
  destruct s as [|c s]; simpl; [discriminate|].
  destruct (Ascii.eqb c sep); [discriminate|].
  destruct (Py.split sep s); discriminate.
Qed.

Lemma join_cons_head (sep : string) (c : ascii) (parts : list string) :
  parts <> [] ->
  Py.join sep (cons_head c parts) = String c (Py.join sep parts).
Proof.
  destruct parts as [|w ws]; [congruence|]. intros _.
  destruct ws; reflexivity.
Qed.

Lemma join_cons (sep x : string) (parts : list string) :
  parts <> [] ->
  Py.join sep (x :: parts) = x ++ sep ++ Py.join sep parts.
Proof. destruct parts; [congruence | reflexivity]. Qed.


(** A text without the separator is its own single part. *)
Lemma split_no_sep (c : ascii) (s : string) :
  Py.contains_char c s = false -> Py.split c s = [s].
Proof.
  induction s as [|x s IH]; [reflexivity|]. simpl.
  intros H. apply orb_false_iff in H as [Hx Hs].
  rewrite Hx, (IH Hs). reflexivity.
Qed.

(** The first part ends at the first separator. *)
Lemma split_app_sep (c : ascii) (a b : string) :
  Py.contains_char c a = false ->
  Py.split c (a ++ String c b) = a :: Py.split c b.
Proof.
  induction a as [|x a IH]; simpl.
  - intros _. now rewrite Ascii.eqb_refl.
  - intros H. apply orb_false_iff in H as [Hx Ha].
    rewrite Hx, (IH Ha). reflexivity.
Qed.

(** Splitting a join of separator-free parts gives the parts back. *)
Lemma split_join (c : ascii) (parts : list string) :
  parts <> [] ->
  Forall (fun p => Py.contains_char c p = false) parts ->
  Py.split c (Py.join (String c EmptyString) parts) = parts.
Proof.
  induction parts as [|p ps IH]; [congruence|]. intros _ H.
  inversion H as [|? ? Hp Hps]; subst.
  destruct ps as [|q qs].
  - simpl. now apply split_no_sep.
  - rewrite join_cons by discriminate.
    change (p ++ String c EmptyString ++ Py.join (String c EmptyString) (q :: qs))
      with (p ++ String c (Py.join (String c EmptyString) (q :: qs))).
    rewrite split_app_sep by assumption.
    rewrite IH; [reflexivity | discriminate | assumption].
Qed.

(** ** The search base *)

Lemma join_dc_components (parts : list string) :
  parts <> [] ->
  Py.join "," (map (fun part => "DC=" ++ part) parts)
  = "DC=" ++ Py.join ",DC=" parts.
Proof.
  induction parts as [|p ps IH]; [congruence|]. intros _.
  destruct ps as [|q qs]; [reflexivity|].
  change (map (fun part => "DC=" ++ part) (p :: q :: qs))
    with (("DC=" ++ p) :: map (fun part => "DC=" ++ part) (q :: qs)).
  rewrite join_cons by discriminate.
  rewrite IH by discriminate.
  rewrite (join_cons ",DC=" p) by discriminate.
  simpl. reflexivity.
Qed.

(** The two ways the script writes the search base agree (lines 8 and 43). *)
Lemma base_creator_inline (domain : string) :
  base_creator domain = "DC=" ++ Py.join ",DC=" (Py.split "." domain).
Proof. unfold base_creator. apply join_dc_components, split_not_nil. Qed.

Lemma join_dc_split (domain : string) :
  Py.join ",DC=" (Py.split "." domain) = dots_to_dc domain.
Proof.
  induction domain as [|x s IH]; [reflexivity|].
  simpl Py.split. simpl dots_to_dc. destruct (Ascii.eqb x ".") eqn:E.
  - rewrite join_cons by apply split_not_nil. now rewrite IH.
  - fold (cons_head x (Py.split "." s)).
    rewrite join_cons_head by apply split_not_nil. now rewrite IH.
Qed.



(** The separator has a comma: a text without commas has no separator. *)
Lemma no_comma_no_dc_separator (s : string) :
  Py.contains_char "," s = false -> has_dc_separator s = false.
Proof.
  induction s as [|x s IH]; [reflexivity|].
  cbn [Py.contains_char has_dc_separator]. intros H.
  apply orb_false_iff in H as [Hx Hs]. rewrite (IH Hs), orb_false_r.
  unfold starts_with_dc_separator.
  destruct s as [|? [|? [|? ?]]]; try reflexivity. now rewrite Hx.
Qed.



(** ** Extraction of the name of a password settings object *)

Lemma append_assoc (a b c : string) : (a ++ b) ++ c = a ++ b ++ c.
Proof. induction a as [|x a IH]; simpl; [reflexivity | now rewrite IH]. Qed.

Lemma append_nil_r (a : string) : a ++ "" = a.
Proof. induction a as [|x a IH]; simpl; [reflexivity | now rewrite IH]. Qed.

Lemma contains_char_app (c : ascii) (a b : string) :
  Py.contains_char c (a ++ b) = Py.contains_char c a || Py.contains_char c b.
Proof.
  induction a as [|x a IH]; simpl; [reflexivity|].
  now rewrite IH, orb_assoc.
Qed.

Lemma before_no_sep (c : ascii) (s : string) : Py.contains_char c (before c s) = false.
Proof.
  induction s as [|x s IH]; simpl; [reflexivity|].
  destruct (Ascii.eqb x c) eqn:E; simpl; [reflexivity | now rewrite E].
Qed.

(** The first part of a split is the text before the first separator. *)
Lemma split_head (c : ascii) (s : string) :
  exists parts, Py.split c s = before c s :: parts.
Proof.
  induction s as [|x s [parts IH]]; simpl; [now exists []|].
  destruct (Ascii.eqb x c); [eauto|]. rewrite IH. eauto.
Qed.

Lemma before_app_sep (c : ascii) (a b : string) :
  Py.contains_char c a = false -> before c (a ++ String c b) = a.
Proof.
  induction a as [|x a IH]; simpl.
  - now rewrite Ascii.eqb_refl.
  - intros H. apply orb_false_iff in H as [Hx Ha]. now rewrite Hx, IH.
Qed.

Lemma before_whole (c : ascii) (a : string) :
  Py.contains_char c a = false -> before c a = a.
Proof.
  induction a as [|x a IH]; simpl; [reflexivity|].
  intros H. apply orb_false_iff in H as [Hx Ha]. now rewrite Hx, IH.
Qed.

(** A text with the separator splits into at least two parts. *)
Lemma split_with_sep (c : ascii) (s : string) :
  Py.contains_char c s = true ->
  exists second parts, Py.split c s = before c s :: second :: parts.
Proof.
  induction s as [|x s IH]; simpl; [discriminate|].
  destruct (Ascii.eqb x c) eqn:E; simpl.
  - intros _. destruct (split_head c s) as [parts ->]. eauto.
  - intros H. destruct (IH H) as (second & parts & ->). eauto.
Qed.

(** The extraction reads the first comma-delimited segment only. *)
Lemma pso_name_of_first_segment (text : string) :
  pso_name_of text = Py.index (Py.split "=" (before "," text)) 1.
Proof.
  unfold pso_name_of. destruct (split_head "," text) as [parts ->]. reflexivity.
Qed.

(** The extraction raises [IndexError] exactly when the first
    comma-delimited segment has no equals sign; otherwise it succeeds. *)
Lemma pso_name_of_index_error (text : string) :
  pso_name_of text = Raise IndexError
  <-> Py.contains_char "=" (before "," text) = false.
Proof.
  rewrite pso_name_of_first_segment. split.
  - intros H. destruct (Py.contains_char "=" (before "," text)) eqn:E; [|reflexivity].
    destruct (split_with_sep _ _ E) as (second & parts & Hs).
    rewrite Hs in H. discriminate.
  - intros H. now rewrite (split_no_sep _ _ H).
Qed.

Lemma pso_name_of_ok (text : string) :
  Py.contains_char "=" (before "," text) = true ->
  exists name, pso_name_of text = Ok name.
Proof.
  intros E. rewrite pso_name_of_first_segment.
  destruct (split_with_sep _ _ E) as (second & parts & ->). now exists second.
Qed.

Lemma pso_name_of_cases (text : string) :
  (exists name, pso_name_of text = Ok name) \/ pso_name_of text = Raise IndexError.
Proof.
  destruct (Py.contains_char "=" (before "," text)) eqn:E.
  - left. now apply pso_name_of_ok.
  - right. now apply pso_name_of_index_error.
Qed.

(** The name is what stands between the first equals sign and the next
    equals sign, comma or end of the text. *)
Lemma pso_name_of_component (key name rest : string) :
  Py.contains_char "," key = false -> Py.contains_char "=" key = false ->
  Py.contains_char "," name = false -> Py.contains_char "=" name = false ->
  match rest with
  | EmptyString => True
  | String c _ => c = ","%char \/ c = "="%char
  end ->
  pso_name_of (key ++ "=" ++ name ++ rest) = Ok name.
Proof.
  intros Hk1 Hk2 Hn1 Hn2 Hrest.
  rewrite pso_name_of_first_segment.
  assert (Hseg : exists tail,
             before "," (key ++ "=" ++ name ++ rest) = key ++ String "=" (name ++ tail)
             /\ match tail with
                | EmptyString => True
                | String c _ => c = "="%char
                end).
  { destruct rest as [|c r].
    - exists "". split; [|exact I].
      apply before_whole. rewrite contains_char_app. simpl.
      rewrite contains_char_app. simpl. now rewrite Hk1, Hn1.
    - destruct Hrest as [-> | ->].
      + exists "". split; [|exact I].
        rewrite append_nil_r.
        change (key ++ "=" ++ name ++ String "," r)
          with (key ++ String "=" (name ++ String "," r)).
        replace (key ++ String "=" (name ++ String "," r))
          with ((key ++ String "=" name) ++ String "," r)
          by (rewrite append_assoc; reflexivity).
        apply before_app_sep. rewrite contains_char_app. simpl. now rewrite Hk1, Hn1.
      + exists (String "=" (before "," r)). split; [|reflexivity].
        change (key ++ "=" ++ name ++ String "=" r)
          with (key ++ String "=" (name ++ String "=" r)).
        clear Hk2 Hn2.
        induction key as [|x key IH]; simpl.
        * f_equal. induction name as [|y name IHn]; simpl.
          -- reflexivity.
          -- simpl in Hn1. apply orb_false_iff in Hn1 as [Hy Hn1].
             rewrite Hy. f_equal. now apply IHn.
        * simpl in Hk1. apply orb_false_iff in Hk1 as [Hx Hk1].
          rewrite Hx. f_equal. now apply IH. }
  destruct Hseg as (tail & -> & Htail).
  rewrite split_app_sep by assumption.
  destruct tail as [|c tail].
  - rewrite append_nil_r, (split_no_sep _ _ Hn2). reflexivity.
  - subst c. rewrite split_app_sep by assumption. reflexivity.
Qed.

(** ** One iteration of the projection loops *)

Lemma user_step_skip (t : Table) (entry : Entry) :
  has_values "msDS-ResultantPSO" entry = false -> user_step t entry = Ok t.
Proof.
  unfold has_values, user_step, Attr.contains, Attr.getitem.
  destruct (entry !! "msDS-ResultantPSO") as [[|v vs]|]; simpl; congruence.
Qed.

Lemma user_step_row (t : Table) (entry : Entry) (a : list string) :
  entry !! "msDS-ResultantPSO" = Some a -> a <> [] ->
  user_step t entry =
    let* pso_name := pso_name_of (Attr.str a) in
    let* n := len_value (account_name entry) in
    Ok (mkTable (results t ++ [(account_name entry, pso_name)])%list
                (Z.max (max_name_length t) n)
                (Z.max (max_pso_length t) (Py.len pso_name))).
Proof.
  intros H Ha. unfold user_step, Attr.contains, Attr.getitem, Attr.getattr, account_name.
  rewrite H. destruct a as [|v vs]; [congruence|].
  destruct (entry !! "sAMAccountName"); reflexivity.
Qed.

Lemma group_step_skip (t : Table) (entry : Entry) :
  has_values "msDS-PSOApplied" entry = false -> group_step t entry = Ok t.
Proof.
  unfold has_values, group_step, Attr.contains, Attr.getitem.
  destruct (entry !! "msDS-PSOApplied") as [[|v vs]|]; simpl; congruence.
Qed.

Lemma group_step_row (t : Table) (entry : Entry) (a : list string) :
  entry !! "msDS-PSOApplied" = Some a -> a <> [] ->
  group_step t entry =
    let* cn := Attr.getattr entry "cn" in
    let* pso_name := pso_name_of (Attr.str a) in
    let* n := len_value (Attr.value cn) in
    Ok (mkTable (results t ++ [(Attr.value cn, pso_name)])%list
                (Z.max (max_name_length t) n)
                (Z.max (max_pso_length t) (Py.len pso_name))).
Proof.
  intros H Ha. unfold group_step, Attr.contains, Attr.getitem.
  rewrite H. destruct a as [|v vs]; [congruence|]. reflexivity.
Qed.

Lemma has_values_lookup (key : string) (entry : Entry) :
  has_values key entry = true ->
  exists a, entry !! key = Some a /\ a <> [].
Proof.
  unfold has_values. destruct (entry !! key) as [[|v vs]|]; try discriminate.
  intros _. eexists. split; [reflexivity | discriminate].
Qed.

(** C4. When the resultant-PSO value of an entry is a distinguished name
    [key=name] followed by nothing, a comma or a further equals sign, the
    extracted PSO name is [name]: the first =-delimited segment after the
    = within the first comma-delimited segment, that is the first
    component without its CN= prefix.  This is the name in the row of the
    Users loop (line 59) and of the Groups loop (line 112); for the value
    CN=StrictPolicy,CN=Password Settings Container,CN=System,DC=corp,DC=local
    it is StrictPolicy. *)
Theorem pso_name_is_first_component (key name rest : string) :
  Py.contains_char "," key = false -> Py.contains_char "=" key = false ->
  Py.contains_char "," name = false -> Py.contains_char "=" name = false ->
  match rest with
  | EmptyString => True
  | String c _ => c = ","%char \/ c = "="%char
  end ->
  let dn := key ++ "=" ++ name ++ rest in
  pso_name_of dn = Ok name
  /\ (forall (entry : Entry) (t t' : Table),
        entry !! "msDS-ResultantPSO" = Some [dn] ->
        user_step t entry = Ok t' ->
        results t' = (results t ++ [(account_name entry, name)])%list)
  /\ (forall (entry : Entry) (t t' : Table),
        entry !! "msDS-PSOApplied" = Some [dn] ->
        group_step t entry = Ok t' ->
        exists group, results t' = (results t ++ [(group, name)])%list)
  /\ pso_name_of "CN=StrictPolicy,CN=Password Settings Container,CN=System,DC=corp,DC=local"
     = Ok "StrictPolicy".
Proof.
  intros Hk1 Hk2 Hn1 Hn2 Hrest dn.
  assert (Hdn : pso_name_of dn = Ok name) by now apply pso_name_of_component.
  split; [exact Hdn|]. split; [|split].
  - intros entry t t' He Hstep.
    rewrite (user_step_row t entry [dn] He) in Hstep by discriminate.
    cbn [Attr.str] in Hstep. rewrite Hdn in Hstep. cbn [rbind] in Hstep.
    destruct (len_value (account_name entry)); cbn [rbind] in Hstep; [|discriminate].
    injection Hstep as <-. reflexivity.
  - intros entry t t' He Hstep.
    rewrite (group_step_row t entry [dn] He) in Hstep by discriminate.
    destruct (Attr.getattr entry "cn") as [cn|]; cbn [rbind] in Hstep; [|discriminate].
    cbn [Attr.str] in Hstep. rewrite Hdn in Hstep. cbn [rbind] in Hstep.
    destruct (len_value (Attr.value cn)); cbn [rbind] in Hstep; [|discriminate].
    injection Hstep as <-. now exists (Attr.value cn).
  - apply (pso_name_of_component "CN" "StrictPolicy"
             ",CN=Password Settings Container,CN=System,DC=corp,DC=local");
      try reflexivity. now left.
Qed.

Lemma pso_name_is_first_component_witness :
  pso_name_of "CN=StrictPolicy,CN=Password Settings Container,CN=System,DC=corp,DC=local"
  = Ok "StrictPolicy".
Proof.
  refine (proj1 (pso_name_is_first_component "CN" "StrictPolicy"
            ",CN=Password Settings Container,CN=System,DC=corp,DC=local" _ _ _ _ _));
    try reflexivity.
  left. reflexivity.
Defined.

(** ** The Users and Groups projections *)

Lemma user_step_index_error (t : Table) (entry : Entry) :
  user_step t entry = Raise IndexError ->
  exists a, entry !! "msDS-ResultantPSO" = Some a /\ a <> []
            /\ Py.contains_char "=" (before "," (Attr.str a)) = false.
Proof.
  intros H. destruct (has_values "msDS-ResultantPSO" entry) eqn:Hv.
  - destruct (has_values_lookup _ _ Hv) as (a & Ha & Hne).
    exists a. repeat split; try assumption.
    rewrite (user_step_row t entry a Ha Hne) in H.
    destruct (pso_name_of_cases (Attr.str a)) as [[name Hn] | Hn].
    + rewrite Hn in H. cbn [rbind] in H.
      destruct (len_value (account_name entry)) as [n|e] eqn:Hl; cbn [rbind] in H.
      * discriminate.
      * destruct (account_name entry); simpl in Hl; congruence.
    + now apply pso_name_of_index_error.
  - rewrite user_step_skip in H by assumption. discriminate.
Qed.

Lemma user_step_no_equals (t : Table) (entry : Entry) (a : list string) :
  entry !! "msDS-ResultantPSO" = Some a -> a <> [] ->
  Py.contains_char "=" (before "," (Attr.str a)) = false ->
  user_step t entry = Raise IndexError.
Proof.
  intros Ha Hne Hbad. rewrite (user_step_row t entry a Ha Hne).
  apply pso_name_of_index_error in Hbad. now rewrite Hbad.
Qed.

Lemma group_step_index_error (t : Table) (entry : Entry) :
  group_step t entry = Raise IndexError ->
  exists a, entry !! "msDS-PSOApplied" = Some a /\ a <> []
            /\ Py.contains_char "=" (before "," (Attr.str a)) = false.
Proof.
  intros H. destruct (has_values "msDS-PSOApplied" entry) eqn:Hv.
  - destruct (has_values_lookup _ _ Hv) as (a & Ha & Hne).
    exists a. repeat split; try assumption.
    rewrite (group_step_row t entry a Ha Hne) in H.
    unfold Attr.getattr in H.
    destruct (entry !! "cn") as [cn|]; cbn [rbind] in H; [|discriminate].
    destruct (pso_name_of_cases (Attr.str a)) as [[name Hn] | Hn].
    + rewrite Hn in H. cbn [rbind] in H.
      destruct (len_value (Attr.value cn)) as [n|e] eqn:Hl; cbn [rbind] in H.
      * discriminate.
      * destruct (Attr.value cn); simpl in Hl; congruence.
    + now apply pso_name_of_index_error.
  - rewrite group_step_skip in H by assumption. discriminate.
Qed.

Lemma group_step_no_equals (t : Table) (entry : Entry) (a : list string) :
  entry !! "msDS-PSOApplied" = Some a -> a <> [] ->
  Py.contains_char "=" (before "," (Attr.str a)) = false ->
  is_ok (group_step t entry) = false.
Proof.
  intros Ha Hne Hbad. rewrite (group_step_row t entry a Ha Hne).
  destruct (Attr.getattr entry "cn"); cbn [rbind]; [|reflexivity].
  apply pso_name_of_index_error in Hbad. now rewrite Hbad.
Qed.

(** An exception of the loop is the exception of one of its iterations. *)
Lemma for_each_raise {S : Type} (step : S -> Entry -> Result S) (entries : list Entry) :
  forall (s : S) (e : PyExn),
    for_each step s entries = Raise e ->
    exists s' entry, In entry entries /\ step s' entry = Raise e.
Proof.
  induction entries as [|x xs IH]; intros s e H; simpl in H; [discriminate|].
  destruct (step s x) as [s1|e1] eqn:Hstep; cbn [rbind] in H.
  - destruct (IH _ _ H) as (s' & entry & Hin & Hs). exists s', entry. split; [now right | assumption].
  - injection H as ->. exists s, x. split; [now left | assumption].
Qed.

(** An iteration that cannot succeed makes the loop fail. *)
Lemma for_each_blocked {S : Type} (step : S -> Entry -> Result S) (entries : list Entry)
    (entry : Entry) :
  In entry entries ->
  (forall s, is_ok (step s entry) = false) ->
  forall s, is_ok (for_each step s entries) = false.
Proof.
  intros Hin Hbad. induction entries as [|x xs IH]; [contradiction|].
  intros s. simpl. destruct (step s x) as [s1|e1] eqn:Hstep; cbn [rbind]; [|reflexivity].
  destruct Hin as [-> | Hin].
  - specialize (Hbad s). rewrite Hstep in Hbad. discriminate.
  - now apply IH.
Qed.

Lemma users_rows_from (entries : list Entry) :
  (forall entry a, In entry entries ->
     entry !! "msDS-ResultantPSO" = Some a -> a <> [] ->
     Py.contains_char "=" (before "," (Attr.str a)) = true
     /\ account_name entry <> VNone) ->
  forall t0, exists t rows,
    for_each user_step t0 entries = Ok t
    /\ results t = (results t0 ++ rows)%list
    /\ Forall2 user_row_of (List.filter (has_values "msDS-ResultantPSO") entries) rows.
Proof.
  induction entries as [|x xs IH]; intros Hpre t0.
  - exists t0, []. simpl. rewrite app_nil_r. repeat split. constructor.
  - assert (Hxs : forall entry a, In entry xs ->
              entry !! "msDS-ResultantPSO" = Some a -> a <> [] ->
              Py.contains_char "=" (before "," (Attr.str a)) = true
              /\ account_name entry <> VNone)
      by (intros entry a Hin; apply Hpre; now right).
    cbn [for_each List.filter].
    destruct (has_values "msDS-ResultantPSO" x) eqn:Hv.
    + destruct (has_values_lookup _ _ Hv) as (a & Ha & Hne).
      destruct (Hpre x a (or_introl eq_refl) Ha Hne) as [Heq Hacc].
      destruct (pso_name_of_ok _ Heq) as [name Hname].
      rewrite (user_step_row t0 x a Ha Hne), Hname. cbn [rbind].
      assert (Hlen : exists n, len_value (account_name x) = Ok n)
        by (destruct (account_name x); simpl; [congruence | eauto | eauto]).
      destruct Hlen as [n ->]. cbn [rbind].
      destruct (IH Hxs (mkTable (results t0 ++ [(account_name x, name)])
                           (Z.max (max_name_length t0) n)
                           (Z.max (max_pso_length t0) (Py.len name))))
        as (t & rows & Hrun & Hres & Hrows).
      exists t, ((account_name x, name) :: rows). split; [exact Hrun|]. split.
      * rewrite Hres. cbn [results]. now rewrite <- app_assoc.
      * constructor; [|exact Hrows]. split; [reflexivity|]. now exists a.
    + rewrite (user_step_skip t0 x Hv). cbn [rbind]. apply IH, Hxs.
Qed.

(** C5, as stated, fails: an entry whose resultant-PSO attribute is
    present and non-empty does not get a row when the value has no equals
    sign in its first segment, and takes the row of an earlier entry with
    it; nor does an entry whose account-name attribute has no value. *)
Lemma users_projection_loses_rows :
  has_values "msDS-ResultantPSO" entry_alice = true
  /\ has_values "msDS-ResultantPSO" entry_no_equals = true
  /\ project_users [entry_alice; entry_no_equals] = Raise IndexError
  /\ has_values "msDS-ResultantPSO" entry_empty_account = true
  /\ project_users [entry_empty_account] = Raise TypeError.
Proof. vm_compute. repeat split; reflexivity. Qed.

(** C5, amended.  When every entry with a present, non-empty
    resultant-PSO attribute has an equals sign in the first
    comma-delimited segment of that value, and an account-name attribute
    that is absent or has a value, the Users projection yields exactly one
    row per such entry, in the order of the entries; an entry without the
    attribute yields no row. *)
Theorem users_projection_rows (entries : list Entry) :
  (forall entry a, In entry entries ->
     entry !! "msDS-ResultantPSO" = Some a -> a <> [] ->
     Py.contains_char "=" (before "," (Attr.str a)) = true
     /\ account_name entry <> VNone) ->
  exists t,
    project_users entries = Ok t
    /\ Forall2 user_row_of (List.filter (has_values "msDS-ResultantPSO") entries) (results t)
    /\ (forall entry, entry !! "msDS-ResultantPSO" = None ->
          ~ In entry (List.filter (has_values "msDS-ResultantPSO") entries)).
Proof.
  intros Hpre.
  destruct (users_rows_from entries Hpre (mkTable [] (Py.len "Users") (Py.len "PSO")))
    as (t & rows & Hrun & Hres & Hrows).
  exists t. split; [exact Hrun|]. split.
  - cbn [results app] in Hres. now rewrite Hres.
  - intros entry Hnone Hin. apply filter_In in Hin as [_ Hv].
    unfold has_values in Hv. rewrite Hnone in Hv. discriminate.
Qed.

Lemma users_projection_rows_witness :
  exists t,
    project_users [entry_alice; entry_no_pso] = Ok t
    /\ Forall2 user_row_of
         (List.filter (has_values "msDS-ResultantPSO") [entry_alice; entry_no_pso])
         (results t)
    /\ (forall entry, entry !! "msDS-ResultantPSO" = None ->
          ~ In entry (List.filter (has_values "msDS-ResultantPSO")
                        [entry_alice; entry_no_pso])).
Proof.
  apply (users_projection_rows [entry_alice; entry_no_pso]).
  intros entry a [<- | [<- | []]] Ha Hne.
  - vm_compute in Ha. injection Ha as <-. vm_compute. split; [reflexivity | discriminate].
  - vm_compute in Ha. discriminate.
Defined.

(** C10. The extraction of the PSO name is partial.  Some present,
    non-empty value without an equals sign in its first comma-delimited
    segment makes it raise [IndexError], in the Users and in the Groups
    projection, and no row is produced.  The extraction raises
    [IndexError] exactly when that segment has no equals sign; a
    projection that raises [IndexError] has processed such a value; and a
    projection over entries with such a value does not return. *)
Theorem pso_name_extraction_partial :
  (exists (entry : Entry) (a : list string),
     entry !! "msDS-ResultantPSO" = Some a /\ a <> []
     /\ Py.contains_char "=" (before "," (Attr.str a)) = false
     /\ project_users [entry] = Raise IndexError)
  /\ (exists (entry : Entry) (a : list string),
        entry !! "msDS-PSOApplied" = Some a /\ a <> []
        /\ Py.contains_char "=" (before "," (Attr.str a)) = false
        /\ project_groups [entry] = Raise IndexError)
  /\ (forall text, pso_name_of text = Raise IndexError
                   <-> Py.contains_char "=" (before "," text) = false)
  /\ (forall text, Py.contains_char "=" (before "," text) = true ->
                   exists name, pso_name_of text = Ok name)
  /\ (forall entries, project_users entries = Raise IndexError ->
        exists entry a, In entry entries
          /\ entry !! "msDS-ResultantPSO" = Some a /\ a <> []
          /\ Py.contains_char "=" (before "," (Attr.str a)) = false)
  /\ (forall entries, project_groups entries = Raise IndexError ->
        exists entry a, In entry entries
          /\ entry !! "msDS-PSOApplied" = Some a /\ a <> []
          /\ Py.contains_char "=" (before "," (Attr.str a)) = false)
  /\ (forall entries entry a, In entry entries ->
        entry !! "msDS-ResultantPSO" = Some a -> a <> [] ->
        Py.contains_char "=" (before "," (Attr.str a)) = false ->
        is_ok (project_users entries) = false)
  /\ (forall entries entry a, In entry entries ->
        entry !! "msDS-PSOApplied" = Some a -> a <> [] ->
        Py.contains_char "=" (before "," (Attr.str a)) = false ->
        is_ok (project_groups entries) = false).
Proof.
  split; [|split; [|split; [|split; [|split; [|split; [|split]]]]]].
  - exists entry_no_equals, ["StrictPolicy"]. vm_compute.
    repeat split; try reflexivity. discriminate.
  - exists group_no_equals, ["StrictPolicy"]. vm_compute.
    repeat split; try reflexivity. discriminate.
  - apply pso_name_of_index_error.
  - apply pso_name_of_ok.
  - intros entries H. apply for_each_raise in H as (s & entry & Hin & Hstep).
    apply user_step_index_error in Hstep as (a & Ha). now exists entry, a.
  - intros entries H. apply for_each_raise in H as (s & entry & Hin & Hstep).
    apply group_step_index_error in Hstep as (a & Ha). now exists entry, a.
  - intros entries entry a Hin Ha Hne Hbad. unfold project_users.
    apply (for_each_blocked user_step entries entry Hin).
    intros s. now rewrite (user_step_no_equals s entry a Ha Hne Hbad).
  - intros entries entry a Hin Ha Hne Hbad. unfold project_groups.
    apply (for_each_blocked group_step entries entry Hin).
    intros s. exact (group_step_no_equals s entry a Ha Hne Hbad).
Qed.

(** ** The interval decoder *)

Ltac div_lia := Z.div_mod_to_equations; lia.

Lemma round_half_even_bounds (n d : Z) :
  0 <= n -> 0 < d ->
  n / d <= Py.round_half_even n d
  /\ 2 * Py.round_half_even n d * d <= 2 * n + d.
Proof.
  intros Hn Hd. unfold Py.round_half_even.
  pose proof (Z.div_mod n d ltac:(lia)) as Hdm.
  pose proof (Z.mod_pos_bound n d Hd) as Hm.
  destruct (Z.ltb_spec (2 * (n mod d)) d); [nia|].
  destruct (Z.ltb_spec d (2 * (n mod d))); [nia|].
  destruct (Z.even (n / d)); nia.
Qed.

(** The binary exponent of a quotient by ten million is the difference
    of the bit lengths, or one less. *)
Lemma quot_log2_ticks (a : Z) :
  Py.quot_log2 a 10000000 = Z.log2 a - 23
  \/ Py.quot_log2 a 10000000 = Z.log2 a - 24.
Proof.
  unfold Py.quot_log2. change (Z.log2 10000000) with 23.
  destruct (Py.scaled_le _ _ _); lia.
Qed.

Lemma quot_log2_below (a : Z) :
  0 < a < 2 ^ 30 * 10000000 -> Py.quot_log2 a 10000000 <= 29.
Proof.
  intros Ha. unfold Py.quot_log2. change (Z.log2 10000000) with 23.
  assert (Hl : Z.log2 a < 54).
  { apply Z.log2_lt_pow2; [lia|]. change (2 ^ 54) with 18014398509481984. lia. }
  destruct (Py.scaled_le 10000000 (Z.log2 a - 23) a) eqn:E; [|lia].
  destruct (Z.eq_dec (Z.log2 a) 53) as [H53|]; [|lia].
  rewrite H53 in E. unfold Py.scaled_le in E. simpl in E.
  apply Z.leb_le in E. lia.
Qed.

(** Below 2^30 seconds the rounded quotient truncates to the whole
    seconds of the tick count. *)
Lemma truediv_seconds_exact (t : Z) :
  Z.abs t < 2 ^ 30 * 10000000 ->
  exists q, Py.truediv t 10000000 = Ok q
            /\ Py.int_float (Py.abs_float q) = Z.abs t / 10000000.
Proof.
  intros Ht. unfold Py.truediv. change (10000000 =? 0) with false. cbv iota.
  change (Z.abs 10000000) with 10000000.
  set (a := Z.abs t) in *. assert (Ha0 : 0 <= a) by apply Z.abs_nonneg.
  unfold Py.truediv_mag. destruct (Z.eqb_spec a 0) as [->|Hne].
  - eexists. split; [reflexivity|]. reflexivity.
  - assert (Ha : 0 < a < 2 ^ 30 * 10000000) by lia.
    pose proof (quot_log2_below a Ha) as Hk.
    pose proof (quot_log2_ticks a) as Hk'.
    pose proof (Z.log2_nonneg a) as Hl.
    set (e := Z.max (Py.quot_log2 a 10000000 - 52) (-1074)).
    assert (He : -76 <= e <= -23) by lia.
    destruct (Z.leb_spec 0 e) as [|_]; [lia|].
    set (P := 2 ^ (- e)).
    assert (HP : 2 ^ 23 <= P <= 2 ^ 76)
      by (split; apply Z.pow_le_mono_r; lia).
    change (2 ^ 23) with 8388608 in HP. change (2 ^ 76) with 75557863725914323419136 in HP.
    change (2 ^ 30) with 1073741824 in Ha.
    set (m := Py.round_half_even (a * P) 10000000).
    destruct (round_half_even_bounds (a * P) 10000000 ltac:(nia) ltac:(lia)) as [Hlo Hhi].
    fold m in Hlo, Hhi.
    pose proof (Z.div_mod a 10000000 ltac:(lia)) as Hdm.
    pose proof (Z.mod_pos_bound a 10000000 ltac:(lia)) as Hmod.
    set (Q := a / 10000000) in *.
    assert (HQ : 0 <= Q) by (apply Z.div_pos; lia).
    assert (Hlow : Q * P <= m).
    { apply Z.le_trans with (a * P / 10000000); [|exact Hlo].
      apply Z.div_le_lower_bound; nia. }
    assert (Hup : m < (Q + 1) * P) by nia.
    replace (Z.max e 0) with 0 by lia. rewrite Z.pow_0_r, Z.mul_1_r.
    destruct (Z.leb_spec (2 ^ 1024) m) as [Hov|_].
    + exfalso.
      assert (2 ^ 200 <= 2 ^ 1024) by (apply Z.pow_le_mono_r; lia).
      assert (m < 2 ^ 200); [|lia].
      change (2 ^ 200) with 1606938044258990275541962092341162602522202993782792835301376.
      nia.
    + eexists. split; [reflexivity|].
      unfold Py.int_float, Py.abs_float. cbn [Py.f_neg Py.f_mant Py.f_exp].
      destruct (Z.leb_spec 0 e); [lia|]. fold P.
      symmetry. apply Z.div_unique with (m - Q * P). lia. lia.
Qed.

(** For a duration that is not negative the fields of a
    [relativedelta] are the flat decomposition of the seconds. *)
Lemma rd_flat (sec : Z) :
  0 <= sec ->
  rd sec = mkRd (sec / 86400) ((sec mod 86400) / 3600) ((sec mod 3600) / 60) (sec mod 60).
Proof.
  intros Hs. unfold rd, sign.
  destruct (Z.ltb_spec 59 (Z.abs sec)) as [H1|H1].
  - destruct (Z.ltb_spec sec 0); [lia|]. rewrite !Z.mul_1_r, Z.add_0_l.
    destruct (Z.ltb_spec 59 (Z.abs (sec / 60))) as [H2|H2].
    + destruct (Z.ltb_spec (sec / 60) 0); [div_lia|]. rewrite !Z.mul_1_r, Z.add_0_l.
      destruct (Z.ltb_spec 23 (Z.abs (sec / 60 / 60))) as [H3|H3].
      * destruct (Z.ltb_spec (sec / 60 / 60) 0); [div_lia|].
        rewrite !Z.mul_1_r, Z.add_0_l. f_equal; div_lia.
      * f_equal; div_lia.
    + destruct (Z.ltb_spec 23 (Z.abs 0)) as [H3|H3]; [simpl in H3; lia|].
      f_equal; div_lia.
  - change (Z.abs 0) with 0. simpl (59 <? 0). simpl (23 <? 0). cbv iota.
    f_equal; div_lia.
Qed.

(** Where the quotient is rounded to less than one ten-millionth, that
    is for durations below 2^30 seconds (about 34 years), [clock] is the
    reference decoder. *)
Lemma clock_reference_below_2p30_seconds (t : Z) :
  Z.abs t < 2 ^ 30 * 10000000 -> clock t = Ok (decodeInterval_reference t).
Proof.
  intros Ht. unfold clock.
  destruct (truediv_seconds_exact t Ht) as (q & -> & Hsec). cbn [rbind].
  rewrite Hsec. unfold decodeInterval_reference, fmt.
  rewrite rd_flat by (apply Z.div_pos; [apply Z.abs_nonneg | lia]).
  reflexivity.
Qed.

(** Every signed 64-bit tick count (and its negation) has a quotient in
    the range of [float]: [clock] returns. *)
Lemma truediv_ticks_total (t : Z) :
  Z.abs t <= 2 ^ 63 -> exists q, Py.truediv t 10000000 = Ok q.
Proof.
  intros Ht. unfold Py.truediv. change (10000000 =? 0) with false. cbv iota.
  change (Z.abs 10000000) with 10000000.
  set (a := Z.abs t) in *. assert (Ha0 : 0 <= a) by apply Z.abs_nonneg.
  unfold Py.truediv_mag. destruct (Z.eqb_spec a 0) as [->|Hne].
  - eexists. reflexivity.
  - pose proof (quot_log2_ticks a) as Hk.
    pose proof (Z.log2_nonneg a) as Hl.
    assert (Hl' : Z.log2 a <= 63).
    { change 63 with (Z.log2 (2 ^ 63)). now apply Z.log2_le_mono. }
    set (e := Z.max (Py.quot_log2 a 10000000 - 52) (-1074)).
    assert (He : -76 <= e <= -12) by lia.
    destruct (Z.leb_spec 0 e) as [|_]; [lia|].
    set (P := 2 ^ (- e)).
    assert (HP : 0 < P <= 2 ^ 76)
      by (split; [apply Z.pow_pos_nonneg; lia | apply Z.pow_le_mono_r; lia]).
    change (2 ^ 76) with 75557863725914323419136 in HP.
    change (2 ^ 63) with 9223372036854775808 in Ht.
    set (m := Py.round_half_even (a * P) 10000000).
    destruct (round_half_even_bounds (a * P) 10000000 ltac:(nia) ltac:(lia)) as [_ Hhi].
    fold m in Hhi.
    replace (Z.max e 0) with 0 by lia. rewrite Z.pow_0_r, Z.mul_1_r.
    destruct (Z.leb_spec (2 ^ 1024) m) as [Hov|_]; [|eexists; reflexivity].
    exfalso.
    assert (2 ^ 200 <= 2 ^ 1024) by (apply Z.pow_le_mono_r; lia).
    assert (m < 2 ^ 200); [|lia].
    change (2 ^ 200) with 1606938044258990275541962092341162602522202993782792835301376.
    nia.
Qed.

Lemma clock_opp (t : Z) : clock (- t) = clock t.
Proof.
  unfold clock, Py.truediv. change (10000000 =? 0) with false. cbv iota.
  rewrite Z.abs_opp.
  destruct (Py.truediv_mag (Z.abs t) (Z.abs 10000000)) as [m e].
  destruct (2 ^ 1024 <=? m * 2 ^ Z.max e 0); reflexivity.
Qed.

(** C2.  [clock] gives the three documented results and decodes the
    no-expiry sentinel as the reference decoder does, but it is not the
    reference decoder on every signed 64-bit tick count: the quotient is
    a [float], rounded to nearest before [int] truncates it, so a
    duration of 2^30 + 1 seconds less one tick is reported one second
    longer than the whole seconds it holds. *)
Theorem clock_rounds_before_truncating :
  clock 0 = Ok "0 days 0 hours 0 minutes 0 seconds"
  /\ clock (-600000000) = Ok "0 days 0 hours 1 minutes 0 seconds"
  /\ clock (-864000000000) = Ok "1 days 0 hours 0 minutes 0 seconds"
  /\ clock (- 2 ^ 63) = Ok (decodeInterval_reference (- 2 ^ 63))
  /\ decodeInterval_reference (- 2 ^ 63) = "10675199 days 2 hours 48 minutes 5 seconds"
  /\ - 2 ^ 63 <= -10737418249999999 < 2 ^ 63
  /\ Z.abs (-10737418249999999) / 10000000 = 1073741824
  /\ decodeInterval_reference (-10737418249999999)
     = "12427 days 13 hours 37 minutes 4 seconds"
  /\ clock (-10737418249999999) = Ok "12427 days 13 hours 37 minutes 5 seconds".
Proof. vm_compute. repeat split; congruence. Qed.

(** C9.  [clock] does not see the sign of its argument: a tick count and
    its negation decode to the same text, and for a signed 64-bit tick
    count that text is produced. *)
Theorem clock_sign_insensitive (t : Z) :
  clock t = clock (- t)
  /\ (- 2 ^ 63 <= t < 2 ^ 63 ->
      exists text, clock t = Ok text /\ clock (- t) = Ok text).
Proof.
  split; [symmetry; apply clock_opp|].
  intros Ht. rewrite clock_opp. unfold clock.
  destruct (truediv_ticks_total t) as [q ->]; [lia|].
  cbn [rbind]. eauto.
Qed.

Lemma clock_sign_insensitive_witness :
  exists text, clock 864000000000 = Ok text /\ clock (- 864000000000) = Ok text.
Proof.
  apply (proj2 (clock_sign_insensitive 864000000000)). vm_compute.
  split; [discriminate | reflexivity].
Defined.

(** ** Session establishment *)

Local Open Scope list_scope.

Lemma create_connection_bound (w : World) (address user password : string)
    (use_ssl : bool) (tr : list Event) (u : unit) :
  bind_result w (tr ++ [Bind address user password use_ssl]) = Ok u ->
  create_connection w address user password use_ssl tr
  = (Ok (Some (mkConnection address user password use_ssl)),
     tr ++ [Bind address user password use_ssl]).
Proof. intros H. unfold create_connection. now rewrite H. Qed.

Lemma create_connection_failed (w : World) (address user password : string)
    (use_ssl : bool) (tr : list Event) (e : PyExn) (d : string) :
  bind_result w (tr ++ [Bind address user password use_ssl]) = Raise e ->
  diagnostic address e = Some d ->
  create_connection w address user password use_ssl tr
  = (Ok None, tr ++ [Bind address user password use_ssl; Print d]).
Proof.
  intros H Hd. unfold create_connection. rewrite H.
  destruct e; simpl in Hd; try discriminate; injection Hd as <-;
    now rewrite <- app_assoc.
Qed.

Lemma create_connection_raised (w : World) (address user password : string)
    (use_ssl : bool) (tr : list Event) (e : PyExn) :
  bind_result w (tr ++ [Bind address user password use_ssl]) = Raise e ->
  diagnostic address e = None ->
  create_connection w address user password use_ssl tr
  = (Raise e, tr ++ [Bind address user password use_ssl]).
Proof.
  intros H Hd. unfold create_connection. rewrite H.
  destruct e; simpl in Hd; try discriminate; reflexivity.
Qed.

(** One call of [create_connection] makes one bind attempt. *)
Lemma create_connection_events (w : World) (address user password : string)
    (use_ssl : bool) (tr : list Event) :
  exists rest,
    snd (create_connection w address user password use_ssl tr)
    = tr ++ Bind address user password use_ssl :: rest
    /\ forallb (fun ev => negb (is_bind ev)) rest = true.
Proof.
  destruct (bind_result w (tr ++ [Bind address user password use_ssl])) as [u|e] eqn:H.
  - rewrite (create_connection_bound _ _ _ _ _ _ _ H). now exists [].
  - destruct (diagnostic address e) as [d|] eqn:Hd.
    + rewrite (create_connection_failed _ _ _ _ _ _ _ _ H Hd). now exists [Print d].
    + rewrite (create_connection_raised _ _ _ _ _ _ _ H Hd). now exists [].
Qed.

(** When the plaintext attempt fails, [connect] goes on with the
    encrypted attempt. *)
Lemma connect_fallback (w : World) (username password domain : string)
    (dc_ip : option string) (tr : list Event) (e : PyExn) (d : string) :
  let user := domain +:+ "\" +:+ username in
  let plain := Bind (target domain dc_ip +:+ ":389") user password false in
  bind_result w (tr ++ [plain]) = Raise e ->
  diagnostic (target domain dc_ip +:+ ":389") e = Some d ->
  connect w username password domain dc_ip tr
  = create_connection w (target domain dc_ip +:+ ":636") user password true
      (tr ++ [plain; Print d; Print "LDAP on port 389 failed, trying LDAPS on port 636..."]).
Proof.
  intros user plain H Hd. subst user plain. unfold connect, io_bind.
  rewrite (create_connection_failed _ _ _ _ _ _ _ _ H Hd).
  unfold print, emit. now rewrite <- app_assoc.
Qed.

Lemma connect_plain (w : World) (username password domain : string)
    (dc_ip : option string) (tr : list Event) (u : unit) :
  let user := domain +:+ "\" +:+ username in
  let plain := Bind (target domain dc_ip +:+ ":389") user password false in
  bind_result w (tr ++ [plain]) = Ok u ->
  connect w username password domain dc_ip tr
  = (Ok (Some (mkConnection (target domain dc_ip +:+ ":389") user password false)),
     tr ++ [plain]).
Proof.
  intros user plain H. subst user plain. unfold connect, io_bind.
  now rewrite (create_connection_bound _ _ _ _ _ _ _ H).
Qed.

Lemma connect_plain_raised (w : World) (username password domain : string)
    (dc_ip : option string) (tr : list Event) (e : PyExn) :
  let user := domain +:+ "\" +:+ username in
  let plain := Bind (target domain dc_ip +:+ ":389") user password false in
  bind_result w (tr ++ [plain]) = Raise e ->
  diagnostic (target domain dc_ip +:+ ":389") e = None ->
  connect w username password domain dc_ip tr = (Raise e, tr ++ [plain]).
Proof.
  intros user plain H Hd. subst user plain. unfold connect, io_bind.
  now rewrite (create_connection_raised _ _ _ _ _ _ _ H Hd).
Qed.

(** [connect] starts with the plaintext bind and only binds and prints. *)
Lemma connect_events (w : World) (username password domain : string)
    (dc_ip : option string) (tr : list Event) :
  exists rest,
    snd (connect w username password domain dc_ip tr)
    = tr ++ Bind (target domain dc_ip +:+ ":389") (domain +:+ "\" +:+ username) password false
            :: rest
    /\ forallb (fun ev => negb (is_search ev) && negb (is_unbind ev)) rest = true.
Proof.
  set (plain := Bind (target domain dc_ip +:+ ":389") (domain +:+ "\" +:+ username) password false).
  destruct (bind_result w (tr ++ [plain])) as [u|e] eqn:H.
  - rewrite (connect_plain _ _ _ _ _ _ _ H). now exists [].
  - destruct (diagnostic (target domain dc_ip +:+ ":389") e) as [d|] eqn:Hd.
    + rewrite (connect_fallback _ _ _ _ _ _ _ _ H Hd).
      set (tr2 := tr ++ _).
      set (ssl := Bind (target domain dc_ip +:+ ":636") (domain +:+ "\" +:+ username) password true).
      destruct (bind_result w (tr2 ++ [ssl])) as [u|e2] eqn:H2.
      * rewrite (create_connection_bound _ _ _ _ _ _ _ H2). subst tr2.
        rewrite <- app_assoc. eexists. split; [reflexivity | reflexivity].
      * destruct (diagnostic (target domain dc_ip +:+ ":636") e2) as [d2|] eqn:Hd2.
        -- rewrite (create_connection_failed _ _ _ _ _ _ _ _ H2 Hd2). subst tr2.
           rewrite <- app_assoc. eexists. split; [reflexivity | reflexivity].
        -- rewrite (create_connection_raised _ _ _ _ _ _ _ H2 Hd2). subst tr2.
           rewrite <- app_assoc. eexists. split; [reflexivity | reflexivity].
    + rewrite (connect_plain_raised _ _ _ _ _ _ _ H Hd). now exists [].
Qed.

(** C1.  Each query function starts with the plaintext bind.  When that
    attempt fails because the socket cannot be opened or the bind is
    rejected, the encrypted bind is attempted, once, with the same
    principal and credentials.  When that attempt fails in one of these
    two ways as well, no session is returned, and each of the three query
    functions prints the final diagnostic and returns at once: nothing is
    searched. *)
Theorem session_establishment_fallback (w : World) (username password domain : string)
    (dc_ip : option string) (tr : list Event) :
  let user := domain +:+ "\" +:+ username in
  let plain := Bind (target domain dc_ip +:+ ":389") user password false in
  let encrypted := Bind (target domain dc_ip +:+ ":636") user password true in
  let retry := Print "LDAP on port 389 failed, trying LDAPS on port 636..." in
  (exists rest, snd (connect w username password domain dc_ip tr) = tr ++ plain :: rest)
  /\ (forall e1 d1,
        bind_result w (tr ++ [plain]) = Raise e1 ->
        diagnostic (target domain dc_ip +:+ ":389") e1 = Some d1 ->
        exists rest,
          snd (connect w username password domain dc_ip tr)
          = tr ++ [plain; Print d1; retry; encrypted] ++ rest
          /\ forallb (fun ev => negb (is_bind ev)) rest = true)
  /\ (forall e1 d1 e2 d2,
        bind_result w (tr ++ [plain]) = Raise e1 ->
        diagnostic (target domain dc_ip +:+ ":389") e1 = Some d1 ->
        bind_result w (tr ++ [plain; Print d1; retry; encrypted]) = Raise e2 ->
        diagnostic (target domain dc_ip +:+ ":636") e2 = Some d2 ->
        let failed := tr ++ [plain; Print d1; retry; encrypted; Print d2] in
        let stopped :=
          (Ok tt, failed ++ [Print "Both LDAP and LDAPS connection attempts failed."]) in
        connect w username password domain dc_ip tr = (Ok None, failed)
        /\ get_user_attributes w username password domain dc_ip tr = stopped
        /\ get_group_pso w username password domain dc_ip tr = stopped
        /\ get_pso_details w username password domain dc_ip tr = stopped
        /\ forallb (fun ev => negb (is_search ev)) (snd stopped) 
           = forallb (fun ev => negb (is_search ev)) tr).
Proof.
  intros user plain encrypted retry. subst user plain encrypted retry. split; [|split].
  - destruct (connect_events w username password domain dc_ip tr) as (rest & H & _).
    now exists rest.
  - intros e1 d1 H1 Hd1.
    rewrite (connect_fallback _ _ _ _ _ _ _ _ H1 Hd1).
    match goal with
    | |- context [create_connection w ?a ?u ?p ?s ?t] =>
        destruct (create_connection_events w a u p s t) as (rest & H & Hrest)
    end.
    exists rest. split; [|exact Hrest]. rewrite H. now rewrite <- app_assoc.
  - intros e1 d1 e2 d2 H1 Hd1 H2 Hd2 failed stopped.
    assert (Hconnect : connect w username password domain dc_ip tr = (Ok None, failed)).
    { rewrite (connect_fallback _ _ _ _ _ _ _ _ H1 Hd1).
      rewrite (create_connection_failed w _ _ _ _ _ e2 d2).
      - subst failed. now rewrite <- app_assoc.
      - rewrite <- app_assoc. exact H2.
      - exact Hd2. }
    split; [exact Hconnect|].
    repeat split.
    + unfold get_user_attributes, io_bind. now rewrite Hconnect.
    + unfold get_group_pso, io_bind. now rewrite Hconnect.
    + unfold get_pso_details, io_bind. now rewrite Hconnect.
    + subst stopped failed. cbn [snd]. rewrite !forallb_app. cbn.
      now rewrite !andb_true_r.
Qed.

Lemma session_establishment_fallback_witness :
  run (get_user_attributes unreachable "auditor" "secret" "corp.local" (Some "10.0.0.5"))
  = (Ok tt,
     [Bind "10.0.0.5:389" "corp.local\auditor" "secret" false;
      Print "Could not connect to 10.0.0.5:389";
      Print "LDAP on port 389 failed, trying LDAPS on port 636...";
      Bind "10.0.0.5:636" "corp.local\auditor" "secret" true;
      Print "Could not connect to 10.0.0.5:636";
      Print "Both LDAP and LDAPS connection attempts failed."]).
Proof.
  refine (proj1 (proj2 (proj2 (proj2 (session_establishment_fallback unreachable
            "auditor" "secret" "corp.local" (Some "10.0.0.5") [])) LDAPSocketOpenError
            "Could not connect to 10.0.0.5:389" LDAPSocketOpenError
            "Could not connect to 10.0.0.5:636" _ _ _ _))); reflexivity.
Defined.

(** ** Release of the session *)

Lemma prints_only_ret {A : Type} (a : A) : prints_only (io_ret a).
Proof. intros tr. exists []. simpl. now rewrite app_nil_r. Qed.

Lemma prints_only_lift {A : Type} (r : Result A) : prints_only (io_lift r).
Proof. intros tr. exists []. simpl. now rewrite app_nil_r. Qed.

Lemma prints_only_print (text : string) : prints_only (print text).
Proof. intros tr. now exists [text]. Qed.

Lemma prints_only_bind {A B : Type} (m : IO A) (k : A -> IO B) :
  prints_only m -> (forall a, prints_only (k a)) -> prints_only (io_bind m k).
Proof.
  intros Hm Hk tr. unfold io_bind. destruct (Hm tr) as [l1 H1].
  destruct (m tr) as [[a|e] tr']; simpl in H1; subst tr'.
  - destruct (Hk a (tr ++ map Print l1)) as [l2 H2]. exists (l1 ++ l2).
    now rewrite H2, map_app, app_assoc.
  - now exists l1.
Qed.

Lemma prints_only_for {A : Type} (l : list A) (body : A -> IO unit) :
  (forall x, prints_only (body x)) -> prints_only (io_for l body).
Proof.
  intros Hbody. induction l as [|x xs IH]; simpl.
  - apply prints_only_ret.
  - apply prints_only_bind; [apply Hbody | intros _; exact IH].
Qed.

Lemma prints_only_if {A : Type} (b : bool) (m1 m2 : IO A) :
  prints_only m1 -> prints_only m2 -> prints_only (if b then m1 else m2).
Proof. now destruct b. Qed.

Ltac prints_only_tac :=
  repeat first
    [ apply prints_only_bind; [|intros ?]
    | apply prints_only_for; intros ?
    | apply prints_only_if
    | apply prints_only_print
    | apply prints_only_lift
    | apply prints_only_ret ].

Lemma print_table_prints (title : string) (t : Table) : prints_only (print_table title t).
Proof.
  unfold print_table. prints_only_tac.
  match goal with p : (Value * string)%type |- _ => destruct p end.
  prints_only_tac.
Qed.

Lemma pso_block_prints (entry : Entry) : prints_only (pso_block entry).
Proof. unfold pso_block. prints_only_tac. Qed.

(** After a computation that only prints, [unbind] is reached exactly
    when no exception was raised. *)
Lemma prints_then_unbind (m : IO unit) (conn : Connection) (tr : list Event) :
  prints_only m ->
  exists lines,
    (fst (m tr) = Ok tt
     /\ io_bind m (fun _ => unbind conn) tr = (Ok tt, tr ++ map Print lines ++ [Unbind conn]))
    \/ (exists e, fst (m tr) = Raise e
                  /\ io_bind m (fun _ => unbind conn) tr = (Raise e, tr ++ map Print lines)).
Proof.
  intros Hm. destruct (Hm tr) as [lines H]. exists lines. unfold io_bind.
  destruct (m tr) as [[[]|e] tr']; simpl in H; subst tr'.
  - left. split; [reflexivity|]. unfold unbind, emit. now rewrite <- app_assoc.
  - right. exists e. split; reflexivity.
Qed.

Lemma io_bind_ok {A B : Type} (m : IO A) (k : A -> IO B) (tr tr' : list Event) (a : A) :
  m tr = (Ok a, tr') -> io_bind m k tr = k a tr'.
Proof. intros H. unfold io_bind. now rewrite H. Qed.

Lemma io_bind_raise {A B : Type} (m : IO A) (k : A -> IO B) (tr tr' : list Event)
    (e : PyExn) :
  m tr = (Raise e, tr') -> io_bind m k tr = (Raise e, tr').
Proof. intros H. unfold io_bind. now rewrite H. Qed.

(** What follows the search in a query function: it only prints, then
    unbinds. *)
Lemma after_search_released (body : list Entry -> IO unit) (w : World) (conn : Connection)
    (search_base search_filter : string) (attributes : list string) (tr1 : list Event) :
  (forall entries, prints_only (body entries)) ->
  let query := Search conn search_base search_filter attributes in
  let rest := io_bind (search w conn search_base search_filter attributes)
                (fun entries => io_bind (body entries) (fun _ => unbind conn)) in
  exists lines,
    (rest tr1 = (Ok tt, tr1 ++ query :: map Print lines ++ [Unbind conn])
     \/ exists e, rest tr1 = (Raise e, tr1 ++ query :: map Print lines))
    /\ (search_result w (tr1 ++ [query]) = Ok [] ->
        fst (body [] (tr1 ++ [query])) = Ok tt -> fst (rest tr1) = Ok tt).
Proof.
  intros Hbody query rest. subst rest.
  assert (Hsearch : search w conn search_base search_filter attributes tr1
                    = (search_result w (tr1 ++ [query]), tr1 ++ [query])) by reflexivity.
  destruct (search_result w (tr1 ++ [query])) as [entries|e] eqn:Hs.
  - rewrite (io_bind_ok _ _ _ _ _ Hsearch).
    destruct (prints_then_unbind (body entries) conn (tr1 ++ [query]) (Hbody entries))
      as [lines [[Hok Hrun] | (e & Hraise & Hrun)]].
    + exists lines. rewrite Hrun, <- app_assoc. split; [now left|].
      intros _ _. reflexivity.
    + exists lines. rewrite Hrun, <- app_assoc. split; [right; now exists e|].
      intros Hnil Hret. injection Hnil as ->. congruence.
  - rewrite (io_bind_raise _ _ _ _ _ Hsearch). exists []. simpl. split.
    + right. now exists e.
    + discriminate.
Qed.

Lemma io_bind_assoc {A B C : Type} (m : IO A) (k : A -> IO B) (h : B -> IO C)
    (tr : list Event) :
  io_bind (io_bind m k) h tr = io_bind m (fun a => io_bind (k a) h) tr.
Proof. unfold io_bind. destruct (m tr) as [[a|e] tr']; reflexivity. Qed.

Lemma io_bind_ext {A B : Type} (m : IO A) (k k' : A -> IO B) (tr : list Event) :
  (forall a tr', k a tr' = k' a tr') -> io_bind m k tr = io_bind m k' tr.
Proof. intros H. unfold io_bind. destruct (m tr) as [[a|e] tr']; [apply H | reflexivity]. Qed.

(** C8, as stated, fails: a session was established, an exception is
    raised after the bind, and the query function is left without
    unbinding. *)
Lemma session_not_released_on_exception :
  run (get_user_attributes (answers_users [entry_no_equals])
         "auditor" "secret" "corp.local" (Some "10.0.0.5"))
  = (Raise IndexError,
     [Bind "10.0.0.5:389" "corp.local\auditor" "secret" false;
      Search (mkConnection "10.0.0.5:389" "corp.local\auditor" "secret" false)
        "DC=corp,DC=local" "(objectClass=user)" ["sAMAccountName"; "msDS-ResultantPSO"]])
  /\ run (get_pso_details (answers_users [entry_pso_no_name])
            "auditor" "secret" "corp.local" (Some "10.0.0.5"))
     = (Raise (LDAPKeyError "name"),
        [Bind "10.0.0.5:389" "corp.local\auditor" "secret" false;
         Search (mkConnection "10.0.0.5:389" "corp.local\auditor" "secret" false)
           "CN=Password Settings Container,CN=System,DC=corp,DC=local"
           "(objectclass=msDS-PasswordSettings)" pso_attributes]).
Proof. split; reflexivity. Qed.

(** C8, amended.  In every query function in which a session was
    established, the search is followed by printing only, and the session
    is unbound as the last action of every normal return, a search that
    finds no entry included; when an exception is raised after the bind,
    the function is left without unbinding. *)
Theorem session_released_on_return
    (family : World -> string -> string -> string -> option string -> IO unit)
    (w : World) (username password domain : string) (dc_ip : option string)
    (tr tr1 : list Event) (conn : Connection) :
  In family query_functions ->
  connect w username password domain dc_ip tr = (Ok (Some conn), tr1) ->
  exists search_base search_filter attributes lines,
    let query := Search conn search_base search_filter attributes in
    (family w username password domain dc_ip tr
       = (Ok tt, tr1 ++ query :: map Print lines ++ [Unbind conn])
     \/ exists e, family w username password domain dc_ip tr
                  = (Raise e, tr1 ++ query :: map Print lines))
    /\ (search_result w (tr1 ++ [query]) = Ok [] ->
        fst (family w username password domain dc_ip tr) = Ok tt).
Proof.
  intros Hfam Hconnect.
  destruct Hfam as [<- | [<- | [<- | []]]].
  - unfold get_group_pso. rewrite (io_bind_ok _ _ _ _ _ Hconnect).
    set (body := fun entries : list Entry =>
                   io_bind (io_lift (project_groups entries)) (print_table "Groups")).
    destruct (after_search_released body w conn
                ("DC=" +:+ Py.join ",DC=" (Py.split "." domain)) "(objectClass=group)"
                ["cn"; "msDS-PSOApplied"] tr1) as (lines & Hrun & Hempty).
    { intros entries. subst body.
      apply prints_only_bind; [apply prints_only_lift | intros t; apply print_table_prints]. }
    do 3 eexists. exists lines. cbv zeta.
    erewrite io_bind_ext; [split; [exact Hrun | intros Hs; now apply Hempty]|].
    intros entries tr'. subst body. symmetry. apply io_bind_assoc.
  - unfold get_user_attributes. rewrite (io_bind_ok _ _ _ _ _ Hconnect).
    set (body := fun entries : list Entry =>
                   io_bind (io_lift (project_users entries)) (print_table "Users")).
    destruct (after_search_released body w conn
                ("DC=" +:+ Py.join ",DC=" (Py.split "." domain)) "(objectClass=user)"
                ["sAMAccountName"; "msDS-ResultantPSO"] tr1) as (lines & Hrun & Hempty).
    { intros entries. subst body.
      apply prints_only_bind; [apply prints_only_lift | intros t; apply print_table_prints]. }
    do 3 eexists. exists lines. cbv zeta.
    erewrite io_bind_ext; [split; [exact Hrun | intros Hs; now apply Hempty]|].
    intros entries tr'. subst body. symmetry. apply io_bind_assoc.
  - unfold get_pso_details. rewrite (io_bind_ok _ _ _ _ _ Hconnect).
    set (body := fun entries : list Entry =>
                   if 0 <? Z.of_nat (List.length entries) then io_for entries pso_block
                   else print "Could not enumerate details, you likely do not have the privileges to do so!").
    destruct (after_search_released body w conn
                ("CN=Password Settings Container,CN=System," +:+ base_creator domain)
                "(objectclass=msDS-PasswordSettings)" pso_attributes tr1)
      as (lines & Hrun & Hempty).
    { intros entries. subst body. apply prints_only_if.
      - apply prints_only_for. intros entry. apply pso_block_prints.
      - apply prints_only_print. }
    do 3 eexists. exists lines. cbv zeta.
    split; [exact Hrun | intros Hs; now apply Hempty].
Qed.

Lemma session_released_on_return_witness :
  exists search_base search_filter attributes lines,
    let conn := mkConnection "10.0.0.5:389" "corp.local\auditor" "secret" false in
    let query := Search conn search_base search_filter attributes in
    (run (get_user_attributes (answers_users [entry_alice]) "auditor" "secret"
            "corp.local" (Some "10.0.0.5"))
       = (Ok tt, [Bind "10.0.0.5:389" "corp.local\auditor" "secret" false]
                 ++ query :: map Print lines ++ [Unbind conn])
     \/ exists e, run (get_user_attributes (answers_users [entry_alice]) "auditor" "secret"
                         "corp.local" (Some "10.0.0.5"))
                  = (Raise e, [Bind "10.0.0.5:389" "corp.local\auditor" "secret" false]
                              ++ query :: map Print lines))
    /\ (search_result (answers_users [entry_alice])
          ([Bind "10.0.0.5:389" "corp.local\auditor" "secret" false] ++ [query]) = Ok [] ->
        fst (run (get_user_attributes (answers_users [entry_alice]) "auditor" "secret"
                    "corp.local" (Some "10.0.0.5"))) = Ok tt).
Proof.
  apply (session_released_on_return get_user_attributes (answers_users [entry_alice])
           "auditor" "secret" "corp.local" (Some "10.0.0.5") []).
  - right. left. reflexivity.
  - reflexivity.
Defined.


(** ** Sequencing of the three queries *)

(** An exception of the groups query ends the run where it was raised. *)
Lemma main_aborted_by_group_query (w : World) (username password domain dc_ip : string)
    (e : PyExn) (tr : list Event) :
  get_group_pso w username password domain (Some dc_ip) [Print "Groups with PSO applied:"]
  = (Raise e, tr) ->
  run (main w username password domain dc_ip) = (Raise e, tr).
Proof.
  intros H. unfold run, main.
  rewrite (io_bind_ok _ _ [] [Print "Groups with PSO applied:"] tt) by reflexivity.
  now rewrite (io_bind_raise _ _ _ _ _ H).
Qed.

(** An exception of the users query ends the run where it was raised. *)
Lemma main_aborted_by_user_query (w : World) (username password domain dc_ip : string)
    (e : PyExn) (tr1 tr2 : list Event) :
  get_group_pso w username password domain (Some dc_ip) [Print "Groups with PSO applied:"]
  = (Ok tt, tr1) ->
  get_user_attributes w username password domain (Some dc_ip)
    (tr1 ++ [Print (newline +:+ "Users with PSO applied:")])
  = (Raise e, tr2) ->
  run (main w username password domain dc_ip) = (Raise e, tr2).
Proof.
  intros H1 H2. unfold run, main.
  rewrite (io_bind_ok _ _ [] [Print "Groups with PSO applied:"] tt) by reflexivity.
  rewrite (io_bind_ok _ _ _ _ _ H1).
  rewrite (io_bind_ok _ _ tr1 (tr1 ++ [Print (newline +:+ "Users with PSO applied:")]) tt)
    by reflexivity.
  now rewrite (io_bind_raise _ _ _ _ _ H2).
Qed.

(** Once the groups and users queries have returned, the run returns:
    an exception of the details query is reported, not propagated. *)
Lemma main_reports_details_exception (w : World) (username password domain dc_ip : string)
    (tr1 tr2 : list Event) :
  get_group_pso w username password domain (Some dc_ip) [Print "Groups with PSO applied:"]
  = (Ok tt, tr1) ->
  get_user_attributes w username password domain (Some dc_ip)
    (tr1 ++ [Print (newline +:+ "Users with PSO applied:")])
  = (Ok tt, tr2) ->
  fst (run (main w username password domain dc_ip)) = Ok tt.
Proof.
  intros H1 H2. unfold run, main.
  rewrite (io_bind_ok _ _ [] [Print "Groups with PSO applied:"] tt) by reflexivity.
  rewrite (io_bind_ok _ _ _ _ _ H1).
  rewrite (io_bind_ok _ _ tr1 (tr1 ++ [Print (newline +:+ "Users with PSO applied:")]) tt)
    by reflexivity.
  rewrite (io_bind_ok _ _ _ _ _ H2).
  rewrite (io_bind_ok _ _ tr2 (tr2 ++ [Print (newline +:+ "PSO Details:")]) tt)
    by reflexivity.
  unfold io_try.
  destruct (get_pso_details w username password domain (Some dc_ip) _) as [[[]|e] tr3];
    reflexivity.
Qed.

(** C6.  The run does not go through the three queries whatever fails.
    An exception raised in the groups query ends the run before the users
    and details queries are attempted; an exception raised in the users
    query ends it before the details query is attempted.  Only the
    details query is guarded: its exception is reported and the run
    returns.  A query whose two bind attempts fail returns, and the next
    query is attempted. *)
Theorem main_stops_at_first_exception :
  let conn := mkConnection "10.0.0.5:389" "corp.local\auditor" "secret" false in
  let bound := Bind "10.0.0.5:389" "corp.local\auditor" "secret" false in
  let lost := OtherError "LDAPSocketReceiveError" in
  let details := "(objectclass=msDS-PasswordSettings)" in
  run (main (search_raises_for "(objectClass=group)")
         "auditor" "secret" "corp.local" "10.0.0.5")
  = (Raise lost,
     [Print "Groups with PSO applied:"; bound;
      Search conn "DC=corp,DC=local" "(objectClass=group)" ["cn"; "msDS-PSOApplied"]])
  /\ run (main (search_raises_for "(objectClass=user)")
            "auditor" "secret" "corp.local" "10.0.0.5")
     = (Raise lost,
        [Print "Groups with PSO applied:"; bound;
         Search conn "DC=corp,DC=local" "(objectClass=group)" ["cn"; "msDS-PSOApplied"];
         Print "| Groups | PSO |"; Print "| ------ | --- |"; Unbind conn;
         Print (newline +:+ "Users with PSO applied:"); bound;
         Search conn "DC=corp,DC=local" "(objectClass=user)"
           ["sAMAccountName"; "msDS-ResultantPSO"]])
  /\ fst (run (main (search_raises_for details)
                 "auditor" "secret" "corp.local" "10.0.0.5")) = Ok tt
  /\ List.last (snd (run (main (search_raises_for details)
                            "auditor" "secret" "corp.local" "10.0.0.5"))) bound
     = PrintError
         "Could not enumerate details, you likely do not have the privileges to do so! Error: "
         lost
  /\ fst (run (main unreachable "auditor" "secret" "corp.local" "10.0.0.5")) = Ok tt
  /\ List.filter is_bind (snd (run (main unreachable "auditor" "secret" "corp.local" "10.0.0.5")))
     = [Bind "10.0.0.5:389" "corp.local\auditor" "secret" false;
        Bind "10.0.0.5:636" "corp.local\auditor" "secret" true;
        Bind "10.0.0.5:389" "corp.local\auditor" "secret" false;
        Bind "10.0.0.5:636" "corp.local\auditor" "secret" true;
        Bind "10.0.0.5:389" "corp.local\auditor" "secret" false;
        Bind "10.0.0.5:636" "corp.local\auditor" "secret" true].
Proof. vm_compute. repeat split; reflexivity. Qed.

(** ** The policy detail block *)

Lemma emits_print (text : string) : emits (print text) [text].
Proof. intros tr. reflexivity. Qed.

Lemma emits_ret : emits (io_ret tt) [].
Proof. intros tr. unfold io_ret. simpl. now rewrite app_nil_r. Qed.

Lemma emits_seq (m k : IO unit) (l1 l2 : list string) :
  emits m l1 -> emits k l2 -> emits (io_bind m (fun _ => k)) (l1 ++ l2).
Proof.
  intros H1 H2 tr. unfold io_bind. rewrite H1, H2.
  now rewrite map_app, app_assoc.
Qed.

Lemma emits_lift {A : Type} (r : Result A) (v : A) (k : A -> IO unit) (l : list string) :
  r = Ok v -> emits (k v) l -> emits (io_bind (io_lift r) k) l.
Proof. intros -> H tr. unfold io_bind, io_lift. apply H. Qed.

Lemma emits_for_print (f : string -> string) (l : list string) :
  emits (io_for l (fun x => print (f x))) (map f l).
Proof.
  induction l as [|x xs IH]; simpl.
  - apply emits_ret.
  - apply (emits_seq (print (f x)) _ [f x] (map f xs)); [apply emits_print | exact IH].
Qed.

Lemma field_present (entry : Entry) (key : string) :
  is_Some (entry !! key) -> exists v, field entry key = Ok v.
Proof.
  intros [a Ha]. unfold field, Attr.getitem. rewrite Ha. simpl. eauto.
Qed.

Lemma field_absent (entry : Entry) (key : string) :
  entry !! key = None -> field entry key = Raise (LDAPKeyError key).
Proof. intros H. unfold field, Attr.getitem. now rewrite H. Qed.

(** The text of an interval line is the placeholder when the attribute
    is absent. *)
Lemma interval_text (entry : Entry) (key : string) :
  entry !! key = None \/ is_ok (interval entry key) = true ->
  exists v, interval entry key = Ok v /\ (entry !! key = None -> v = "N/A").
Proof.
  intros [H | H].
  - exists "N/A". unfold interval, Attr.contains. rewrite H. now split.
  - destruct (interval entry key) as [v|e] eqn:E; [|discriminate].
    exists v. split; [reflexivity|]. intros Hn.
    unfold interval, Attr.contains in E. rewrite Hn in E. congruence.
Qed.

Lemma description_part (entry : Entry) :
  exists lines,
    emits (if Attr.contains entry "description"
           then io_bind (io_lift (field entry "description"))
                  (fun v => print ("Description: " +:+ v))
           else io_ret tt) lines
    /\ (entry !! "description" = None -> lines = [])
    /\ (forall line, In line lines -> exists v, line = "Description: " +:+ v).
Proof.
  unfold Attr.contains. destruct (entry !! "description") as [a|] eqn:E.
  - destruct (field_present entry "description") as [v Hv]; [now rewrite E|].
    exists ["Description: " +:+ v]. split; [|split].
    + eapply emits_lift; [exact Hv | apply emits_print].
    + discriminate.
    + intros line [<- | []]. now exists v.
  - exists []. split; [apply emits_ret|]. split; [reflexivity | intros line []].
Qed.

Lemma applies_to_part (entry : Entry) :
  exists lines,
    emits (if Attr.contains entry "msds-psoappliesto"
           then io_bind (io_lift (Attr.getitem entry "msds-psoappliesto"))
                  (fun dns => io_for dns (fun dn => print ("Policy Applies to: " +:+ dn)))
           else io_ret tt) lines
    /\ (entry !! "msds-psoappliesto" = None -> lines = [])
    /\ (forall line, In line lines -> exists dn, line = "Policy Applies to: " +:+ dn).
Proof.
  unfold Attr.contains, Attr.getitem.
  destruct (entry !! "msds-psoappliesto") as [dns|] eqn:E.
  - exists (map (fun dn => "Policy Applies to: " +:+ dn) dns). split; [|split].
    + eapply emits_lift; [reflexivity|].
      apply (emits_for_print (fun dn => "Policy Applies to: " +:+ dn)).
    + discriminate.
    + intros line Hin. apply in_map_iff in Hin as (dn & <- & _). now exists dn.
  - exists []. split; [apply emits_ret|]. split; [reflexivity | intros line []].
Qed.

(** C7, on the code.  A policy object that lacks one of the four interval
    attributes reaches the block with the attribute as a key without a
    value: the test [key in entry] of lines 175-179 holds, [int(None)]
    raises [TypeError], and N/A is not printed.  The block and the query
    are left at that line: no line with the label of the attribute, no
    later policy, no unbind.  A policy object without a description has
    its block printed in full, with the line [Description: None]. *)
Theorem pso_block_aborts_on_absent_interval :
  returned_for pso_attributes entry_pso_complete = true
  /\ Forall (fun '(key, label) =>
       let entry : Entry := <[key := []]> entry_pso_complete in
       let r := run (get_pso_details (answers_users [entry; entry_pso_complete])
                       "auditor" "secret" "corp.local" (Some "10.0.0.5")) in
       returned_for pso_attributes entry = true
       /\ interval entry key = Raise TypeError
       /\ fst (run (pso_block entry)) = Raise TypeError
       /\ fst r = Raise TypeError
       /\ List.filter (labelled label) (snd r) = []
       /\ List.filter (labelled "Precedence") (snd r) = []
       /\ List.filter is_unbind (snd r) = [])
     interval_labels
  /\ run (pso_block entry_pso_no_window)
     = (Raise TypeError,
        map Print
          ["Policy Name: " +:+ BLUE +:+ "StrictPolicy" +:+ RESET;
           "Description: Service accounts";
           "Minimum Password Length: " +:+ CYAN +:+ "14" +:+ RESET;
           "Password History Length: " +:+ CYAN +:+ "24" +:+ RESET;
           "Lockout Threshold: " +:+ CYAN +:+ "5" +:+ RESET])
  /\ run (get_pso_details (answers_users [entry_pso_no_window; entry_pso_complete])
            "auditor" "secret" "corp.local" (Some "10.0.0.5"))
     = (Raise TypeError,
        [Bind "10.0.0.5:389" "corp.local\auditor" "secret" false;
         Search (mkConnection "10.0.0.5:389" "corp.local\auditor" "secret" false)
           "CN=Password Settings Container,CN=System,DC=corp,DC=local"
           "(objectclass=msDS-PasswordSettings)" pso_attributes]
        ++ map Print
             ["Policy Name: " +:+ BLUE +:+ "StrictPolicy" +:+ RESET;
              "Description: Service accounts";
              "Minimum Password Length: " +:+ CYAN +:+ "14" +:+ RESET;
              "Password History Length: " +:+ CYAN +:+ "24" +:+ RESET;
              "Lockout Threshold: " +:+ CYAN +:+ "5" +:+ RESET])
  /\ returned_for pso_attributes entry_pso_no_description = true
  /\ run (pso_block entry_pso_no_description)
     = (Ok tt,
        map Print
          ["Policy Name: " +:+ BLUE +:+ "StrictPolicy" +:+ RESET;
           "Description: None";
           "Minimum Password Length: " +:+ CYAN +:+ "14" +:+ RESET;
           "Password History Length: " +:+ CYAN +:+ "24" +:+ RESET;
           "Lockout Threshold: " +:+ CYAN +:+ "5" +:+ RESET;
           "Observation Window: 0 days 0 hours 30 minutes 0 seconds";
           "Lockout Duration: 0 days 0 hours 30 minutes 0 seconds";
           "Complexity Enabled: True";
           "Minimum Password Age: 1 days 0 hours 0 minutes 0 seconds";
           "Maximum Password Age: 42 days 0 hours 0 minutes 0 seconds";
           "Reversible Encryption: False";
           "Precedence: " +:+ CYAN +:+ "10" +:+ RESET;
           "Policy Applies to: CN=Admins,CN=Users,DC=corp,DC=local";
           EmptyString]).
Proof.
  split; [reflexivity|]. split.
  - repeat constructor; vm_compute; reflexivity.
  - repeat split; vm_compute; reflexivity.
Qed.

Lemma io_bind_ok_inv {A B : Type} (m : IO A) (k : A -> IO B) (tr : list Event) (b : B) :
  fst (io_bind m k tr) = Ok b ->
  exists a tr', m tr = (Ok a, tr') /\ fst (k a tr') = Ok b.
Proof.
  unfold io_bind. destruct (m tr) as [[a|e] tr']; simpl; [eauto | discriminate].
Qed.

Lemma field_ok_present (entry : Entry) (key v : string) :
  field entry key = Ok v -> is_Some (entry !! key).
Proof.
  unfold field, Attr.getitem. destruct (entry !! key); [eauto | discriminate].
Qed.

(** The block of an entry is printed to its end only when the entry has
    every attribute that is read directly: without one of them the block
    raises [LDAPKeyError]. *)
Lemma pso_block_requires (entry : Entry) (tr : list Event) :
  fst (pso_block entry tr) = Ok tt ->
  forall key, In key required_pso_attributes -> is_Some (entry !! key).
Proof.
  intros H. unfold pso_block in H.
  repeat match type of H with
         | fst (io_bind (io_lift (field entry ?key)) _ _) = Ok _ =>
             let v := fresh "v" in
             let Hv := fresh "Hv" in
             let tr' := fresh "tr" in
             apply io_bind_ok_inv in H as (v & tr' & Hv & H);
             unfold io_lift in Hv; injection Hv as Hv _;
             apply field_ok_present in Hv
         | fst (io_bind _ _ _) = Ok _ =>
             let a := fresh "a" in
             let Ha := fresh "Ha" in
             let tr' := fresh "tr" in
             apply io_bind_ok_inv in H as (a & tr' & Ha & H); clear Ha
         end.
  intros key Hin. simpl in Hin.
  repeat (destruct Hin as [<- | Hin]; [assumption|]). destruct Hin.
Qed.

Example pso_block_without_name :
  run (pso_block entry_pso_no_name) = (Raise (LDAPKeyError "name"), []).
Proof. reflexivity. Qed.

(** * Further properties of the script *)

(** ** The interval decoder, on every signed 64-bit tick count *)

(** The whole seconds [clock] decodes are the truncated seconds or one
    more: the rounding of the [float] quotient never loses a second and
    never adds more than one. *)
Lemma truediv_seconds_bounds (t : Z) :
  Z.abs t <= 2 ^ 63 ->
  exists q, Py.truediv t 10000000 = Ok q
            /\ Z.abs t / 10000000 <= Py.int_float (Py.abs_float q)
               <= Z.abs t / 10000000 + 1.
Proof.
  intros Ht. unfold Py.truediv. change (10000000 =? 0) with false. cbv iota.
  change (Z.abs 10000000) with 10000000.
  set (a := Z.abs t) in *. assert (Ha0 : 0 <= a) by apply Z.abs_nonneg.
  unfold Py.truediv_mag. destruct (Z.eqb_spec a 0) as [->|Hne].
  - eexists. split; [reflexivity|]. vm_compute. split; discriminate.
  - pose proof (quot_log2_ticks a) as Hk.
    pose proof (Z.log2_nonneg a) as Hl.
    assert (Hl' : Z.log2 a <= 63).
    { change 63 with (Z.log2 (2 ^ 63)). now apply Z.log2_le_mono. }
    set (e := Z.max (Py.quot_log2 a 10000000 - 52) (-1074)).
    assert (He : -76 <= e <= -12) by lia.
    destruct (Z.leb_spec 0 e) as [|_]; [lia|].
    set (P := 2 ^ (- e)).
    assert (HP : 2 ^ 12 <= P <= 2 ^ 76) by (split; apply Z.pow_le_mono_r; lia).
    change (2 ^ 12) with 4096 in HP. change (2 ^ 76) with 75557863725914323419136 in HP.
    change (2 ^ 63) with 9223372036854775808 in Ht.
    set (m := Py.round_half_even (a * P) 10000000).
    destruct (round_half_even_bounds (a * P) 10000000 ltac:(nia) ltac:(lia)) as [Hlo Hhi].
    fold m in Hlo, Hhi.
    pose proof (Z.div_mod a 10000000 ltac:(lia)) as Hdm.
    pose proof (Z.mod_pos_bound a 10000000 ltac:(lia)) as Hmod.
    set (Q := a / 10000000) in *.
    assert (HQ : 0 <= Q) by (apply Z.div_pos; lia).
    assert (Hlow : Q * P <= m).
    { apply Z.le_trans with (a * P / 10000000); [|exact Hlo].
      apply Z.div_le_lower_bound; nia. }
    assert (Hup : m < (Q + 2) * P) by nia.
    replace (Z.max e 0) with 0 by lia. rewrite Z.pow_0_r, Z.mul_1_r.
    destruct (Z.leb_spec (2 ^ 1024) m) as [Hov|_].
    + exfalso.
      assert (2 ^ 200 <= 2 ^ 1024) by (apply Z.pow_le_mono_r; lia).
      assert (m < 2 ^ 200); [|lia].
      change (2 ^ 200) with 1606938044258990275541962092341162602522202993782792835301376.
      nia.
    + eexists. split; [reflexivity|].
      unfold Py.int_float, Py.abs_float. cbn [Py.f_neg Py.f_mant Py.f_exp].
      destruct (Z.leb_spec 0 e); [lia|]. fold P. split.
      * apply Z.div_le_lower_bound; lia.
      * assert (m / P < Q + 2); [|lia]. apply Z.div_lt_upper_bound; lia.
Qed.

(** X1.  For every signed 64-bit tick count [clock] returns a text whose
    fields are a count of days that is not negative, hours below 24,
    minutes below 60 and seconds below 60, and the duration they add up
    to is the whole seconds of the tick count or one second more. *)
Theorem clock_decodes_within_one_second (t : Z) :
  - 2 ^ 63 <= t < 2 ^ 63 ->
  exists d,
    clock t = Ok (fmt d)
    /\ 0 <= rd_days d /\ 0 <= rd_hours d < 24
    /\ 0 <= rd_minutes d < 60 /\ 0 <= rd_seconds d < 60
    /\ Z.abs t / 10000000
       <= 86400 * rd_days d + 3600 * rd_hours d + 60 * rd_minutes d + rd_seconds d
       <= Z.abs t / 10000000 + 1.
Proof.
  intros Ht. unfold clock.
  destruct (truediv_seconds_bounds t) as (q & -> & Hsec); [lia|].
  cbn [rbind]. set (sec := Py.int_float (Py.abs_float q)) in *.
  assert (Hpos : 0 <= Z.abs t / 10000000)
    by (apply Z.div_pos; [apply Z.abs_nonneg | lia]).
  exists (rd sec). split; [reflexivity|].
  rewrite rd_flat by lia. cbn [rd_days rd_hours rd_minutes rd_seconds].
  repeat split; div_lia.
Qed.

Lemma clock_decodes_within_one_second_witness :
  exists d,
    clock (-10737418249999999) = Ok (fmt d)
    /\ 0 <= rd_days d /\ 0 <= rd_hours d < 24
    /\ 0 <= rd_minutes d < 60 /\ 0 <= rd_seconds d < 60
    /\ Z.abs (-10737418249999999) / 10000000
       <= 86400 * rd_days d + 3600 * rd_hours d + 60 * rd_minutes d + rd_seconds d
       <= Z.abs (-10737418249999999) / 10000000 + 1.
Proof.
  apply (clock_decodes_within_one_second (-10737418249999999)).
  vm_compute. split; [discriminate | reflexivity].
Defined.

(** X2.  For every tick count of magnitude below 2^30 * 10^7 (durations
    below 2^30 seconds, about 34 years) [clock] is exact: it returns the
    text of the reference decoder, with the seconds truncated. *)
Theorem clock_exact_below_2p30_seconds (t : Z) :
  Z.abs t < 2 ^ 30 * 10000000 ->
  clock t = Ok (decodeInterval_reference t)
  /\ clock (- t) = Ok (decodeInterval_reference t).
Proof.
  intros Ht. split.
  - now apply clock_reference_below_2p30_seconds.
  - rewrite clock_opp. now apply clock_reference_below_2p30_seconds.
Qed.

Lemma clock_exact_below_2p30_seconds_witness :
  clock (-36288000000000) = Ok (decodeInterval_reference (-36288000000000))
  /\ clock (- -36288000000000) = Ok (decodeInterval_reference (-36288000000000)).
Proof.
  apply (clock_exact_below_2p30_seconds (-36288000000000)).
  vm_compute. reflexivity.
Defined.

(** ** Session establishment: which session, which exceptions *)

(** X3.  The session of a query is the first bind that succeeds.  When
    the plaintext bind succeeds, it is the session on port 389, nothing is
    printed and no encrypted bind is attempted; when the plaintext bind
    fails with one of the two handled failures and the encrypted bind
    succeeds, it is the session on port 636 with [use_ssl] set. *)
Theorem connect_returns_first_session (w : World) (username password domain : string)
    (dc_ip : option string) (tr : list Event) :
  let user := domain +:+ "\" +:+ username in
  let plain := Bind (target domain dc_ip +:+ ":389") user password false in
  let encrypted := Bind (target domain dc_ip +:+ ":636") user password true in
  let retry := Print "LDAP on port 389 failed, trying LDAPS on port 636..." in
  (forall u, bind_result w (tr ++ [plain]) = Ok u ->
     connect w username password domain dc_ip tr
     = (Ok (Some (mkConnection (target domain dc_ip +:+ ":389") user password false)),
        tr ++ [plain]))
  /\ (forall e1 d1 u,
        bind_result w (tr ++ [plain]) = Raise e1 ->
        diagnostic (target domain dc_ip +:+ ":389") e1 = Some d1 ->
        bind_result w (tr ++ [plain; Print d1; retry; encrypted]) = Ok u ->
        connect w username password domain dc_ip tr
        = (Ok (Some (mkConnection (target domain dc_ip +:+ ":636") user password true)),
           tr ++ [plain; Print d1; retry; encrypted])).
Proof.
  intros user plain encrypted retry. subst user plain encrypted retry. split.
  - intros u H. exact (connect_plain _ _ _ _ _ _ _ H).
  - intros e1 d1 u H1 Hd1 H2.
    rewrite (connect_fallback _ _ _ _ _ _ _ _ H1 Hd1).
    rewrite (create_connection_bound w _ _ _ _ _ u).
    + now rewrite <- app_assoc.
    + rewrite <- app_assoc. exact H2.
Qed.

Lemma connect_returns_first_session_witness :
  connect ldaps_only "auditor" "secret" "corp.local" None []
  = (Ok (Some (mkConnection "corp.local:636" "corp.local\auditor" "secret" true)),
     [Bind "corp.local:389" "corp.local\auditor" "secret" false;
      Print "Failed to bind to corp.local:389: invalidCredentials";
      Print "LDAP on port 389 failed, trying LDAPS on port 636...";
      Bind "corp.local:636" "corp.local\auditor" "secret" true]).
Proof.
  refine (proj2 (connect_returns_first_session ldaps_only "auditor" "secret" "corp.local"
                   None []) (LDAPBindError "invalidCredentials")
            "Failed to bind to corp.local:389: invalidCredentials" tt _ _ _);
    reflexivity.
Defined.

(** X4.  An exception of a bind attempt other than the two handled ones
    is not caught by [create_connection]: raised by the plaintext bind, it
    leaves the query function at once, with no encrypted attempt, no
    diagnostic and no search; raised by the encrypted bind after a handled
    plaintext failure, it leaves the query function likewise. *)
Theorem unhandled_bind_exception_propagates
    (family : World -> string -> string -> string -> option string -> IO unit)
    (w : World) (username password domain : string) (dc_ip : option string)
    (tr : list Event) :
  In family query_functions ->
  let user := domain +:+ "\" +:+ username in
  let plain := Bind (target domain dc_ip +:+ ":389") user password false in
  let encrypted := Bind (target domain dc_ip +:+ ":636") user password true in
  let retry := Print "LDAP on port 389 failed, trying LDAPS on port 636..." in
  (forall e, bind_result w (tr ++ [plain]) = Raise e ->
     diagnostic (target domain dc_ip +:+ ":389") e = None ->
     family w username password domain dc_ip tr = (Raise e, tr ++ [plain]))
  /\ (forall e1 d1 e2,
        bind_result w (tr ++ [plain]) = Raise e1 ->
        diagnostic (target domain dc_ip +:+ ":389") e1 = Some d1 ->
        bind_result w (tr ++ [plain; Print d1; retry; encrypted]) = Raise e2 ->
        diagnostic (target domain dc_ip +:+ ":636") e2 = None ->
        family w username password domain dc_ip tr
        = (Raise e2, tr ++ [plain; Print d1; retry; encrypted])).
Proof.
  intros Hfam user plain encrypted retry. subst user plain encrypted retry. split.
  - intros e H Hd.
    pose proof (connect_plain_raised _ _ _ _ _ _ _ H Hd) as Hc.
    destruct Hfam as [<- | [<- | [<- | []]]];
      [unfold get_group_pso | unfold get_user_attributes | unfold get_pso_details];
      exact (io_bind_raise _ _ _ _ _ Hc).
  - intros e1 d1 e2 H1 Hd1 H2 Hd2.
    assert (Hc : connect w username password domain dc_ip tr
                 = (Raise e2,
                    tr ++ [Bind (target domain dc_ip +:+ ":389")
                             (domain +:+ "\" +:+ username) password false;
                           Print d1;
                           Print "LDAP on port 389 failed, trying LDAPS on port 636...";
                           Bind (target domain dc_ip +:+ ":636")
                             (domain +:+ "\" +:+ username) password true])).
    { rewrite (connect_fallback _ _ _ _ _ _ _ _ H1 Hd1).
      rewrite (create_connection_raised w _ _ _ _ _ e2).
      - now rewrite <- app_assoc.
      - rewrite <- app_assoc. exact H2.
      - exact Hd2. }
    destruct Hfam as [<- | [<- | [<- | []]]];
      [unfold get_group_pso | unfold get_user_attributes | unfold get_pso_details];
      exact (io_bind_raise _ _ _ _ _ Hc).
Qed.

Lemma unhandled_bind_exception_propagates_witness :
  run (get_user_attributes bind_unsupported "auditor" "secret" "corp.local" (Some "10.0.0.5"))
  = (Raise ValueError, [Bind "10.0.0.5:389" "corp.local\auditor" "secret" false]).
Proof.
  refine (proj1 (unhandled_bind_exception_propagates get_user_attributes bind_unsupported
                   "auditor" "secret" "corp.local" (Some "10.0.0.5") [] _) ValueError _ _).
  - right. left. reflexivity.
  - reflexivity.
  - reflexivity.
Defined.

(** ** The tables of the Users and Groups queries *)

Lemma for_each_invariant {S : Type} (step : S -> Entry -> Result S) (P : S -> Prop) :
  (forall s entry s', step s entry = Ok s' -> P s -> P s') ->
  forall entries s s', for_each step s entries = Ok s' -> P s -> P s'.
Proof.
  intros Hstep. induction entries as [|x xs IH]; intros s s' H Hs; simpl in H.
  - now injection H as <-.
  - destruct (step s x) as [s1|e] eqn:E; cbn [rbind] in H; [|discriminate].
    eapply IH; [exact H|]. eapply Hstep; eassumption.
Qed.

(** Appending a row and widening the columns to it keeps the columns
    fitting. *)
Lemma columns_fit_add (title : string) (t : Table) (name : Value) (pso_name : string)
    (n : Z) :
  len_value name = Ok n ->
  columns_fit title t ->
  columns_fit title
    (mkTable (results t ++ [(name, pso_name)]) (Z.max (max_name_length t) n)
       (Z.max (max_pso_length t) (Py.len pso_name))).
Proof.
  intros Hn (H1 & H2 & H3 & H4 & H5). unfold columns_fit. cbn [results max_name_length max_pso_length].
  split; [lia|]. split; [lia|]. split; [|split].
  - apply Forall_app. split.
    + eapply List.Forall_impl; [|exact H3].
      intros row [(k & Hk & Hle) Hp]. split; [exists k; split; [exact Hk | cbn; lia] | cbn; lia].
    + constructor; [|constructor]. split; [exists n; split; [exact Hn | cbn; lia] | cbn; lia].
  - destruct (Z.max_spec (max_name_length t) n) as [[Hlt ->] | [Hge ->]].
    + right. exists (name, pso_name). split; [apply in_or_app; right; now left | exact Hn].
    + destruct H4 as [H4 | (row & Hin & Hrow)]; [now left|].
      right. exists row. split; [apply in_or_app; now left | exact Hrow].
  - destruct (Z.max_spec (max_pso_length t) (Py.len pso_name)) as [[Hlt ->] | [Hge ->]].
    + right. exists (name, pso_name). split; [apply in_or_app; right; now left | reflexivity].
    + destruct H5 as [H5 | (row & Hin & Hrow)]; [now left|].
      right. exists row. split; [apply in_or_app; now left | exact Hrow].
Qed.

Lemma user_step_columns_fit (t t' : Table) (entry : Entry) :
  user_step t entry = Ok t' -> columns_fit "Users" t -> columns_fit "Users" t'.
Proof.
  intros H Hfit. destruct (has_values "msDS-ResultantPSO" entry) eqn:Hv.
  - destruct (has_values_lookup _ _ Hv) as (a & Ha & Hne).
    rewrite (user_step_row t entry a Ha Hne) in H.
    destruct (pso_name_of (Attr.str a)) as [pso_name|]; cbn [rbind] in H; [|discriminate].
    destruct (len_value (account_name entry)) as [n|] eqn:Hn; cbn [rbind] in H; [|discriminate].
    injection H as <-. now apply columns_fit_add.
  - rewrite (user_step_skip t entry Hv) in H. now injection H as <-.
Qed.

Lemma group_step_columns_fit (t t' : Table) (entry : Entry) :
  group_step t entry = Ok t' -> columns_fit "Groups" t -> columns_fit "Groups" t'.
Proof.
  intros H Hfit. destruct (has_values "msDS-PSOApplied" entry) eqn:Hv.
  - destruct (has_values_lookup _ _ Hv) as (a & Ha & Hne).
    rewrite (group_step_row t entry a Ha Hne) in H.
    destruct (Attr.getattr entry "cn") as [cn|]; cbn [rbind] in H; [|discriminate].
    destruct (pso_name_of (Attr.str a)) as [pso_name|]; cbn [rbind] in H; [|discriminate].
    destruct (len_value (Attr.value cn)) as [n|] eqn:Hn; cbn [rbind] in H; [|discriminate].
    injection H as <-. now apply columns_fit_add.
  - rewrite (group_step_skip t entry Hv) in H. now injection H as <-.
Qed.

Lemma columns_fit_empty (title : string) :
  columns_fit title (mkTable [] (Py.len title) (Py.len "PSO")).
Proof.
  unfold columns_fit. cbn [results max_name_length max_pso_length].
  split; [lia|]. split; [lia|]. split; [constructor|]. split; now left.
Qed.

Lemma users_columns_fit (entries : list Entry) (t : Table) :
  project_users entries = Ok t -> columns_fit "Users" t.
Proof.
  intros H.
  refine (for_each_invariant user_step (columns_fit "Users") _
            entries _ _ H (columns_fit_empty "Users")).
  intros s entry s'. apply user_step_columns_fit.
Qed.

Lemma groups_columns_fit (entries : list Entry) (t : Table) :
  project_groups entries = Ok t -> columns_fit "Groups" t.
Proof.
  intros H.
  refine (for_each_invariant group_step (columns_fit "Groups") _
            entries _ _ H (columns_fit_empty "Groups")).
  intros s entry s'. apply group_step_columns_fit.
Qed.

(** X5.  The column widths a projection returns are exact: each column
    is at least as wide as its title (Users or Groups, and PSO) and as
    every cell of the column, and it is exactly as wide as the title or as
    one of the cells. *)
Theorem projection_columns_fit (entries : list Entry) (t : Table) :
  (project_users entries = Ok t -> columns_fit "Users" t)
  /\ (project_groups entries = Ok t -> columns_fit "Groups" t).
Proof.
  split; [apply users_columns_fit | apply groups_columns_fit].
Qed.

Lemma projection_columns_fit_witness :
  columns_fit "Users"
    (mkTable [(VStr "alice", "StrictPolicy")] 5 12).
Proof.
  apply (proj1 (projection_columns_fit [entry_alice; entry_no_pso]
                  (mkTable [(VStr "alice", "StrictPolicy")] 5 12))).
  vm_compute. reflexivity.
Defined.

Lemma len_append (a b : string) : Py.len (a +:+ b) = Py.len a + Py.len b.
Proof.
  unfold Py.len. induction a as [|x a IH]; [reflexivity|].
  cbn [String.append String.length]. lia.
Qed.

Lemma len_repeat_char (c : ascii) (n : nat) :
  Py.len (Py.repeat_str (String c EmptyString) n) = Z.of_nat n.
Proof.
  unfold Py.len. induction n as [|n IH]; [reflexivity|].
  cbn [Py.repeat_str String.append String.length]. lia.
Qed.

(** Padding never cuts: the padded text is as long as the wider of the
    text and the column. *)
Lemma len_ljust (s : string) (width : Z) :
  Py.len (Py.ljust s width) = Z.max (Py.len s) width.
Proof.
  unfold Py.ljust. rewrite len_append, len_repeat_char.
  unfold Py.len. lia.
Qed.

Lemma emits_for {A : Type} (l : list A) (body : A -> IO unit) (f : A -> string) :
  Forall (fun x => emits (body x) [f x]) l ->
  emits (io_for l body) (map f l).
Proof.
  induction 1 as [|x xs Hx _ IH]; cbn [io_for map].
  - apply emits_ret.
  - apply (emits_seq (body x) (io_for xs body) [f x] (map f xs)); assumption.
Qed.

(** X6.  The table of a projection is printed column-aligned when the
    names are [str]: a header, a separator and one line per row, in the
    order of the rows; the header and the separator have the same length,
    the two column widths plus seven, and every row line has that length
    plus the nine characters of the two colour codes. *)
Theorem table_lines_aligned (title : string) (t : Table) (tr : list Event) :
  columns_fit title t ->
  Forall name_is_str (results t) ->
  exists header separator,
    print_table title t tr
    = (Ok tt, tr ++ map Print (header :: separator :: map (row_line t) (results t)))
    /\ Py.len header = max_name_length t + max_pso_length t + 7
    /\ Py.len separator = Py.len header
    /\ Forall (fun line => Py.len line = Py.len header + 9)
         (map (row_line t) (results t)).
Proof.
  intros (H1 & H2 & H3 & _ & _) Hstr.
  assert (Hw1 : 0 <= max_name_length t) by (unfold Py.len in H1; lia).
  assert (Hw2 : 0 <= max_pso_length t) by (unfold Py.len in H2; lia).
  eexists. eexists. split; [|split; [|split]].
  - unfold print_table.
    apply (emits_seq _ _ [_] (_ :: _)); [apply emits_print|].
    apply (emits_seq _ _ [_] _); [apply emits_print|].
    apply (emits_for (results t) _ (row_line t)).
    apply List.Forall_forall. intros [name pso_name] Hin.
    apply (proj1 (List.Forall_forall _ _) Hstr) in Hin as [s Hs]. cbn [fst] in Hs. subst name.
    eapply emits_lift; [reflexivity|]. apply emits_print.
  - rewrite !len_append, !len_ljust. change (Py.len "| ") with 2.
    change (Py.len " | ") with 3. change (Py.len " |") with 2. lia.
  - rewrite !len_append, !len_ljust, !len_repeat_char.
    change (Py.len "| ") with 2. change (Py.len " | ") with 3. change (Py.len " |") with 2.
    lia.
  - apply List.Forall_forall. intros line Hin.
    apply in_map_iff in Hin as ([name pso_name] & <- & Hin).
    pose proof (proj1 (List.Forall_forall _ _) Hstr _ Hin) as [s Hs].
    pose proof (proj1 (List.Forall_forall _ _) H3 _ Hin) as [(n & Hn & Hle) Hp].
    cbn [fst snd] in Hs, Hn, Hp. subst name. injection Hn as <-.
    unfold row_line. cbn [fst snd].
    rewrite !len_append, !len_ljust.
    change (Py.len "| ") with 2. change (Py.len " | ") with 3. change (Py.len " |") with 2.
    change (Py.len GREEN) with 5. change (Py.len RESET) with 4. lia.
Qed.

Lemma table_lines_aligned_witness :
  exists header separator,
    print_table "Users" (mkTable [(VStr "alice", "StrictPolicy")] 5 12) []
    = (Ok tt, [] ++ map Print (header :: separator
                 :: map (row_line (mkTable [(VStr "alice", "StrictPolicy")] 5 12))
                      [(VStr "alice", "StrictPolicy")]))
    /\ Py.len header = 5 + 12 + 7
    /\ Py.len separator = Py.len header
    /\ Forall (fun line => Py.len line = Py.len header + 9)
         (map (row_line (mkTable [(VStr "alice", "StrictPolicy")] 5 12))
            [(VStr "alice", "StrictPolicy")]).
Proof.
  apply (table_lines_aligned "Users" (mkTable [(VStr "alice", "StrictPolicy")] 5 12) []).
  - apply (users_columns_fit [entry_alice; entry_no_pso]). vm_compute. reflexivity.
  - repeat constructor. now exists "alice".
Defined.

(** ** Entries the projections skip, rows they make *)

Lemma for_each_filter {S : Type} (step : S -> Entry -> Result S) (keep : Entry -> bool)
    (entries : list Entry) :
  (forall s entry, keep entry = false -> step s entry = Ok s) ->
  forall s, for_each step s entries = for_each step s (List.filter keep entries).
Proof.
  intros Hskip. induction entries as [|x xs IH]; intros s; [reflexivity|].
  cbn [for_each List.filter]. destruct (keep x) eqn:E.
  - cbn [for_each]. destruct (step s x); cbn [rbind]; [apply IH | reflexivity].
  - rewrite (Hskip s x E). cbn [rbind]. apply IH.
Qed.

(** X7.  Entries without a value of the PSO attribute do not count: a
    projection of the entries is the projection of the entries that have
    one, rows, widths and exception alike; and a projection of entries
    none of which has one is the empty table with the widths of the
    titles. *)
Theorem projection_ignores_entries_without_pso (entries : list Entry) :
  project_users entries
  = project_users (List.filter (has_values "msDS-ResultantPSO") entries)
  /\ project_groups entries
     = project_groups (List.filter (has_values "msDS-PSOApplied") entries)
  /\ (List.filter (has_values "msDS-ResultantPSO") entries = [] ->
      project_users entries = Ok (mkTable [] 5 3))
  /\ (List.filter (has_values "msDS-PSOApplied") entries = [] ->
      project_groups entries = Ok (mkTable [] 6 3)).
Proof.
  assert (Hu : project_users entries
               = project_users (List.filter (has_values "msDS-ResultantPSO") entries)).
  { unfold project_users. apply for_each_filter.
    intros s entry H. now apply user_step_skip. }
  assert (Hg : project_groups entries
               = project_groups (List.filter (has_values "msDS-PSOApplied") entries)).
  { unfold project_groups. apply for_each_filter.
    intros s entry H. now apply group_step_skip. }
  split; [exact Hu|]. split; [exact Hg|]. split.
  - intros H. rewrite Hu, H. reflexivity.
  - intros H. rewrite Hg, H. reflexivity.
Qed.

Lemma groups_rows_from (entries : list Entry) :
  (forall entry a, In entry entries ->
     entry !! "msDS-PSOApplied" = Some a -> a <> [] ->
     Py.contains_char "=" (before "," (Attr.str a)) = true
     /\ exists cn, entry !! "cn" = Some cn /\ cn <> []) ->
  forall t0, exists t rows,
    for_each group_step t0 entries = Ok t
    /\ results t = results t0 ++ rows
    /\ Forall2 group_row_of (List.filter (has_values "msDS-PSOApplied") entries) rows.
Proof.
  induction entries as [|x xs IH]; intros Hpre t0.
  - exists t0, []. simpl. rewrite app_nil_r. repeat split. constructor.
  - assert (Hxs : forall entry a, In entry xs ->
              entry !! "msDS-PSOApplied" = Some a -> a <> [] ->
              Py.contains_char "=" (before "," (Attr.str a)) = true
              /\ exists cn, entry !! "cn" = Some cn /\ cn <> [])
      by (intros entry a Hin; apply Hpre; now right).
    cbn [for_each List.filter].
    destruct (has_values "msDS-PSOApplied" x) eqn:Hv.
    + destruct (has_values_lookup _ _ Hv) as (a & Ha & Hne).
      destruct (Hpre x a (or_introl eq_refl) Ha Hne) as [Heq (cn & Hcn & Hcne)].
      destruct (pso_name_of_ok _ Heq) as [name Hname].
      rewrite (group_step_row t0 x a Ha Hne). unfold Attr.getattr. rewrite Hcn.
      cbn [rbind]. rewrite Hname. cbn [rbind].
      assert (Hlen : exists n, len_value (Attr.value cn) = Ok n).
      { destruct cn as [|c1 [|c2 cs]]; [congruence | |]; simpl; eauto. }
      destruct Hlen as [n ->]. cbn [rbind].
      destruct (IH Hxs (mkTable (results t0 ++ [(Attr.value cn, name)])
                           (Z.max (max_name_length t0) n)
                           (Z.max (max_pso_length t0) (Py.len name))))
        as (t & rows & Hrun & Hres & Hrows).
      exists t, ((Attr.value cn, name) :: rows). split; [exact Hrun|]. split.
      * rewrite Hres. cbn [results]. now rewrite <- app_assoc.
      * constructor; [|exact Hrows]. split; [now exists cn | now exists a].
    + rewrite (group_step_skip t0 x Hv). cbn [rbind]. apply IH, Hxs.
Qed.

(** X8.  When every group entry with a present, non-empty applied-PSO
    attribute has an equals sign in the first comma-delimited segment of
    that value and a [cn] attribute with a value, the Groups projection
    yields exactly one row per such entry, in the order of the entries:
    the value of [cn] and the extracted PSO name. *)
Theorem groups_projection_rows (entries : list Entry) :
  (forall entry a, In entry entries ->
     entry !! "msDS-PSOApplied" = Some a -> a <> [] ->
     Py.contains_char "=" (before "," (Attr.str a)) = true
     /\ exists cn, entry !! "cn" = Some cn /\ cn <> []) ->
  exists t,
    project_groups entries = Ok t
    /\ Forall2 group_row_of (List.filter (has_values "msDS-PSOApplied") entries) (results t).
Proof.
  intros Hpre.
  destruct (groups_rows_from entries Hpre (mkTable [] (Py.len "Groups") (Py.len "PSO")))
    as (t & rows & Hrun & Hres & Hrows).
  exists t. split; [exact Hrun|]. cbn [results app] in Hres. now rewrite Hres.
Qed.

Lemma groups_projection_rows_witness :
  exists t,
    project_groups [group_admins; entry_no_pso] = Ok t
    /\ Forall2 group_row_of
         (List.filter (has_values "msDS-PSOApplied") [group_admins; entry_no_pso])
         (results t).
Proof.
  apply (groups_projection_rows [group_admins; entry_no_pso]).
  intros entry a [<- | [<- | []]] Ha Hne.
  - vm_compute in Ha. injection Ha as <-. split; [vm_compute; reflexivity|].
    exists ["Admins"]. split; [vm_compute; reflexivity | discriminate].
  - vm_compute in Ha. discriminate.
Defined.


(** X9.  A name attribute without a value aborts both projections.  An
    entry with a PSO value whose name attribute ([sAMAccountName] for a
    user, [cn] for a group) is a key without a value has its name read
    as [None]: for a user the test of line 57 holds and N/A is not
    taken.  After the PSO name is extracted, [len(None)] raises
    [TypeError] at lines 63 and 116, and a projection over entries that
    contain such an entry returns no table. *)
Theorem name_without_value_aborts (entry : Entry) (a : list string) (t : Table) :
  a <> [] ->
  Py.contains_char "=" (before "," (Attr.str a)) = true ->
  (entry !! "msDS-ResultantPSO" = Some a ->
   entry !! "sAMAccountName" = Some [] ->
   user_step t entry = Raise TypeError
   /\ forall entries, In entry entries -> is_ok (project_users entries) = false)
  /\ (entry !! "msDS-PSOApplied" = Some a ->
      entry !! "cn" = Some [] ->
      group_step t entry = Raise TypeError
      /\ forall entries, In entry entries -> is_ok (project_groups entries) = false).
Proof.
  intros Hne Heq. destruct (pso_name_of_ok _ Heq) as [pso_name Hp]. split.
  - intros Ha Hn.
    assert (Hstep : forall s, user_step s entry = Raise TypeError).
    { intros s. rewrite (user_step_row s entry a Ha Hne), Hp.
      unfold account_name. rewrite Hn. reflexivity. }
    split; [apply Hstep|].
    intros entries Hin. unfold project_users.
    apply (for_each_blocked user_step entries entry Hin).
    intros s. now rewrite Hstep.
  - intros Ha Hn.
    assert (Hstep : forall s, group_step s entry = Raise TypeError).
    { intros s. rewrite (group_step_row s entry a Ha Hne).
      unfold Attr.getattr. rewrite Hn. cbn [rbind]. rewrite Hp. reflexivity. }
    split; [apply Hstep|].
    intros entries Hin. unfold project_groups.
    apply (for_each_blocked group_step entries entry Hin).
    intros s. now rewrite Hstep.
Qed.

Lemma name_without_value_aborts_witness :
  (user_step (mkTable [] 5 3) entry_empty_account = Raise TypeError
   /\ is_ok (project_users [entry_alice; entry_empty_account]) = false)
  /\ (group_step (mkTable [] 6 3) group_no_cn = Raise TypeError
      /\ is_ok (project_groups [group_admins; group_no_cn]) = false).
Proof.
  destruct (name_without_value_aborts entry_empty_account
              ["CN=StrictPolicy,CN=Password Settings Container"]
              (mkTable [] 5 3)) as [Hu _]; [discriminate | reflexivity |].
  destruct (name_without_value_aborts group_no_cn
              ["CN=AdminPolicy,CN=Password Settings Container,CN=System,DC=corp,DC=local"]
              (mkTable [] 6 3)) as [_ Hg]; [discriminate | reflexivity |].
  split.
  - destruct (Hu eq_refl eq_refl) as [H1 H2]. split; [exact H1|].
    apply H2. simpl. tauto.
  - destruct (Hg eq_refl eq_refl) as [H1 H2]. split; [exact H1|].
    apply H2. simpl. tauto.
Defined.

(** Every part of a split is free of the separator. *)
Lemma split_parts_no_sep (c : ascii) (s : string) :
  Forall (fun part => Py.contains_char c part = false) (Py.split c s).
Proof.
  induction s as [|x s IH]; simpl.
  - constructor; [reflexivity | constructor].
  - destruct (Ascii.eqb x c) eqn:E.
    + constructor; [reflexivity | exact IH].
    + destruct (Py.split c s) as [|w ws]; inversion IH; subst.
      * constructor; [simpl; now rewrite E | constructor].
      * constructor; [simpl; now rewrite E | assumption].
Qed.

(** A character that is not in a text is in none of its parts. *)
Lemma split_parts_free (c d : ascii) (s : string) :
  Py.contains_char d s = false ->
  Forall (fun part => Py.contains_char d part = false) (Py.split c s).
Proof.
  induction s as [|x s IH]; simpl; intros H.
  - constructor; [reflexivity | constructor].
  - apply orb_false_iff in H as [Hx Hs]. specialize (IH Hs).
    destruct (Ascii.eqb x c) eqn:E.
    + constructor; [reflexivity | exact IH].
    + destruct (Py.split c s) as [|w ws]; inversion IH; subst.
      * constructor; [simpl; now rewrite Hx | constructor].
      * constructor; [simpl; now rewrite Hx | assumption].
Qed.

(** X10.  A name the extraction returns has no comma and no equals sign
    in it: it is cut at the first comma of the value and at the next
    equals sign, also when the name in the directory has one of them. *)
Theorem pso_name_has_no_separator (text name : string) :
  pso_name_of text = Ok name ->
  Py.contains_char "," name = false /\ Py.contains_char "=" name = false.
Proof.
  rewrite pso_name_of_first_segment. unfold Py.index.
  destruct (nth_error (Py.split "=" (before "," text)) 1) as [part|] eqn:E; [|discriminate].
  intros H. injection H as <-. apply nth_error_In in E. split.
  - pose proof (split_parts_free "=" "," (before "," text) (before_no_sep _ _)) as HF.
    exact (proj1 (List.Forall_forall _ _) HF _ E).
  - pose proof (split_parts_no_sep "=" (before "," text)) as HF.
    exact (proj1 (List.Forall_forall _ _) HF _ E).
Qed.

Lemma pso_name_has_no_separator_witness :
  Py.contains_char "," "Tier" = false /\ Py.contains_char "=" "Tier" = false.
Proof.
  apply (pso_name_has_no_separator "CN=Tier=0\,Admins,CN=Password Settings Container" "Tier").
  reflexivity.
Defined.

(** ** Queries that find nothing *)

Lemma search_answer (w : World) (conn : Connection) (search_base search_filter : string)
    (attributes : list string) (tr : list Event) (r : Result (list Entry)) :
  search_result w (tr ++ [Search conn search_base search_filter attributes]) = r ->
  search w conn search_base search_filter attributes tr
  = (r, tr ++ [Search conn search_base search_filter attributes]).
Proof. intros <-. reflexivity. Qed.

(** X11.  With a session established, a Users or Groups search none of
    whose entries has a value of the PSO attribute prints the empty table
    (the header and the separator at the widths of the titles) and
    unbinds; a details search without entries prints the warning about
    privileges instead of a listing, and unbinds. *)
Theorem queries_without_results (w : World) (username password domain : string)
    (dc_ip : option string) (tr tr1 : list Event) (conn : Connection)
    (entries : list Entry) :
  connect w username password domain dc_ip tr = (Ok (Some conn), tr1) ->
  let base := "DC=" +:+ Py.join ",DC=" (Py.split "." domain) in
  let users := Search conn base "(objectClass=user)" ["sAMAccountName"; "msDS-ResultantPSO"] in
  let groups := Search conn base "(objectClass=group)" ["cn"; "msDS-PSOApplied"] in
  let details :=
    Search conn ("CN=Password Settings Container,CN=System," +:+ base_creator domain)
      "(objectclass=msDS-PasswordSettings)" pso_attributes in
  (search_result w (tr1 ++ [users]) = Ok entries ->
   List.filter (has_values "msDS-ResultantPSO") entries = [] ->
   get_user_attributes w username password domain dc_ip tr
   = (Ok tt, tr1 ++ [users; Print "| Users | PSO |"; Print "| ----- | --- |"; Unbind conn]))
  /\ (search_result w (tr1 ++ [groups]) = Ok entries ->
      List.filter (has_values "msDS-PSOApplied") entries = [] ->
      get_group_pso w username password domain dc_ip tr
      = (Ok tt, tr1 ++ [groups; Print "| Groups | PSO |"; Print "| ------ | --- |";
                        Unbind conn]))
  /\ (search_result w (tr1 ++ [details]) = Ok [] ->
      get_pso_details w username password domain dc_ip tr
      = (Ok tt,
         tr1 ++ [details;
                 Print "Could not enumerate details, you likely do not have the privileges to do so!";
                 Unbind conn])).
Proof.
  intros Hconnect base users groups details. subst base users groups details.
  split; [|split].
  - intros Hs Hnone. unfold get_user_attributes.
    rewrite (io_bind_ok _ _ _ _ _ Hconnect).
    rewrite (io_bind_ok _ _ _ _ _ (search_answer _ _ _ _ _ _ _ Hs)).
    assert (Hp : project_users entries = Ok (mkTable [] 5 3)).
    { unfold project_users.
      rewrite (for_each_filter user_step (has_values "msDS-ResultantPSO"));
        [now rewrite Hnone | intros s entry H; now apply user_step_skip]. }
    rewrite Hp.
    cbv [io_bind io_lift print_table print unbind emit io_for io_ret
         results max_name_length max_pso_length].
    rewrite <- !app_assoc. reflexivity.
  - intros Hs Hnone. unfold get_group_pso.
    rewrite (io_bind_ok _ _ _ _ _ Hconnect).
    rewrite (io_bind_ok _ _ _ _ _ (search_answer _ _ _ _ _ _ _ Hs)).
    assert (Hp : project_groups entries = Ok (mkTable [] 6 3)).
    { unfold project_groups.
      rewrite (for_each_filter group_step (has_values "msDS-PSOApplied"));
        [now rewrite Hnone | intros s entry H; now apply group_step_skip]. }
    rewrite Hp.
    cbv [io_bind io_lift print_table print unbind emit io_for io_ret
         results max_name_length max_pso_length].
    rewrite <- !app_assoc. reflexivity.
  - intros Hs. unfold get_pso_details.
    rewrite (io_bind_ok _ _ _ _ _ Hconnect).
    rewrite (io_bind_ok _ _ _ _ _ (search_answer _ _ _ _ _ _ _ Hs)).
    cbv [io_bind print unbind emit List.length Z.of_nat Z.ltb Z.compare].
    rewrite <- !app_assoc. reflexivity.
Qed.

Lemma queries_without_results_witness :
  run (get_pso_details (answers_users []) "auditor" "secret" "corp.local" (Some "10.0.0.5"))
  = (Ok tt,
     [Bind "10.0.0.5:389" "corp.local\auditor" "secret" false]
     ++ [Search (mkConnection "10.0.0.5:389" "corp.local\auditor" "secret" false)
           ("CN=Password Settings Container,CN=System," +:+ base_creator "corp.local")
           "(objectclass=msDS-PasswordSettings)" pso_attributes;
         Print "Could not enumerate details, you likely do not have the privileges to do so!";
         Unbind (mkConnection "10.0.0.5:389" "corp.local\auditor" "secret" false)]).
Proof.
  refine (proj2 (proj2 (queries_without_results (answers_users []) "auditor" "secret"
                          "corp.local" (Some "10.0.0.5") [] _ _ [] _)) _); reflexivity.
Defined.

(** ** The listing of the details query *)

Lemma outputs_ret {A : Type} (a : A) : outputs (io_ret a) (Ok a) [].
Proof. intros tr. unfold io_ret. simpl. now rewrite app_nil_r. Qed.

Lemma outputs_lift {A : Type} (r : Result A) : outputs (io_lift r) r [].
Proof. intros tr. unfold io_lift. simpl. now rewrite app_nil_r. Qed.

Lemma outputs_print (text : string) : outputs (print text) (Ok tt) [text].
Proof. intros tr. reflexivity. Qed.

Lemma outputs_bind_ok {A B : Type} (m : IO A) (k : A -> IO B) (a : A) (r : Result B)
    (l1 l2 : list string) :
  outputs m (Ok a) l1 -> outputs (k a) r l2 -> outputs (io_bind m k) r (l1 ++ l2).
Proof.
  intros H1 H2 tr. unfold io_bind. rewrite H1, H2. now rewrite map_app, app_assoc.
Qed.

Lemma outputs_bind_raise {A B : Type} (m : IO A) (k : A -> IO B) (e : PyExn)
    (l1 : list string) :
  outputs m (Raise e) l1 -> outputs (io_bind m k) (Raise e) l1.
Proof. intros H1 tr. unfold io_bind. now rewrite H1. Qed.

Lemma has_output_bind {A B : Type} (m : IO A) (k : A -> IO B) :
  has_output m -> (forall a, has_output (k a)) -> has_output (io_bind m k).
Proof.
  intros ([a|e] & l1 & H1) Hk.
  - destruct (Hk a) as (r & l2 & H2). exists r, (l1 ++ l2).
    eapply outputs_bind_ok; eassumption.
  - exists (Raise e), l1. now apply outputs_bind_raise.
Qed.

Lemma has_output_for {A : Type} (l : list A) (body : A -> IO unit) :
  (forall x, has_output (body x)) -> has_output (io_for l body).
Proof.
  intros Hbody. induction l as [|x xs IH]; cbn [io_for].
  - eexists. eexists. apply outputs_ret.
  - apply has_output_bind; [apply Hbody | intros _; exact IH].
Qed.

Ltac has_output_tac :=
  repeat first
    [ apply has_output_bind; [|intros ?]
    | apply has_output_for; intros ?
    | match goal with |- has_output (if ?b then _ else _) => destruct b end
    | (eexists; eexists; apply outputs_print)
    | (eexists; eexists; apply outputs_lift)
    | (eexists; eexists; apply outputs_ret) ].

(** The block of an entry does not depend on what was printed before. *)
Lemma pso_block_has_output (entry : Entry) : has_output (pso_block entry).
Proof. unfold pso_block. has_output_tac. Qed.

Lemma map_Print_inj (l1 l2 : list string) : map Print l1 = map Print l2 -> l1 = l2.
Proof.
  revert l2. induction l1 as [|x xs IH]; intros [|y ys] H; try discriminate; [reflexivity|].
  cbn [map] in H. injection H as -> H. f_equal. now apply IH.
Qed.

(** What a block does alone is what it does anywhere. *)
Lemma pso_block_outputs (entry : Entry) (r : Result unit) (lines : list string) :
  run (pso_block entry) = (r, map Print lines) -> outputs (pso_block entry) r lines.
Proof.
  intros H. destruct (pso_block_has_output entry) as (r' & lines' & Hout).
  unfold run in H. rewrite (Hout []) in H. cbn [app] in H.
  injection H as -> H. apply map_Print_inj in H. now subst lines'.
Qed.

Lemma listing_outputs (entries : list Entry) (blocks : list (list string)) :
  Forall2 (fun entry lines => outputs (pso_block entry) (Ok tt) lines) entries blocks ->
  outputs (io_for entries pso_block) (Ok tt) (List.concat blocks).
Proof.
  induction 1 as [|entry lines entries blocks H _ IH]; cbn [io_for List.concat].
  - apply outputs_ret.
  - eapply outputs_bind_ok; [exact H | exact IH].
Qed.

Lemma listing_aborted (good rest : list Entry) (bad : Entry) (blocks : list (list string))
    (e : PyExn) (partial : list string) :
  Forall2 (fun entry lines => outputs (pso_block entry) (Ok tt) lines) good blocks ->
  outputs (pso_block bad) (Raise e) partial ->
  outputs (io_for (good ++ bad :: rest) pso_block) (Raise e) (List.concat blocks ++ partial).
Proof.
  intros Hgood Hbad.
  induction Hgood as [|entry lines good blocks H _ IH]; cbn [io_for List.concat app].
  - now apply outputs_bind_raise.
  - rewrite <- app_assoc. eapply outputs_bind_ok; [exact H | exact IH].
Qed.

Lemma blocks_alone (entries : list Entry) (blocks : list (list string)) :
  Forall2 (fun entry lines => run (pso_block entry) = (Ok tt, map Print lines))
    entries blocks ->
  Forall2 (fun entry lines => outputs (pso_block entry) (Ok tt) lines) entries blocks.
Proof.
  induction 1; constructor; [now apply pso_block_outputs | assumption].
Qed.

(** X12.  With a session established, a details search that returns
    entries prints the block of each entry, in the order of the entries,
    each block being what the entry prints alone, and then unbinds: the
    listing has as many blocks as the search has entries. *)
Theorem details_listing (w : World) (username password domain : string)
    (dc_ip : option string) (tr tr1 : list Event) (conn : Connection)
    (entries : list Entry) (blocks : list (list string)) :
  connect w username password domain dc_ip tr = (Ok (Some conn), tr1) ->
  let details :=
    Search conn ("CN=Password Settings Container,CN=System," +:+ base_creator domain)
      "(objectclass=msDS-PasswordSettings)" pso_attributes in
  search_result w (tr1 ++ [details]) = Ok entries ->
  entries <> [] ->
  Forall2 (fun entry lines => run (pso_block entry) = (Ok tt, map Print lines))
    entries blocks ->
  get_pso_details w username password domain dc_ip tr
  = (Ok tt, tr1 ++ details :: map Print (List.concat blocks) ++ [Unbind conn])
  /\ List.length blocks = List.length entries.
Proof.
  intros Hconnect details Hs Hne Hblocks. subst details. split.
  - unfold get_pso_details.
    rewrite (io_bind_ok _ _ _ _ _ Hconnect).
    rewrite (io_bind_ok _ _ _ _ _ (search_answer _ _ _ _ _ _ _ Hs)).
    assert (Hlen : (0 <? Z.of_nat (List.length entries)) = true)
      by (destruct entries; [congruence | reflexivity]).
    rewrite Hlen.
    rewrite (io_bind_ok _ _ _ _ tt (listing_outputs _ _ (blocks_alone _ _ Hblocks) _)).
    unfold unbind, emit. now rewrite <- !app_assoc.
  - symmetry. eapply Forall2_length. exact Hblocks.
Qed.

Lemma details_listing_witness :
  run (get_pso_details (answers_users [entry_pso_bare]) "auditor" "secret" "corp.local"
         (Some "10.0.0.5"))
  = (Ok tt,
     [Bind "10.0.0.5:389" "corp.local\auditor" "secret" false]
     ++ Search (mkConnection "10.0.0.5:389" "corp.local\auditor" "secret" false)
          ("CN=Password Settings Container,CN=System," +:+ base_creator "corp.local")
          "(objectclass=msDS-PasswordSettings)" pso_attributes
        :: map Print
             (List.concat
                [["Policy Name: " +:+ BLUE +:+ "StrictPolicy" +:+ RESET;
                  "Minimum Password Length: " +:+ CYAN +:+ "14" +:+ RESET;
                  "Password History Length: " +:+ CYAN +:+ "24" +:+ RESET;
                  "Lockout Threshold: " +:+ CYAN +:+ "5" +:+ RESET;
                  "Observation Window: N/A"; "Lockout Duration: N/A";
                  "Complexity Enabled: True"; "Minimum Password Age: N/A";
                  "Maximum Password Age: N/A"; "Reversible Encryption: False";
                  "Precedence: " +:+ CYAN +:+ "10" +:+ RESET; EmptyString]])
        ++ [Unbind (mkConnection "10.0.0.5:389" "corp.local\auditor" "secret" false)]).
Proof.
  refine (proj1 (details_listing (answers_users [entry_pso_bare]) "auditor" "secret"
                   "corp.local" (Some "10.0.0.5") [] _ _ [entry_pso_bare] _ _ _ _ _)).
  - reflexivity.
  - reflexivity.
  - discriminate.
  - constructor; [vm_compute; reflexivity | constructor].
Defined.

(** X13.  The listing stops at the first entry whose block raises: the
    blocks of the entries before it stay printed, with the lines that
    entry printed before the exception; no later entry is printed, the
    session is not unbound, and the exception is the one of that entry. *)
Theorem details_listing_aborted (w : World) (username password domain : string)
    (dc_ip : option string) (tr tr1 : list Event) (conn : Connection)
    (good rest : list Entry) (bad : Entry) (blocks : list (list string))
    (e : PyExn) (partial : list string) :
  connect w username password domain dc_ip tr = (Ok (Some conn), tr1) ->
  let details :=
    Search conn ("CN=Password Settings Container,CN=System," +:+ base_creator domain)
      "(objectclass=msDS-PasswordSettings)" pso_attributes in
  search_result w (tr1 ++ [details]) = Ok (good ++ bad :: rest) ->
  Forall2 (fun entry lines => run (pso_block entry) = (Ok tt, map Print lines))
    good blocks ->
  run (pso_block bad) = (Raise e, map Print partial) ->
  get_pso_details w username password domain dc_ip tr
  = (Raise e, tr1 ++ details :: map Print (List.concat blocks ++ partial)).
Proof.
  intros Hconnect details Hs Hgood Hbad. subst details.
  unfold get_pso_details.
  rewrite (io_bind_ok _ _ _ _ _ Hconnect).
  rewrite (io_bind_ok _ _ _ _ _ (search_answer _ _ _ _ _ _ _ Hs)).
  assert (Hlen : (0 <? Z.of_nat (List.length (good ++ bad :: rest))) = true)
    by (destruct good; reflexivity).
  rewrite Hlen.
  rewrite (io_bind_raise _ _ _ _ _
             (listing_aborted good rest bad blocks e partial (blocks_alone _ _ Hgood)
                (pso_block_outputs _ _ _ Hbad) _)).
  now rewrite <- app_assoc.
Qed.

Lemma details_listing_aborted_witness :
  run (get_pso_details (answers_users [entry_pso_bare; entry_pso_no_name; entry_pso_bare])
         "auditor" "secret" "corp.local" (Some "10.0.0.5"))
  = (Raise (LDAPKeyError "name"),
     [Bind "10.0.0.5:389" "corp.local\auditor" "secret" false]
     ++ Search (mkConnection "10.0.0.5:389" "corp.local\auditor" "secret" false)
          ("CN=Password Settings Container,CN=System," +:+ base_creator "corp.local")
          "(objectclass=msDS-PasswordSettings)" pso_attributes
        :: map Print
             (List.concat
                [["Policy Name: " +:+ BLUE +:+ "StrictPolicy" +:+ RESET;
                  "Minimum Password Length: " +:+ CYAN +:+ "14" +:+ RESET;
                  "Password History Length: " +:+ CYAN +:+ "24" +:+ RESET;
                  "Lockout Threshold: " +:+ CYAN +:+ "5" +:+ RESET;
                  "Observation Window: N/A"; "Lockout Duration: N/A";
                  "Complexity Enabled: True"; "Minimum Password Age: N/A";
                  "Maximum Password Age: N/A"; "Reversible Encryption: False";
                  "Precedence: " +:+ CYAN +:+ "10" +:+ RESET; EmptyString]]
              ++ [])).
Proof.
  refine (details_listing_aborted (answers_users [entry_pso_bare; entry_pso_no_name;
                                                  entry_pso_bare])
            "auditor" "secret" "corp.local" (Some "10.0.0.5") [] _ _
            [entry_pso_bare] [entry_pso_bare] entry_pso_no_name _ _ _ _ _ _ _).
  - reflexivity.
  - reflexivity.
  - constructor; [vm_compute; reflexivity | constructor].
  - reflexivity.
Defined.

(** ** The lines of a block *)

(** The lines of the block of an entry, given the text of every field. *)
Lemma pso_block_lines (entry : Entry) (v1 v2 v3 v4 v5 v6 v7 w1 w2 w3 w4 : string)
    (ld la : list string) :
  field entry "name" = Ok v1 ->
  field entry "msds-minimumpasswordlength" = Ok v2 ->
  field entry "msds-passwordhistorylength" = Ok v3 ->
  field entry "msds-lockoutthreshold" = Ok v4 ->
  field entry "msds-passwordcomplexityenabled" = Ok v5 ->
  field entry "msds-passwordreversibleencryptionenabled" = Ok v6 ->
  field entry "msds-passwordsettingsprecedence" = Ok v7 ->
  interval entry "msds-lockoutobservationwindow" = Ok w1 ->
  interval entry "msds-lockoutduration" = Ok w2 ->
  interval entry "msds-minimumpasswordage" = Ok w3 ->
  interval entry "msds-maximumpasswordage" = Ok w4 ->
  emits (if Attr.contains entry "description"
         then io_bind (io_lift (field entry "description"))
                (fun v => print ("Description: " +:+ v))
         else io_ret tt) ld ->
  emits (if Attr.contains entry "msds-psoappliesto"
         then io_bind (io_lift (Attr.getitem entry "msds-psoappliesto"))
                (fun dns => io_for dns (fun dn => print ("Policy Applies to: " +:+ dn)))
         else io_ret tt) la ->
  emits (pso_block entry)
    (["Policy Name: " +:+ BLUE +:+ v1 +:+ RESET] ++ ld
     ++ ["Minimum Password Length: " +:+ CYAN +:+ v2 +:+ RESET]
     ++ ["Password History Length: " +:+ CYAN +:+ v3 +:+ RESET]
     ++ ["Lockout Threshold: " +:+ CYAN +:+ v4 +:+ RESET]
     ++ ["Observation Window: " +:+ w1]
     ++ ["Lockout Duration: " +:+ w2]
     ++ ["Complexity Enabled: " +:+ v5]
     ++ ["Minimum Password Age: " +:+ w3]
     ++ ["Maximum Password Age: " +:+ w4]
     ++ ["Reversible Encryption: " +:+ v6]
     ++ ["Precedence: " +:+ CYAN +:+ v7 +:+ RESET]
     ++ la ++ [EmptyString]).
Proof.
  intros. unfold pso_block.
  repeat first
    [ eapply emits_lift; [eassumption | cbv beta]
    | apply emits_seq; [first [apply emits_print | assumption]|]
    | apply emits_print ].
Qed.

Lemma filter_applies_description (ld : list string) :
  (forall line, In line ld -> exists v, line = "Description: " +:+ v) ->
  List.filter is_applies_line ld = [].
Proof.
  induction ld as [|l ls IH]; intros H; [reflexivity|].
  destruct (H l (or_introl eq_refl)) as [v ->]. cbn [List.filter].
  change (is_applies_line ("Description: " +:+ v)) with false.
  apply IH. intros line Hin. apply H. now right.
Qed.

Lemma filter_applies_principals (dns : list string) :
  List.filter is_applies_line (map (fun dn => "Policy Applies to: " +:+ dn) dns)
  = map (fun dn => "Policy Applies to: " +:+ dn) dns.
Proof.
  induction dns as [|dn dns IH]; [reflexivity|]. cbn [map List.filter].
  change (is_applies_line ("Policy Applies to: " +:+ dn)) with true.
  now rewrite IH.
Qed.

(** X14.  In the block of an entry that has the attributes read directly
    and whose interval attributes decode where present, the lines that
    name a principal are exactly one line per value of the applies-to
    attribute, in the order of the values; the block starts with the
    Policy Name line and ends with an empty line. *)
Theorem pso_block_principals (entry : Entry) (dns : list string) :
  (forall key, In key required_pso_attributes -> is_Some (entry !! key)) ->
  (forall key label, In (key, label) interval_labels ->
     entry !! key = None \/ is_ok (interval entry key) = true) ->
  entry !! "msds-psoappliesto" = Some dns ->
  exists name rest,
    emits (pso_block entry)
      (("Policy Name: " +:+ BLUE +:+ name +:+ RESET) :: rest ++ [EmptyString])
    /\ field entry "name" = Ok name
    /\ List.filter is_applies_line
         (("Policy Name: " +:+ BLUE +:+ name +:+ RESET) :: rest ++ [EmptyString])
       = map (fun dn => "Policy Applies to: " +:+ dn) dns.
Proof.
  intros Hreq Hint Hdns.
  destruct (field_present entry "name") as [v1 H1];
    [apply Hreq; simpl; tauto|].
  destruct (field_present entry "msds-minimumpasswordlength") as [v2 H2];
    [apply Hreq; simpl; tauto|].
  destruct (field_present entry "msds-passwordhistorylength") as [v3 H3];
    [apply Hreq; simpl; tauto|].
  destruct (field_present entry "msds-lockoutthreshold") as [v4 H4];
    [apply Hreq; simpl; tauto|].
  destruct (field_present entry "msds-passwordcomplexityenabled") as [v5 H5];
    [apply Hreq; simpl; tauto|].
  destruct (field_present entry "msds-passwordreversibleencryptionenabled") as [v6 H6];
    [apply Hreq; simpl; tauto|].
  destruct (field_present entry "msds-passwordsettingsprecedence") as [v7 H7];
    [apply Hreq; simpl; tauto|].
  destruct (interval_text entry "msds-lockoutobservationwindow") as (w1 & I1 & _);
    [apply (Hint _ "Observation Window"); simpl; tauto|].
  destruct (interval_text entry "msds-lockoutduration") as (w2 & I2 & _);
    [apply (Hint _ "Lockout Duration"); simpl; tauto|].
  destruct (interval_text entry "msds-minimumpasswordage") as (w3 & I3 & _);
    [apply (Hint _ "Minimum Password Age"); simpl; tauto|].
  destruct (interval_text entry "msds-maximumpasswordage") as (w4 & I4 & _);
    [apply (Hint _ "Maximum Password Age"); simpl; tauto|].
  destruct (description_part entry) as (ld & HD & _ & HDlines).
  assert (HA : emits (if Attr.contains entry "msds-psoappliesto"
                      then io_bind (io_lift (Attr.getitem entry "msds-psoappliesto"))
                             (fun dns => io_for dns
                                (fun dn => print ("Policy Applies to: " +:+ dn)))
                      else io_ret tt)
                 (map (fun dn => "Policy Applies to: " +:+ dn) dns)).
  { unfold Attr.contains, Attr.getitem. rewrite Hdns.
    eapply emits_lift; [reflexivity|].
    apply (emits_for_print (fun dn => "Policy Applies to: " +:+ dn)). }
  pose proof (pso_block_lines entry _ _ _ _ _ _ _ _ _ _ _ _ _
                H1 H2 H3 H4 H5 H6 H7 I1 I2 I3 I4 HD HA) as Hrun.
  exists v1.
  exists (ld
     ++ ["Minimum Password Length: " +:+ CYAN +:+ v2 +:+ RESET]
     ++ ["Password History Length: " +:+ CYAN +:+ v3 +:+ RESET]
     ++ ["Lockout Threshold: " +:+ CYAN +:+ v4 +:+ RESET]
     ++ ["Observation Window: " +:+ w1]
     ++ ["Lockout Duration: " +:+ w2]
     ++ ["Complexity Enabled: " +:+ v5]
     ++ ["Minimum Password Age: " +:+ w3]
     ++ ["Maximum Password Age: " +:+ w4]
     ++ ["Reversible Encryption: " +:+ v6]
     ++ ["Precedence: " +:+ CYAN +:+ v7 +:+ RESET]
     ++ map (fun dn => "Policy Applies to: " +:+ dn) dns).
  split; [|split; [exact H1|]].
  - cbn [app] in Hrun |- *. rewrite <- !app_assoc. cbn [app]. exact Hrun.
  - cbn [List.filter].
    change (is_applies_line ("Policy Name: " +:+ BLUE +:+ v1 +:+ RESET)) with false.
    cbv iota. rewrite !List.filter_app, (filter_applies_description ld HDlines),
      filter_applies_principals.
    cbn [app List.filter].
    change (is_applies_line ("Minimum Password Length: " +:+ CYAN +:+ v2 +:+ RESET)) with false.
    change (is_applies_line ("Password History Length: " +:+ CYAN +:+ v3 +:+ RESET)) with false.
    change (is_applies_line ("Lockout Threshold: " +:+ CYAN +:+ v4 +:+ RESET)) with false.
    change (is_applies_line ("Observation Window: " +:+ w1)) with false.
    change (is_applies_line ("Lockout Duration: " +:+ w2)) with false.
    change (is_applies_line ("Complexity Enabled: " +:+ v5)) with false.
    change (is_applies_line ("Minimum Password Age: " +:+ w3)) with false.
    change (is_applies_line ("Maximum Password Age: " +:+ w4)) with false.
    change (is_applies_line ("Reversible Encryption: " +:+ v6)) with false.
    change (is_applies_line ("Precedence: " +:+ CYAN +:+ v7 +:+ RESET)) with false.
    change (is_applies_line EmptyString) with false.
    cbv iota. cbn [app]. now rewrite app_nil_r.
Qed.

Lemma pso_block_principals_witness :
  exists name rest,
    emits (pso_block entry_pso_two_principals)
      (("Policy Name: " +:+ BLUE +:+ name +:+ RESET) :: rest ++ [EmptyString])
    /\ field entry_pso_two_principals "name" = Ok name
    /\ List.filter is_applies_line
         (("Policy Name: " +:+ BLUE +:+ name +:+ RESET) :: rest ++ [EmptyString])
       = map (fun dn => "Policy Applies to: " +:+ dn)
           ["CN=Admins,CN=Users,DC=corp,DC=local"; "CN=svc-backup,CN=Users,DC=corp,DC=local"].
Proof.
  apply (pso_block_principals entry_pso_two_principals).
  - intros key Hin. simpl in Hin.
    repeat (destruct Hin as [<- | Hin]; [vm_compute; eauto|]). destruct Hin.
  - intros key label Hin. simpl in Hin.
    repeat (destruct Hin as [Hin | Hin]; [injection Hin as <- <-; left; reflexivity|]).
    destruct Hin.
  - reflexivity.
Defined.

(** A block that is printed to its end has decoded its four interval
    lines. *)
Lemma pso_block_needs_intervals (entry : Entry) (tr : list Event) :
  fst (pso_block entry tr) = Ok tt ->
  forall key label, In (key, label) interval_labels -> is_ok (interval entry key) = true.
Proof.
  intros H. unfold pso_block in H.
  repeat match type of H with
         | fst (io_bind (io_lift (interval entry ?key)) _ _) = Ok _ =>
             let v := fresh "v" in
             let Hv := fresh "Hv" in
             let tr' := fresh "tr" in
             apply io_bind_ok_inv in H as (v & tr' & Hv & H);
             unfold io_lift in Hv; injection Hv as Hv _
         | fst (io_bind _ _ _) = Ok _ =>
             let a := fresh "a" in
             let Ha := fresh "Ha" in
             let tr' := fresh "tr" in
             apply io_bind_ok_inv in H as (a & tr' & Ha & H); clear Ha
         end.
  intros key label Hin. simpl in Hin.
  repeat (destruct Hin as [Hin | Hin];
          [injection Hin as <- <-;
           match goal with Hv : interval entry ?k = Ok _ |- is_ok (interval entry ?k) = true =>
             now rewrite Hv end|]).
  destruct Hin.
Qed.

(** X15.  An attribute that is present without a value is not treated as
    an absent one.  Where the block reads it directly, it prints None; an
    interval attribute is not printed as N/A: [int] is applied to [None]
    and raises [TypeError], which ends the block. *)
Theorem attribute_without_value (entry : Entry) (key : string) :
  entry !! key = Some [] ->
  field entry key = Ok "None"
  /\ interval entry key = Raise TypeError
  /\ (forall label tr, In (key, label) interval_labels ->
        fst (pso_block entry tr) <> Ok tt).
Proof.
  intros H. split; [|split].
  - unfold field, Attr.getitem. now rewrite H.
  - unfold interval, Attr.contains, Attr.getitem. now rewrite H.
  - intros label tr Hin Hok.
    pose proof (pso_block_needs_intervals entry tr Hok key label Hin) as Hi.
    unfold interval, Attr.contains, Attr.getitem in Hi. rewrite H in Hi. discriminate.
Qed.

Lemma attribute_without_value_witness :
  interval entry_pso_empty_duration "msds-lockoutduration" = Raise TypeError
  /\ fst (run (pso_block entry_pso_empty_duration)) <> Ok tt.
Proof.
  destruct (attribute_without_value entry_pso_empty_duration "msds-lockoutduration")
    as (_ & Hi & Hb); [reflexivity|].
  split; [exact Hi|].
  apply (Hb "Lockout Duration" []). simpl. tauto.
Defined.

(** ** What a query function does, in which order *)

(** The bind attempts of [connect]: one, or two with the diagnostic of
    the first between them, and the diagnostic of the second after them
    when it failed as well. *)
Lemma connect_shape (w : World) (username password domain : string)
    (dc_ip : option string) (tr : list Event) :
  let user := domain +:+ "\" +:+ username in
  let plain := Bind (target domain dc_ip +:+ ":389") user password false in
  let encrypted := Bind (target domain dc_ip +:+ ":636") user password true in
  let retry := Print "LDAP on port 389 failed, trying LDAPS on port 636..." in
  exists r binds,
    connect w username password domain dc_ip tr = (r, tr ++ binds)
    /\ ((binds = [plain]
         /\ (r = Ok (Some (mkConnection (target domain dc_ip +:+ ":389") user password false))
             \/ exists e, r = Raise e))
        \/ (exists d1, binds = [plain; Print d1; retry; encrypted]
            /\ (r = Ok (Some (mkConnection (target domain dc_ip +:+ ":636") user password true))
                \/ exists e, r = Raise e))
        \/ (exists d1 d2, binds = [plain; Print d1; retry; encrypted; Print d2]
            /\ r = Ok None)).
Proof.
  intros user plain encrypted retry. subst user plain encrypted retry.
  set (plain := Bind (target domain dc_ip +:+ ":389") (domain +:+ "\" +:+ username)
                  password false).
  destruct (bind_result w (tr ++ [plain])) as [u|e] eqn:H.
  - rewrite (connect_plain _ _ _ _ _ _ _ H). do 2 eexists. split; [reflexivity|].
    left. split; [reflexivity | now left].
  - destruct (diagnostic (target domain dc_ip +:+ ":389") e) as [d|] eqn:Hd.
    + rewrite (connect_fallback _ _ _ _ _ _ _ _ H Hd).
      set (tr2 := tr ++ _).
      set (ssl := Bind (target domain dc_ip +:+ ":636") (domain +:+ "\" +:+ username)
                    password true).
      destruct (bind_result w (tr2 ++ [ssl])) as [u|e2] eqn:H2.
      * rewrite (create_connection_bound _ _ _ _ _ _ _ H2). subst tr2.
        rewrite <- app_assoc. do 2 eexists. split; [reflexivity|].
        right. left. exists d. split; [reflexivity | now left].
      * destruct (diagnostic (target domain dc_ip +:+ ":636") e2) as [d2|] eqn:Hd2.
        -- rewrite (create_connection_failed _ _ _ _ _ _ _ _ H2 Hd2). subst tr2.
           rewrite <- app_assoc. do 2 eexists. split; [reflexivity|].
           right. right. exists d, d2. split; reflexivity.
        -- rewrite (create_connection_raised _ _ _ _ _ _ _ H2 Hd2). subst tr2.
           rewrite <- app_assoc. do 2 eexists. split; [reflexivity|].
           right. left. exists d. split; [reflexivity | right; now exists e2].
    + rewrite (connect_plain_raised _ _ _ _ _ _ _ H Hd). do 2 eexists.
      split; [reflexivity|]. left. split; [reflexivity | right; now exists e].
Qed.

(** A query function with a session searches once, prints, and unbinds
    unless an exception was raised. *)
Lemma query_after_connect
    (family : World -> string -> string -> string -> option string -> IO unit)
    (w : World) (username password domain : string) (dc_ip : option string)
    (tr tr1 : list Event) (conn : Connection) :
  In family query_functions ->
  connect w username password domain dc_ip tr = (Ok (Some conn), tr1) ->
  exists search_base search_filter attributes lines,
    let query := Search conn search_base search_filter attributes in
    family w username password domain dc_ip tr
      = (Ok tt, tr1 ++ query :: map Print lines ++ [Unbind conn])
    \/ exists e, family w username password domain dc_ip tr
                 = (Raise e, tr1 ++ query :: map Print lines).
Proof.
  intros Hfam Hconnect.
  destruct Hfam as [<- | [<- | [<- | []]]].
  - unfold get_group_pso. rewrite (io_bind_ok _ _ _ _ _ Hconnect).
    set (body := fun entries : list Entry =>
                   io_bind (io_lift (project_groups entries)) (print_table "Groups")).
    destruct (after_search_released body w conn
                ("DC=" +:+ Py.join ",DC=" (Py.split "." domain)) "(objectClass=group)"
                ["cn"; "msDS-PSOApplied"] tr1) as (lines & Hrun & _).
    { intros entries. subst body.
      apply prints_only_bind; [apply prints_only_lift | intros t; apply print_table_prints]. }
    do 3 eexists. exists lines. cbv zeta.
    erewrite io_bind_ext; [exact Hrun|].
    intros entries tr'. subst body. symmetry. apply io_bind_assoc.
  - unfold get_user_attributes. rewrite (io_bind_ok _ _ _ _ _ Hconnect).
    set (body := fun entries : list Entry =>
                   io_bind (io_lift (project_users entries)) (print_table "Users")).
    destruct (after_search_released body w conn
                ("DC=" +:+ Py.join ",DC=" (Py.split "." domain)) "(objectClass=user)"
                ["sAMAccountName"; "msDS-ResultantPSO"] tr1) as (lines & Hrun & _).
    { intros entries. subst body.
      apply prints_only_bind; [apply prints_only_lift | intros t; apply print_table_prints]. }
    do 3 eexists. exists lines. cbv zeta.
    erewrite io_bind_ext; [exact Hrun|].
    intros entries tr'. subst body. symmetry. apply io_bind_assoc.
  - unfold get_pso_details. rewrite (io_bind_ok _ _ _ _ _ Hconnect).
    set (body := fun entries : list Entry =>
                   if 0 <? Z.of_nat (List.length entries) then io_for entries pso_block
                   else print "Could not enumerate details, you likely do not have the privileges to do so!").
    destruct (after_search_released body w conn
                ("CN=Password Settings Container,CN=System," +:+ base_creator domain)
                "(objectclass=msDS-PasswordSettings)" pso_attributes tr1)
      as (lines & Hrun & _).
    { intros entries. subst body. apply prints_only_if.
      - apply prints_only_for. intros entry. apply pso_block_prints.
      - apply prints_only_print. }
    do 3 eexists. exists lines. cbv zeta. exact Hrun.
Qed.

Lemma query_without_session
    (family : World -> string -> string -> string -> option string -> IO unit)
    (w : World) (username password domain : string) (dc_ip : option string)
    (tr tr1 : list Event) :
  In family query_functions ->
  (connect w username password domain dc_ip tr = (Ok None, tr1) ->
   family w username password domain dc_ip tr
   = (Ok tt, tr1 ++ [Print "Both LDAP and LDAPS connection attempts failed."]))
  /\ (forall e, connect w username password domain dc_ip tr = (Raise e, tr1) ->
        family w username password domain dc_ip tr = (Raise e, tr1)).
Proof.
  intros Hfam. split.
  - intros Hc.
    destruct Hfam as [<- | [<- | [<- | []]]];
      [unfold get_group_pso | unfold get_user_attributes | unfold get_pso_details];
      now rewrite (io_bind_ok _ _ _ _ _ Hc).
  - intros e Hc.
    destruct Hfam as [<- | [<- | [<- | []]]];
      [unfold get_group_pso | unfold get_user_attributes | unfold get_pso_details];
      exact (io_bind_raise _ _ _ _ _ Hc).
Qed.



(** ** The three sections of a run *)

(** A query function only adds to what the run did. *)
Lemma query_appends
    (family : World -> string -> string -> string -> option string -> IO unit)
    (w : World) (username password domain : string) (dc_ip : option string)
    (tr : list Event) :
  In family query_functions ->
  exists events, snd (family w username password domain dc_ip tr) = tr ++ events.
Proof.
  intros Hfam.
  destruct (connect_shape w username password domain dc_ip tr) as (r & binds & Hc & _).
  destruct r as [[conn|]|e].
  - destruct (query_after_connect family w username password domain dc_ip tr _ conn Hfam Hc)
      as (b & f & a & lines & [Hrun | [e Hrun]]); cbv zeta in Hrun; rewrite Hrun; cbn [snd];
      rewrite <- app_assoc; eauto.
  - rewrite (proj1 (query_without_session family w username password domain dc_ip tr _ Hfam) Hc).
    cbn [snd]. rewrite <- app_assoc. eauto.
  - rewrite (proj2 (query_without_session family w username password domain dc_ip tr _ Hfam) e Hc).
    cbn [snd]. eauto.
Qed.

(** X17.  A run is the three sections in a fixed order, each a heading
    followed by what its query function does: groups, users, details.  An
    exception of the groups or of the users query ends the run with that
    exception, after what the query did; once both have returned the run
    returns, and an exception of the details query is followed by the
    line that reports it. *)
Theorem main_sections (w : World) (username password domain dc_ip : string) :
  let h1 := Print "Groups with PSO applied:" in
  let h2 := Print (newline +:+ "Users with PSO applied:") in
  let h3 := Print (newline +:+ "PSO Details:") in
  exists g rg,
    get_group_pso w username password domain (Some dc_ip) [h1] = (rg, h1 :: g)
    /\ match rg with
       | Raise e => run (main w username password domain dc_ip) = (Raise e, h1 :: g)
       | Ok _ =>
           exists u ru,
             get_user_attributes w username password domain (Some dc_ip) (h1 :: g ++ [h2])
             = (ru, h1 :: g ++ h2 :: u)
             /\ match ru with
                | Raise e =>
                    run (main w username password domain dc_ip)
                    = (Raise e, h1 :: g ++ h2 :: u)
                | Ok _ =>
                    exists d rd,
                      get_pso_details w username password domain (Some dc_ip)
                        (h1 :: g ++ h2 :: u ++ [h3])
                      = (rd, h1 :: g ++ h2 :: u ++ h3 :: d)
                      /\ run (main w username password domain dc_ip)
                         = (Ok tt,
                            h1 :: g ++ h2 :: u ++ h3 :: d
                            ++ match rd with
                               | Raise e => [PrintError details_error e]
                               | Ok _ => []
                               end)
                end
       end.
Proof.
  intros h1 h2 h3.
  destruct (query_appends get_group_pso w username password domain (Some dc_ip) [h1])
    as [g Hg]; [left; reflexivity|].
  destruct (get_group_pso w username password domain (Some dc_ip) [h1]) as [rg trg] eqn:Eg.
  cbn [snd app] in Hg. subst trg. exists g, rg. split; [reflexivity|].
  destruct rg as [[]|e].
  - destruct (query_appends get_user_attributes w username password domain (Some dc_ip)
                (h1 :: g ++ [h2])) as [u Hu]; [right; left; reflexivity|].
    destruct (get_user_attributes w username password domain (Some dc_ip) (h1 :: g ++ [h2]))
      as [ru tru] eqn:Eu.
    cbn [snd] in Hu. rewrite <- app_comm_cons, <- app_assoc in Hu. cbn [app] in Hu. subst tru.
    exists u, ru. split; [reflexivity|].
    destruct ru as [[]|e].
    + destruct (query_appends get_pso_details w username password domain (Some dc_ip)
                  (h1 :: g ++ h2 :: u ++ [h3])) as [d Hd];
        [right; right; left; reflexivity|].
      destruct (get_pso_details w username password domain (Some dc_ip)
                  (h1 :: g ++ h2 :: u ++ [h3])) as [rd trd] eqn:Ed.
      cbn [snd] in Hd.
      assert (Hl : (h1 :: g ++ h2 :: u ++ [h3]) ++ d = h1 :: g ++ h2 :: u ++ h3 :: d).
      { cbn [app]. rewrite <- !app_assoc. cbn [app].
        rewrite <- !app_assoc. reflexivity. }
      rewrite Hl in Hd. subst trd. exists d, rd. split; [reflexivity|].
      unfold run, main.
      rewrite (io_bind_ok _ _ [] [h1] tt) by reflexivity.
      rewrite (io_bind_ok _ _ _ _ _ Eg).
      rewrite (io_bind_ok _ _ (h1 :: g) (h1 :: g ++ [h2]) tt) by reflexivity.
      rewrite (io_bind_ok _ _ _ _ _ Eu).
      rewrite (io_bind_ok _ _ (h1 :: g ++ h2 :: u) (h1 :: g ++ h2 :: u ++ [h3]) tt).
      * unfold io_try. rewrite Ed. destruct rd as [[]|e].
        -- now rewrite app_nil_r.
        -- unfold emit, details_error. cbn [app]. rewrite <- !app_assoc. cbn [app].
           rewrite <- !app_assoc. reflexivity.
      * unfold print, emit. cbn [app]. rewrite <- !app_assoc. reflexivity.
    + unfold run, main.
      rewrite (io_bind_ok _ _ [] [h1] tt) by reflexivity.
      rewrite (io_bind_ok _ _ _ _ _ Eg).
      rewrite (io_bind_ok _ _ (h1 :: g) (h1 :: g ++ [h2]) tt) by reflexivity.
      now rewrite (io_bind_raise _ _ _ _ _ Eu).
  - unfold run, main.
    rewrite (io_bind_ok _ _ [] [h1] tt) by reflexivity.
    now rewrite (io_bind_raise _ _ _ _ _ Eg).
Qed.

(** ** The components of the search base *)

Lemma dots_to_dc_no_dot (s : string) : Py.contains_char "." (dots_to_dc s) = false.
Proof.
  induction s as [|x s IH]; [reflexivity|]. cbn [dots_to_dc].
  destruct (Ascii.eqb x ".") eqn:E.
  - cbn. exact IH.
  - cbn [Py.contains_char]. now rewrite E, IH.
Qed.

(** X18.  The search base has no dot left in it, and for a domain
    without a comma its comma-separated components are the labels of the
    domain, in their order, each with DC= before it: an empty label (two
    dots in a row, a dot at an end, the empty domain) gives the component
    DC= with nothing after it. *)
Theorem base_creator_components (domain : string) :
  Py.contains_char "." (base_creator domain) = false
  /\ (Py.contains_char "," domain = false ->
      Py.split "," (base_creator domain)
      = map (fun label => "DC=" +:+ label) (Py.split "." domain)).
Proof.
  split.
  - rewrite base_creator_inline, join_dc_split. cbn. apply dots_to_dc_no_dot.
  - intros H. unfold base_creator, Py.join.
    apply (split_join "," (map (fun part => "DC=" +:+ part) (Py.split "." domain))).
    + pose proof (split_not_nil "." domain). destruct (Py.split "." domain); [congruence|].
      discriminate.
    + apply List.Forall_forall. intros part Hin.
      apply in_map_iff in Hin as (label & <- & Hin).
      pose proof (split_parts_free "." "," domain H) as HF.
      pose proof (proj1 (List.Forall_forall _ _) HF _ Hin) as Hl.
      cbn. exact Hl.
Qed.

Lemma base_creator_components_witness :
  Py.split "," (base_creator "corp..local")
  = map (fun label => "DC=" +:+ label) (Py.split "." "corp..local").
Proof.
  apply (proj2 (base_creator_components "corp..local")). reflexivity.
Defined.

(** ** Attributes with several values *)

Lemma plain_char_repr (quote c : ascii) :
  plain_char c = true ->
  (quote = Py.squote \/ quote = Py.dquote) ->
  forall rest, Py.repr_body quote (String c rest) = String c (Py.repr_body quote rest).
Proof.
  unfold plain_char. intros H Hq rest.
  apply andb_true_iff in H as [H Hb]. apply andb_true_iff in H as [H Hd].
  apply andb_true_iff in H as [Hp Hs].
  apply negb_true_iff in Hb, Hd, Hs.
  cbn [Py.repr_body].
  assert (Hquote : Ascii.eqb c quote = false) by (destruct Hq; subst; assumption).
  rewrite Hquote, Hb. cbn [orb].
  destruct (Ascii.eqb c "009") eqn:E1;
    [apply Ascii.eqb_eq in E1; subst c; discriminate|].
  destruct (Ascii.eqb c "010") eqn:E2;
    [apply Ascii.eqb_eq in E2; subst c; discriminate|].
  destruct (Ascii.eqb c "013") eqn:E3;
    [apply Ascii.eqb_eq in E3; subst c; discriminate|].
  rewrite Hp. reflexivity.
Qed.

Lemma plain_repr (quote : ascii) (p rest : string) :
  plain p = true ->
  (quote = Py.squote \/ quote = Py.dquote) ->
  Py.repr_body quote (p +:+ rest) = p +:+ Py.repr_body quote rest.
Proof.
  intros Hp Hq. induction p as [|c p IH]; [reflexivity|].
  cbn [plain] in Hp. apply andb_true_iff in Hp as [Hc Hp].
  cbn [String.append]. rewrite (plain_char_repr quote c Hc Hq). now rewrite IH.
Qed.

Lemma plain_app (a b : string) : plain (a +:+ b) = plain a && plain b.
Proof.
  induction a as [|c a IH]; [reflexivity|]. cbn [String.append plain].
  now rewrite IH, andb_assoc.
Qed.

(** X19.  When the PSO attribute of an entry has several values, the
    text the name is extracted from is the text of the list of values,
    and the extracted name is the name in the first value: for a first
    value [key=name,...] whose key and name are made of printable
    characters other than quotes and the backslash, the row shows [name],
    and the other values leave no trace. *)
Theorem pso_name_of_several_values (key name tail second : string) (others : list string) :
  plain key = true -> plain name = true ->
  Py.contains_char "," key = false -> Py.contains_char "=" key = false ->
  Py.contains_char "," name = false -> Py.contains_char "=" name = false ->
  pso_name_of (Attr.str ((key +:+ "=" +:+ name +:+ "," +:+ tail) :: second :: others))
  = Ok name.
Proof.
  intros Hk Hn Hk1 Hk2 Hn1 Hn2.
  cbn [Attr.str]. unfold Py.str_list. cbn [map].
  set (first := key +:+ "=" +:+ name +:+ "," +:+ tail).
  set (rest := map Py.repr_str others).
  unfold Py.join. cbn [String.concat].
  assert (Hrepr : exists quote more,
            (quote = Py.squote \/ quote = Py.dquote)
            /\ Py.repr_str first = String quote (key +:+ "=" +:+ name +:+ "," +:+ more)).
  { unfold Py.repr_str.
    set (quote := if Py.contains_char Py.squote first && negb (Py.contains_char Py.dquote first)
                  then Py.dquote else Py.squote).
    assert (Hq : quote = Py.squote \/ quote = Py.dquote)
      by (subst quote; destruct (_ && _); auto).
    exists quote. eexists. split; [exact Hq|]. f_equal.
    subst first.
    replace (key +:+ "=" +:+ name +:+ "," +:+ tail)
      with ((key +:+ "=" +:+ name +:+ ",") +:+ tail)
      by (rewrite !append_assoc; reflexivity).
    rewrite (plain_repr quote (key +:+ "=" +:+ name +:+ ",")); [|  | exact Hq].
    - rewrite !append_assoc. reflexivity.
    - rewrite !plain_app, Hk, Hn. reflexivity. }
  destruct Hrepr as (quote & more & Hq & ->).
  match goal with
  | |- context [String quote ?body +:+ ?a] => set (after := a)
  end.
  replace ("[" +:+ (String quote (key +:+ "=" +:+ name +:+ "," +:+ more) +:+ after) +:+ "]")
    with (String "[" (String quote key) +:+ "=" +:+ name +:+ ("," +:+ more +:+ after +:+ "]"))
    by (cbn [String.append]; rewrite !append_assoc; cbn [String.append];
        rewrite ?append_assoc; reflexivity).
  apply (pso_name_of_component (String "[" (String quote key)) name).
  - cbn [Py.contains_char]. rewrite Hk1. destruct Hq; subst quote; reflexivity.
  - cbn [Py.contains_char]. rewrite Hk2. destruct Hq; subst quote; reflexivity.
  - exact Hn1.
  - exact Hn2.
  - cbn. now left.
Qed.

Lemma pso_name_of_several_values_witness :
  pso_name_of
    (Attr.str
       (("CN" +:+ "=" +:+ "OpsPolicy" +:+ ","
         +:+ "CN=Password Settings Container,CN=System,DC=corp,DC=local")
        :: "CN=Fallback,CN=Password Settings Container,CN=System,DC=corp,DC=local" :: []))
  = Ok "OpsPolicy".
Proof.
  apply (pso_name_of_several_values "CN" "OpsPolicy"); reflexivity.
Defined.

(** ** A Users or Groups query from the search to the unbind *)

Lemma print_table_emits (title : string) (t : Table) :
  Forall name_is_str (results t) ->
  emits (print_table title t)
    (table_header title t :: table_separator t :: map (row_line t) (results t)).
Proof.
  intros Hstr. unfold print_table.
  apply (emits_seq _ _ [table_header title t] (_ :: _)); [apply emits_print|].
  apply (emits_seq _ _ [table_separator t] _); [apply emits_print|].
  apply (emits_for (results t) _ (row_line t)).
  apply List.Forall_forall. intros [name pso_name] Hin.
  apply (proj1 (List.Forall_forall _ _) Hstr) in Hin as [s Hs]. cbn [fst] in Hs. subst name.
  eapply emits_lift; [reflexivity|]. apply emits_print.
Qed.

Lemma rows_of_entries {A B : Type} (R : A -> B -> Prop) (P : A -> Prop) (Q : B -> Prop)
    (l : list A) (rows : list B) :
  Forall2 R l rows -> Forall P l -> (forall x y, R x y -> P x -> Q y) -> Forall Q rows.
Proof.
  intros HR HP Himp. induction HR as [|x y l rows Hxy _ IH]; [constructor|].
  inversion HP; subst. constructor; [eapply Himp; eassumption | now apply IH].
Qed.

(** X20.  With a session established, when every user entry with a
    present, non-empty resultant-PSO attribute has an equals sign in the
    first comma-delimited segment of that value and an account name that
    is a [str] (one value, or none and the default), the Users query is:
    the search, the header, the separator, one line per such entry in the
    order of the search, and the unbind. *)
Theorem users_query_output (w : World) (username password domain : string)
    (dc_ip : option string) (tr tr1 : list Event) (conn : Connection)
    (entries : list Entry) :
  connect w username password domain dc_ip tr = (Ok (Some conn), tr1) ->
  let users := Search conn ("DC=" +:+ Py.join ",DC=" (Py.split "." domain))
                 "(objectClass=user)" ["sAMAccountName"; "msDS-ResultantPSO"] in
  search_result w (tr1 ++ [users]) = Ok entries ->
  (forall entry a, In entry entries ->
     entry !! "msDS-ResultantPSO" = Some a -> a <> [] ->
     Py.contains_char "=" (before "," (Attr.str a)) = true
     /\ exists s, account_name entry = VStr s) ->
  exists t,
    project_users entries = Ok t
    /\ Forall2 user_row_of (List.filter (has_values "msDS-ResultantPSO") entries) (results t)
    /\ get_user_attributes w username password domain dc_ip tr
       = (Ok tt,
          tr1 ++ users
          :: map Print (table_header "Users" t :: table_separator t
                        :: map (row_line t) (results t))
          ++ [Unbind conn]).
Proof.
  intros Hconnect users Hs Hpre. subst users.
  destruct (users_rows_from entries) with (t0 := mkTable [] (Py.len "Users") (Py.len "PSO"))
    as (t & rows & Hrun & Hres & Hrows).
  { intros entry a Hin Ha Hne. destruct (Hpre entry a Hin Ha Hne) as [Heq [s Hacc]].
    split; [exact Heq | rewrite Hacc; discriminate]. }
  cbn [results app] in Hres. subst rows.
  exists t. split; [exact Hrun|]. split; [exact Hrows|].
  assert (Hstr : Forall name_is_str (results t)).
  { eapply (rows_of_entries user_row_of
              (fun entry => In entry entries /\ has_values "msDS-ResultantPSO" entry = true));
      [exact Hrows | |].
    - apply List.Forall_forall. intros entry Hin. now apply filter_In in Hin.
    - intros entry row [Hfst _] [Hin Hv].
      destruct (has_values_lookup _ _ Hv) as (a & Ha & Hne).
      destruct (Hpre entry a Hin Ha Hne) as [_ [s Hacc]].
      exists s. now rewrite Hfst. }
  unfold get_user_attributes.
  rewrite (io_bind_ok _ _ _ _ _ Hconnect).
  rewrite (io_bind_ok _ _ _ _ _ (search_answer _ _ _ _ _ _ _ Hs)).
  unfold project_users in Hrun. unfold project_users. rewrite Hrun.
  rewrite (io_bind_ok _ _ _ _ t (outputs_lift (Ok t) _)).
  rewrite (io_bind_ok _ _ _ _ tt (print_table_emits "Users" t Hstr _)).
  unfold unbind, emit. cbn [map app]. rewrite <- !app_assoc. cbn [app]. reflexivity.
Qed.

Lemma users_query_output_witness :
  exists t,
    project_users [entry_alice; entry_no_pso; entry_no_account] = Ok t
    /\ Forall2 user_row_of
         (List.filter (has_values "msDS-ResultantPSO")
            [entry_alice; entry_no_pso; entry_no_account]) (results t)
    /\ run (get_user_attributes (answers_users [entry_alice; entry_no_pso; entry_no_account])
              "auditor" "secret" "corp.local" (Some "10.0.0.5"))
       = (Ok tt,
          [Bind "10.0.0.5:389" "corp.local\auditor" "secret" false]
          ++ Search (mkConnection "10.0.0.5:389" "corp.local\auditor" "secret" false)
               ("DC=" +:+ Py.join ",DC=" (Py.split "." "corp.local"))
               "(objectClass=user)" ["sAMAccountName"; "msDS-ResultantPSO"]
          :: map Print (table_header "Users" t :: table_separator t
                        :: map (row_line t) (results t))
          ++ [Unbind (mkConnection "10.0.0.5:389" "corp.local\auditor" "secret" false)]).
Proof.
  apply (users_query_output (answers_users [entry_alice; entry_no_pso; entry_no_account])
           "auditor" "secret" "corp.local" (Some "10.0.0.5") []).
  - reflexivity.
  - reflexivity.
  - intros entry a [<- | [<- | [<- | []]]] Ha Hne.
    + vm_compute in Ha. injection Ha as <-. split; [vm_compute; reflexivity|].
      exists "alice". vm_compute. reflexivity.
    + vm_compute in Ha. discriminate.
    + vm_compute in Ha. injection Ha as <-. split; [vm_compute; reflexivity|].
      exists "N/A". vm_compute. reflexivity.
Defined.

(** X21.  With a session established, when every group entry with a
    present, non-empty applied-PSO attribute has an equals sign in the
    first comma-delimited segment of that value and a [cn] attribute with
    exactly one value, the Groups query is: the search, the header, the
    separator, one line per such entry in the order of the search, and
    the unbind. *)
Theorem groups_query_output (w : World) (username password domain : string)
    (dc_ip : option string) (tr tr1 : list Event) (conn : Connection)
    (entries : list Entry) :
  connect w username password domain dc_ip tr = (Ok (Some conn), tr1) ->
  let groups := Search conn ("DC=" +:+ Py.join ",DC=" (Py.split "." domain))
                  "(objectClass=group)" ["cn"; "msDS-PSOApplied"] in
  search_result w (tr1 ++ [groups]) = Ok entries ->
  (forall entry a, In entry entries ->
     entry !! "msDS-PSOApplied" = Some a -> a <> [] ->
     Py.contains_char "=" (before "," (Attr.str a)) = true
     /\ exists name, entry !! "cn" = Some [name]) ->
  exists t,
    project_groups entries = Ok t
    /\ Forall2 group_row_of (List.filter (has_values "msDS-PSOApplied") entries) (results t)
    /\ get_group_pso w username password domain dc_ip tr
       = (Ok tt,
          tr1 ++ groups
          :: map Print (table_header "Groups" t :: table_separator t
                        :: map (row_line t) (results t))
          ++ [Unbind conn]).
Proof.
  intros Hconnect groups Hs Hpre. subst groups.
  destruct (groups_rows_from entries) with (t0 := mkTable [] (Py.len "Groups") (Py.len "PSO"))
    as (t & rows & Hrun & Hres & Hrows).
  { intros entry a Hin Ha Hne. destruct (Hpre entry a Hin Ha Hne) as [Heq [name Hcn]].
    split; [exact Heq | exists [name]; split; [exact Hcn | discriminate]]. }
  cbn [results app] in Hres. subst rows.
  exists t. split; [exact Hrun|]. split; [exact Hrows|].
  assert (Hstr : Forall name_is_str (results t)).
  { eapply (rows_of_entries group_row_of
              (fun entry => In entry entries /\ has_values "msDS-PSOApplied" entry = true));
      [exact Hrows | |].
    - apply List.Forall_forall. intros entry Hin. now apply filter_In in Hin.
    - intros entry row [(cn & Hcn & Hfst) _] [Hin Hv].
      destruct (has_values_lookup _ _ Hv) as (a & Ha & Hne).
      destruct (Hpre entry a Hin Ha Hne) as [_ [name Hname]].
      exists name. rewrite Hfst. rewrite Hname in Hcn. now injection Hcn as <-. }
  unfold get_group_pso.
  rewrite (io_bind_ok _ _ _ _ _ Hconnect).
  rewrite (io_bind_ok _ _ _ _ _ (search_answer _ _ _ _ _ _ _ Hs)).
  unfold project_groups in Hrun. unfold project_groups. rewrite Hrun.
  rewrite (io_bind_ok _ _ _ _ t (outputs_lift (Ok t) _)).
  rewrite (io_bind_ok _ _ _ _ tt (print_table_emits "Groups" t Hstr _)).
  unfold unbind, emit. cbn [map app]. rewrite <- !app_assoc. cbn [app]. reflexivity.
Qed.

Lemma groups_query_output_witness :
  exists t,
    project_groups [group_admins; group_two_policies] = Ok t
    /\ Forall2 group_row_of
         (List.filter (has_values "msDS-PSOApplied") [group_admins; group_two_policies])
         (results t)
    /\ run (get_group_pso (answers_users [group_admins; group_two_policies])
              "auditor" "secret" "corp.local" (Some "10.0.0.5"))
       = (Ok tt,
          [Bind "10.0.0.5:389" "corp.local\auditor" "secret" false]
          ++ Search (mkConnection "10.0.0.5:389" "corp.local\auditor" "secret" false)
               ("DC=" +:+ Py.join ",DC=" (Py.split "." "corp.local"))
               "(objectClass=group)" ["cn"; "msDS-PSOApplied"]
          :: map Print (table_header "Groups" t :: table_separator t
                        :: map (row_line t) (results t))
          ++ [Unbind (mkConnection "10.0.0.5:389" "corp.local\auditor" "secret" false)]).
Proof.
  apply (groups_query_output (answers_users [group_admins; group_two_policies])
           "auditor" "secret" "corp.local" (Some "10.0.0.5") []).
  - reflexivity.
  - reflexivity.
  - intros entry a [<- | [<- | []]] Ha Hne.
    + vm_compute in Ha. injection Ha as <-. split; [vm_compute; reflexivity|].
      exists "Admins". vm_compute. reflexivity.
    + vm_compute in Ha. injection Ha as <-. split; [vm_compute; reflexivity|].
      exists "Operators". vm_compute. reflexivity.
Defined.
